(* ===== verification/_CoqProject ===== *)
-Q . S2P
Prelude.v
Workflow.v
Poller.v
PollTree.v
Queue.v
Submit.v
Thumbnail.v
ThumbRace.v
Server.v
Catalog.v
Download.v
Peer.v
Capture.v
