(* ===== verification/Prelude.v ===== *)
(** * A verification library for the spreads web plugin

    The program is [src/spreadsplug/web/web.py], the Flask views of a
    book-scanning station.  Its core, by the spec, is the hand-off of a
    captured workflow to a postprocessing server and the change
    notification around it:
    - a workflow (images, current step, step flag) is mutated by the
      capture views and watched by a long poll ([poll_for_updates]);
    - once captured, [submit_workflow] creates the workflow on a peer
      running this same service, uploads every image to it and enqueues
      it there ([add_to_queue] of the peer);
    - the peer's views ([create_workflow], [upload_workflow_image],
      [add_to_queue]) store what they receive; thumbnails are derived and
      cached on read ([get_workflow_image_thumb]).

    ** Files

    - [Prelude] (this file): the Python and Flask semantics the views run
      on.  [Outcome] is the end of a view (a value, [abort(code)], or an
      exception); [PyM S A] is the state-and-exception monad the views are
      written in, with its notation in [py_scope]; [json] is a decoded
      body; [flask_status] is the status Flask answers, [None] giving 500;
      [py_call_kwargs] is Flask's keyword call of a view; [no_abort] is a
      compositional predicate to show which statuses a view can produce.
    - [Workflow]: the workflow record (class [spreads.workflow.Workflow],
      outside [src/], spec-modelled), its capture-side methods, its
      configuration as a [confit] stack of dictionaries with [config_set]
      (which refuses anything but a dictionary), and the
      WorkflowStateTracker: [snapshot_of] and the change test [updated] of
      lines 169-191.
    - [Poller]: ChangePoller, lines 163-192.  The view runs against an
      environment: [obs r] is the [r]-th read of the shared workflow and
      [clock n] the [n]-th [time.time()].  [poll_loop] is the loop with
      fuel; [poll_for_updates_first] gives its closed form (the first
      iteration that is not quiet); [await_change] is the spec's contract
      with a fixed baseline, for comparison.
    - [PollTree]: the same view without fuel, as an interaction tree
      ([ITree.iter]) over the events [ReadWorkflow], [ReadClock] and
      [Sleep]; [handle_poll] answers them from the environment of
      [Poller], so that the two models can be compared.  Divergence is
      [ITree.spin], reached by a coinduction ([einit]/[ecofix]) on an
      invariant of the loop ([interp_iter_spin]).
    - [Queue]: JobQueue.  The persistence module is outside [src/]: its
      queue is the class [QueueStore] with the laws [QueueStoreSpec],
      implemented by [ListQueue].  The views [add_to_queue], [list_jobs],
      [remove_from_queue] (lines 270-292) are proved from the laws alone.
      Concurrent clients of [POST /queue] are a system of clients
      ([qsys]) stepped one request at a time ([queue_step]).
    - [Submit]: RemoteSubmissionClient, lines 223-264.  The remote is a
      transport [post] on an abstract remote state; the view's state
      records the requests sent, in order.  [requests] is modelled as used:
      truthiness is [resp.ok], [resp.code] raises [AttributeError],
      [resp.json] depends on the library version ([RequestsVersion]).
    - [Thumbnail]: ThumbnailCache, lines 317-345, over a [gmap] of files;
      the height is computed in IEEE binary64 ([PrimFloat]) as Python does.
    - [ThumbRace]: concurrent thumbnail requests.  A request is cut at its
      unlocked check-then-generate into two atomic steps ([thumb_check],
      lines 331-338, and [thumb_generate], lines 339-345), which run back
      to back are the view ([thumb_check_generate]); a pool of workers
      over the shared temporary directory steps one worker at a time
      ([thread_step], [race_step]), as Flask's threaded server may
      interleave them.
    - [Server]: the server-side workflow views (lines 87-160, 298-314) over
      a state of stored workflows, directories and files.
    - [Catalog]: the read-only views (lines 35-81, 113-126): the workflow
      URL converter of [util] (spec-modelled: [int] of the segment, then
      the stored workflow, 404 otherwise), [list_workflows],
      [get_workflow], [get_global_config], [index] and
      [get_plugins_with_options] over a plugin manager given as parameters.
    - [Download]: [download_workflow] (lines 195-220).  Its state is the
      server's directories and files and the archive at the one temporary
      path; the archive is the list of its members in the order written,
      and [extract] (what [extractall] does) is the reference for the round
      trip.
    - [Capture]: the capture views (lines 351-378) on the shared workflow
      object, and the spec's scenario of a poll woken by a capture.
    - [Peer]: two instances of the service.  The transport of [Submit] is
      the peer's own views ([create_workflow], [upload_workflow_image]
      behind the converter, [add_to_queue]) dispatched by Werkzeug's
      routing of the URL, on a peer state holding the store and the queue;
      the peer answers with Flask's status and the JSON body.

    ** What is proved

    - Submission (C1-C6): a workflow without images, its creation
      accepted, is handed off with exactly the creation and the enqueue
      requests (the client still gets 500, or [NameError] when the enqueue
      is refused); a workflow with images never is: the first upload
      raises on the client ([TypeError] on a numeric id, [AttributeError]
      on the dict given as file part at line 253) after the remote
      workflow was created, and nothing else is sent.  The client only
      ever gets 404 or 500; the role guard refuses exactly the modes that
      are not substrings of "scanner"; a missing configuration is a 500
      before any request; a refused creation stops the hand-off.
    - Poll (C7-C13): no false wake-up, prompt answer to a change visible
      at a test, the missed update when a change lands between a test and
      the re-read, refinement of the spec's contract when none does, the
      408 window of the aborting iteration and termination in DEBUG mode,
      and non-termination outside it.
    - Capture (C14): the capture view's guard, state change and reply.
    - Queue (C15-C16): FIFO answers and order of a sequence of posts, and
      under every interleaving of concurrent clients a total order of the
      appends with no entry lost or duplicated, each client's ids in its
      posting order and each answer its entry's position.
    - Thumbnails (C17-C19): every branch of the view; under every
      interleaving of concurrent requests the other files are untouched,
      each requested file is absent or its image's thumbnail, an answered
      request answered what the view alone answers on the cache as it is,
      and at most one thumbnail is generated per request; staleness after
      a retake.
    - Server side (C20-C22): a new workflow with the body's step, flag and
      configuration (a non-dictionary one refused); every branch of the
      image upload; the deletion of a workflow and of its files.
    - Read-only views (C23-C24): the round trip POST, GET by the returned
      id, DELETE, GET (404); the plugin listing per mode, a 500 in any
      other mode.
    - Download (C25-C26): the first download fails on [unlink], every
      download shares one temporary file; unpacking the archive recreates
      the workflow's files and its configuration.
    - Two instances (C27): the hand-off to a peer running this code never
      completes (integer ids stop the uploads, a workflow without images
      is enqueued but reported as a 500).

    The files also hold lemmas that are not claims: the interaction-tree
    semantics of the poll agrees with the fuel model, answer for answer
    and in its divergence ([PollTree]); the poll loop equals its closed
    form ([Poller]); the queue views are independent of the store's
    representation ([Queue]); the store invariant is kept by the
    server-side views and by a peer ([Server], [Peer]); every interleaving
    of thumbnail requests ends within [2 n] steps ([ThumbRace]); the
    thumbnail height's float rounding on two sizes ([Thumbnail]).

    ** Not modelled

    The default configuration of [confit] (the model keeps the sources
    set on a configuration, not the defaults below them), the plugin
    manager, the driver and [render_template] are parameters; the [@cached]
    decorator, [get_image_url] of [util] and [werkzeug.secure_filename]
    are parameters or left out.  The content of images is not modelled
    (only names, sizes and bytes are carried), nor the bytes of a zip
    file (an archive is its list of members).  Python's [dict] order is
    the order of the [gmap].  The routes the client of [submit_workflow]
    does not use are not part of the peer's routing.  Concurrency is
    modelled where the spec cares about it: the poll's reads interleave
    arbitrarily with the captures through [obs]; concurrent thumbnail
    requests interleave at their check-then-generate ([ThumbRace]), each
    step being atomic (a partially written file is not modelled);
    concurrent [POST /queue] requests interleave request by request, the
    persistence call being atomic ([Queue]); two
    downloads sharing the temporary file are a sequence of two calls.
    The views are modelled one by one, each with the state it touches;
    Werkzeug's routing is modelled for the routes a peer receives in a
    hand-off ([Peer]), not as one dispatcher of every rule.  A
    workflow's step is a string or [None] and its flag a boolean or
    [None]: a posted step that is not a string (a flag that is not a
    boolean) is stored as [None], where Python would keep the posted
    value.  Creating the raw folder of an upload always succeeds, even
    when the workflow's directory is missing.  [requests] is modelled in
    the two versions of its time (before 1.0 and 1.x); in 2.x the dict
    file part of line 253 raises [TypeError] instead of
    [AttributeError], which changes no statement but C2's exception name.
    The download round trip (C26) starts from an existing archive at the
    temporary path: on a fresh temporary directory the first download
    fails (C25). *)

From Stdlib Require Import ZArith Ascii String.
From stdpp Require Import base list strings gmap pretty.

Declare Scope py_scope.
Delimit Scope py_scope with py.

(** ** Python exceptions and the outcome of a Flask view

    A Flask view either returns a value, calls [abort(code)] (which raises
    an [HTTPException] carrying that status), or lets some other exception
    escape, which Flask turns into a 500 response.  The exceptions that the
    code of [src/spreadsplug/web/web.py] can raise are listed by name. *)

Inductive PyExc :=
| AttributeError
| TypeError
| NameError
| KeyError
| IndexError
| ValueError
| ZeroDivisionError
| OverflowError
| OSError
| ConnectionError.

#[export] Instance PyExc_eq_dec : EqDecision PyExc.
Proof. solve_decision. Defined.

Inductive Outcome (A : Type) :=
| Returned (a : A)
| Aborted (code : Z)
| Raised (e : PyExc).
Arguments Returned {A} a.
Arguments Aborted {A} code.
Arguments Raised {A} e.

(** [is_returned o] holds when the view did not abort nor raise. *)
Definition is_returned {A} (o : Outcome A) : bool :=
  match o with Returned _ => true | _ => false end.

(** ** A state-and-exception monad

    Python mutates shared objects in place and an exception does not roll
    those mutations back: the state reached when the exception was raised is
    the state that remains.  [PyM S A] threads the state [S] and keeps it on
    every exit. *)

Definition PyM (S A : Type) : Type := S -> Outcome A * S.

Definition py_ret {S A} (a : A) : PyM S A := fun s => (Returned a, s).

Definition py_bind {S A B} (m : PyM S A) (k : A -> PyM S B) : PyM S B :=
  fun s =>
    match m s with
    | (Returned a, s') => k a s'
    | (Aborted c, s') => (Aborted c, s')
    | (Raised e, s') => (Raised e, s')
    end.

Definition py_abort {S A} (code : Z) : PyM S A := fun s => (Aborted code, s).
Definition py_raise {S A} (e : PyExc) : PyM S A := fun s => (Raised e, s).
Definition py_get {S} : PyM S S := fun s => (Returned s, s).
Definition py_put {S} (s : S) : PyM S unit := fun _ => (Returned tt, s).

(** Lift a pure outcome into the monad. *)
Definition py_lift {S A} (o : Outcome A) : PyM S A := fun s => (o, s).

Notation "x <- c ;; k" := (py_bind c (fun x => k))
  (at level 100, c at next level, right associativity) : py_scope.
Notation "c ;; k" := (py_bind c (fun _ => k))
  (at level 100, right associativity) : py_scope.

(** ** JSON values

    The bodies that the views decode with [json.loads] and the payloads
    they send with [json.dumps]/[jsonify]. *)

Inductive json :=
| JNull
| JBool (b : bool)
| JNum (z : Z)
| JStr (s : string)
| JArr (l : list json)
| JObj (kvs : list (string * json)).

(** [json.loads(request.data)]: [None] stands for a body that is not
    JSON, on which [json.loads] raises [ValueError]. *)
Definition json_loads (body : option json) : Outcome json :=
  match body with Some j => Returned j | None => Raised ValueError end.

(** [d[k]] on a decoded JSON value: a [dict] gives its value or raises
    [KeyError]; subscripting a list, a string or a number with a string
    key raises [TypeError]. *)
Definition py_getitem (d : json) (k : string) : Outcome json :=
  match d with
  | JObj kvs =>
      match list_find (fun kv => kv.1 = k) kvs with
      | Some (_, kv) => Returned kv.2
      | None => Raised KeyError
      end
  | _ => Raised TypeError
  end.

(** [d.get(k, None)] *)
Definition py_dict_get (d : json) (k : string) : json :=
  match d with
  | JObj kvs =>
      match list_find (fun kv => kv.1 = k) kvs with
      | Some (_, kv) => kv.2
      | None => JNull
      end
  | _ => JNull
  end.

(** ** Python sequences *)

(** [l[i]] for a non-negative index (Flask's [int] converter only matches
    digit strings, so the indices the views receive are natural numbers). *)
Definition py_index {A} (l : list A) (i : nat) : Outcome A :=
  match l !! i with
  | Some x => Returned x
  | None => Raised IndexError
  end.

(** [l[-n:]]: the last [n] elements (all of [l] when it is shorter). *)
Definition py_last_n {A} (n : nat) (l : list A) : list A :=
  drop (length l - n) l.

(** ** Python strings *)

(** [a in b] for two strings: [a] is a substring of [b] (the empty string
    is a substring of every string). *)
Fixpoint py_str_contains (b a : string) : bool :=
  String.prefix a b ||
  match b with
  | EmptyString => false
  | String _ b' => py_str_contains b' a
  end.

(** [s.rfind(c)] for a single character: the index of its last
    occurrence, [None] standing for Python's [-1]. *)
Fixpoint py_rfind (c : ascii) (s : string) : option nat :=
  match s with
  | EmptyString => None
  | String x s' =>
      match py_rfind c s' with
      | Some i => Some (S i)
      | None => if decide (x = c) then Some 0 else None
      end
  end.

(** ** Flask responses

    What a view hands back to Flask: a [jsonify] response, a string made
    by [json.dumps], another string, or a file sent with [send_file].  A
    view that falls off its end returns
    [None], which Flask refuses with a 500 response ("View function did not
    return a response"). *)
Inductive ViewValue :=
| VNone
| VJson (j : json)
| VDumps (j : json)
| VText (s : string)
| VFile (path : string)
(** [send_file(path, attachment_filename=name, as_attachment=True)] *)
| VSendFile (path name : string).

Definition flask_status (o : Outcome ViewValue) : Z :=
  match o with
  | Returned VNone => 500
  | Returned _ => 200
  | Aborted c => c
  | Raised _ => 500
  end.

(** Flask calls a view with keyword arguments named after the variables of its
    URL rule.  Python raises [TypeError] when these names are not exactly
    the parameters of the function. *)
Definition py_call_kwargs (params : list string) (kwargs : list string) : bool :=
  bool_decide (params = kwargs).

(** ** Automation *)

Create HintDb spreads.
Create Rewrite HintDb spreads_rw.

Lemma py_bind_ret {S A B} (a : A) (k : A -> PyM S B) (s : S) :
  py_bind (py_ret a) k s = k a s.
Proof. reflexivity. Qed.

Lemma py_bind_returned {S A B} (m : PyM S A) (k : A -> PyM S B) s a s' :
  m s = (Returned a, s') -> py_bind m k s = k a s'.
Proof. unfold py_bind. by intros ->. Qed.

Lemma py_bind_aborted {S A B} (m : PyM S A) (k : A -> PyM S B) s c s' :
  m s = (Aborted c, s') -> py_bind m k s = (Aborted c, s').
Proof. unfold py_bind. by intros ->. Qed.

Lemma py_bind_raised {S A B} (m : PyM S A) (k : A -> PyM S B) s e s' :
  m s = (Raised e, s') -> py_bind m k s = (Raised e, s').
Proof. unfold py_bind. by intros ->. Qed.

#[export] Hint Rewrite @py_bind_ret : spreads_rw.

(** [py_unfold] unfolds the monad's combinators so that [simpl] can run
    a view on a concrete request. *)
Ltac py_unfold :=
  cbv [py_bind py_lift py_get py_put py_ret py_abort py_raise] in *.

(** [py_step] runs one bind whose first computation is known. *)
Ltac py_step :=
  match goal with
  | H : ?m ?s = (Returned _, _) |- context [py_bind ?m _ ?s] =>
      rewrite (py_bind_returned _ _ _ _ _ H)
  | H : ?m ?s = (Aborted _, _) |- context [py_bind ?m _ ?s] =>
      rewrite (py_bind_aborted _ _ _ _ _ H)
  | H : ?m ?s = (Raised _, _) |- context [py_bind ?m _ ?s] =>
      rewrite (py_bind_raised _ _ _ _ _ H)
  end.

Lemma py_last_n_suffix {A} (n : nat) (l : list A) :
  suffix (py_last_n n l) l.
Proof. unfold py_last_n. apply suffix_drop. Qed.

Lemma py_last_n_length {A} (n : nat) (l : list A) :
  length (py_last_n n l) = Nat.min n (length l).
Proof. unfold py_last_n. rewrite length_drop. lia. Qed.

Lemma py_index_lookup {A} (l : list A) i x :
  py_index l i = Returned x <-> l !! i = Some x.
Proof.
  unfold py_index. destruct (l !! i); split; intros H; simplify_eq; done.
Qed.

Lemma py_index_oob {A} (l : list A) i :
  length l <= i -> py_index l i = Raised IndexError.
Proof. unfold py_index. intros H. by rewrite lookup_ge_None_2. Qed.

Lemma py_rfind_lt c s i : py_rfind c s = Some i -> i < String.length s.
Proof.
  revert i. induction s as [|x s IH]; simpl; intros i H; [done|].
  destruct (py_rfind c s) eqn:E.
  - simplify_eq. specialize (IH _ eq_refl). lia.
  - case_decide; simplify_eq. lia.
Qed.

Lemma py_rfind_none_not_in c s :
  py_rfind c s = None -> forall i, String.get i s <> Some c.
Proof.
  induction s as [|x s IH]; simpl; intros H i; [done|].
  destruct (py_rfind c s) eqn:E; [done|].
  case_decide; [done|]. destruct i; simpl; [congruence|]. by apply IH.
Qed.

#[export] Hint Resolve py_last_n_suffix py_rfind_lt : spreads.

(** ** The first [Some] of a list of options

    The result of a loop that stops at the first iteration producing a
    result is the first [Some] of the list of per-iteration results. *)
Fixpoint first_some {A} (l : list (option A)) : option A :=
  match l with
  | [] => None
  | Some a :: _ => Some a
  | None :: l' => first_some l'
  end.

Lemma first_some_Some {A} (l : list (option A)) a :
  first_some l = Some a <->
  exists i, l !! i = Some (Some a) /\ forall j, j < i -> l !! j = Some None.
Proof.
  induction l as [|[b|] l IH]; simpl.
  - split; [done|]. by intros (i & ? & _).
  - split.
    + intros [= ->]. exists 0. split; [done|]. lia.
    + intros ([|i] & Hi & Hj); simplify_eq/=; [done|].
      specialize (Hj 0 ltac:(lia)). done.
  - rewrite IH. split.
    + intros (i & Hi & Hj). exists (S i). split; [done|].
      intros [|j] ?; simpl; [done|]. apply Hj. lia.
    + intros ([|i] & Hi & Hj); simplify_eq/=.
      exists i. split; [done|]. intros j ?. apply (Hj (S j)). lia.
Qed.

Lemma first_some_None {A} (l : list (option A)) :
  first_some l = None <-> Forall (fun o => o = None) l.
Proof.
  induction l as [|[b|] l IH]; simpl.
  - split; constructor.
  - split; [done|]. intros H. by inversion H.
  - rewrite IH. split; [by constructor|]. by inversion 1.
Qed.

(** The first result of a loop is the result of the first iteration that
    has one, as [list_find] finds it. *)
Lemma first_some_list_find {A B} (f : A -> option B) (l : list A) :
  first_some (f <$> l) =
  match list_find (fun x => is_Some (f x)) l with Some (_, x) => f x | None => None end.
Proof.
  induction l as [|x l IH]; [done|]. cbn [fmap list_fmap first_some list_find].
  destruct (f x) as [b|] eqn:E.
  - by rewrite decide_True by eauto.
  - rewrite decide_False by (by intros []).
    rewrite IH. by destruct (list_find _ l) as [[]|].
Qed.

Lemma lookup_map_seq_lt {A} (f : nat -> A) k n i :
  i < n -> (f <$> seq k n) !! i = Some (f (k + i)).
Proof.
  intros Hi. rewrite list_lookup_fmap, lookup_seq_lt; done.
Qed.

#[export] Hint Resolve lookup_map_seq_lt : spreads.

(** Replacing the element [y] at index [i] by [x] changes a weighted sum
    by the difference of their weights. *)
Lemma sum_list_with_insert {A} (f : A -> nat) (l : list A) i x y :
  l !! i = Some y -> sum_list_with f (<[i := x]> l) + f y = sum_list_with f l + f x.
Proof.
  revert i. induction l as [|z l IH]; intros [|i] Hi; simplify_eq/=; [lia|].
  specialize (IH i Hi). lia.
Qed.

(** ** Computations that never abort

    [no_abort P m]: whatever the state, [m] either raises or returns a
    value satisfying [P]; it never calls [abort].  Used to show which
    status codes a view can answer with. *)
Definition ok_outcome {A} (P : A -> Prop) (o : Outcome A) : Prop :=
  match o with
  | Returned a => P a
  | Aborted _ => False
  | Raised _ => True
  end.

Definition no_abort {S A} (P : A -> Prop) (m : PyM S A) : Prop :=
  forall s, ok_outcome P (m s).1.

Lemma no_abort_ret {S A} (P : A -> Prop) (a : A) : P a -> no_abort (S := S) P (py_ret a).
Proof. by intros Ha s. Qed.

Lemma no_abort_raise {S A} (P : A -> Prop) e : no_abort (S := S) P (py_raise e).
Proof. by intros s. Qed.

Lemma no_abort_lift {S A} (P : A -> Prop) (o : Outcome A) :
  ok_outcome P o -> no_abort (S := S) P (py_lift o).
Proof. by intros Ho s. Qed.

Lemma no_abort_bind {S A B} (P : A -> Prop) (Q : B -> Prop) (m : PyM S A) (k : A -> PyM S B) :
  no_abort P m -> (forall a, P a -> no_abort Q (k a)) -> no_abort Q (py_bind m k).
Proof.
  intros Hm Hk s. unfold py_bind. specialize (Hm s).
  destruct (m s) as [[a|c|e] s']; simpl in *; [by apply Hk|done|done].
Qed.

Lemma no_abort_not_aborted {S A} (P : A -> Prop) (m : PyM S A) s c :
  no_abort P m -> (m s).1 <> Aborted c.
Proof. intros Hm Heq. specialize (Hm s). by rewrite Heq in Hm. Qed.

#[export] Hint Resolve no_abort_ret no_abort_raise no_abort_lift : spreads.

(** ** Strings split at a separator *)

(** [str_mem c s]: the character [c] occurs in [s]. *)
Fixpoint str_mem (c : ascii) (s : string) : bool :=
  match s with
  | EmptyString => false
  | String x s' => bool_decide (x = c) || str_mem c s'
  end.

(** A string made of two parts around a separator that the first parts
    do not contain determines both parts. *)
Lemma split_at_separator (x : ascii) (a b c d : string) :
  str_mem x a = false -> str_mem x c = false ->
  a +:+ String x b = c +:+ String x d -> a = c /\ b = d.
Proof.
  revert c. induction a as [|y a IH]; intros [|z c] Ha Hc Heq; simpl in *.
  - by simplify_eq.
  - simplify_eq. rewrite bool_decide_true in Hc; done.
  - simplify_eq. rewrite bool_decide_true in Ha; done.
  - apply orb_false_iff in Ha as [_ Ha], Hc as [_ Hc]. simplify_eq.
    destruct (IH c Ha Hc) as [-> ->]; [done|]. done.
Qed.

(** ** More Python string methods *)

(** [c.lower()] for an ASCII character. *)
Definition ascii_lower (c : ascii) : ascii :=
  let n := nat_of_ascii c in
  if (65 <=? n) && (n <=? 90) then ascii_of_nat (n + 32) else c.

(** [s.lower()] *)
Fixpoint py_lower (s : string) : string :=
  match s with
  | EmptyString => EmptyString
  | String c s' => String (ascii_lower c) (py_lower s')
  end.

(** [s.rsplit('.', 1)[1]]: the part after the last dot, [IndexError] when
    there is no dot (the split then has one element). *)
Definition py_rsplit_dot_1 (s : string) : Outcome string :=
  match py_rfind "."%char s with
  | Some i => Returned (String.substring (S i) (String.length s - S i) s)
  | None => Raised IndexError
  end.

(** ** Prefixes of paths *)

(** [strip_prefix pre s]: the rest of [s] after [pre], when [s] starts
    with [pre] ([PurePath.relative_to] on the strings of the paths). *)
Fixpoint strip_prefix (pre s : string) : option string :=
  match pre, s with
  | EmptyString, _ => Some s
  | String c pre', String d s' => if decide (c = d) then strip_prefix pre' s' else None
  | String _ _, EmptyString => None
  end.

Lemma strip_prefix_app pre s : strip_prefix pre (pre +:+ s) = Some s.
Proof. induction pre; simpl; [done|]. by rewrite decide_True. Qed.

Lemma strip_prefix_Some pre s r : strip_prefix pre s = Some r -> s = pre +:+ r.
Proof.
  revert s. induction pre as [|c pre IH]; intros [|d s]; cbn [strip_prefix]; try by intros [= <-].
  destruct (decide (c = d)) as [<-|]; [|done]. intros H. by rewrite (IH s H).
Qed.

Lemma strip_prefix_None pre s : strip_prefix pre s = None -> forall r, s <> pre +:+ r.
Proof. intros H r ->. by rewrite strip_prefix_app in H. Qed.

#[export] Hint Rewrite strip_prefix_app : spreads_rw.

(** ** Decimal integers

    [int(s)] on a URL segment, for the strings of decimal digits;
    [None] stands for the [ValueError] of any other string.  Python also
    accepts a sign and surrounding blanks, which the URLs built from an id
    by [pretty] (Python's [str] of a non-negative [int]) never carry. *)
Definition digit_value (c : ascii) : option N :=
  let n := nat_of_ascii c in
  if (48 <=? n) && (n <=? 57) then Some (N.of_nat (n - 48)) else None.

Fixpoint py_int_go (acc : N) (s : string) : option N :=
  match s with
  | EmptyString => Some acc
  | String c s' =>
      match digit_value c with
      | Some d => py_int_go (10 * acc + d) s'
      | None => None
      end
  end.

Definition py_int_of_string (s : string) : option N :=
  match s with EmptyString => None | String _ _ => py_int_go 0 s end.

Lemma digit_value_pretty_N_char x : (x < 10)%N -> digit_value (pretty_N_char x) = Some x.
Proof.
  intros Hx.
  assert (x = 0 \/ x = 1 \/ x = 2 \/ x = 3 \/ x = 4 \/ x = 5 \/ x = 6 \/ x = 7 \/
          x = 8 \/ x = 9)%N as Hc by lia.
  by repeat destruct Hc as [-> | Hc]; [..|subst].
Qed.

Lemma py_int_go_pretty_N_go x s : py_int_go 0 (pretty_N_go x s) = py_int_go x s.
Proof.
  revert s. induction (N.lt_wf_0 x) as [x _ IH]; intros s.
  destruct (decide (x = 0)%N) as [->|Hx]; [by rewrite pretty_N_go_0|].
  rewrite pretty_N_go_step by lia. rewrite IH by (apply N.div_lt; lia). simpl.
  rewrite digit_value_pretty_N_char by (apply N.mod_lt; lia).
  do 2 f_equal. pose proof (N.div_mod x 10). lia.
Qed.

Lemma pretty_N_go_cons x c s : exists c' s', pretty_N_go x (String c s) = String c' s'.
Proof.
  revert c s. induction (N.lt_wf_0 x) as [x _ IH]; intros c s.
  destruct (decide (x = 0)%N) as [->|Hx]; [rewrite pretty_N_go_0; eauto|].
  rewrite pretty_N_go_step by lia. apply IH. apply N.div_lt; lia.
Qed.

(** [int(str(n)) == n]. *)
Lemma py_int_of_string_pretty (n : nat) : py_int_of_string (pretty n) = Some (N.of_nat n).
Proof.
  change (pretty n) with (pretty (N.of_nat n)). unfold pretty, pretty_N.
  case_decide as Hn; [by rewrite Hn|].
  assert (0 < N.of_nat n)%N as Hpos by lia.
  destruct (pretty_N_go_cons (N.of_nat n `div` 10) (pretty_N_char (N.of_nat n `mod` 10)) "")
    as (c & s & Hcs).
  unfold py_int_of_string. rewrite (pretty_N_go_step _ _ Hpos), Hcs, <-Hcs.
  rewrite <-(pretty_N_go_step _ _ Hpos). by rewrite py_int_go_pretty_N_go.
Qed.

Lemma string_app_assoc (a b c : string) : (a +:+ b) +:+ c = a +:+ b +:+ c.
Proof.
  induction a as [|x a IH]; [done|].
  change (String x ((a +:+ b) +:+ c) = String x (a +:+ b +:+ c)). by rewrite IH.
Qed.

(** ** Python dictionaries built in order

    [dict_of kvs] is [{k: v for k, v in kvs}] (or [dict(kvs)]): the pairs
    are inserted in order, so a later key replaces an earlier one. *)
Definition dict_of {K V} `{Countable K} (kvs : list (K * V)) : gmap K V :=
  foldl (fun m kv => <[kv.1 := kv.2]> m) ∅ kvs.

Section DictOf.
Context {K V : Type} `{Countable K}.

Lemma foldl_insert_notin (l : list (K * V)) (m : gmap K V) k :
  k ∉ l.*1 -> foldl (fun m kv => <[kv.1 := kv.2]> m) m l !! k = m !! k.
Proof.
  revert m. induction l as [|[k' v'] l IH]; intros m Hk; simpl; [done|].
  rewrite IH by set_solver. apply lookup_insert_ne. set_solver.
Qed.

Lemma foldl_insert_in (l : list (K * V)) (m : gmap K V) k v :
  NoDup l.*1 -> (k, v) ∈ l -> foldl (fun m kv => <[kv.1 := kv.2]> m) m l !! k = Some v.
Proof.
  revert m. induction l as [|[k' v'] l IH]; intros m Hnd Hin; [set_solver|].
  simpl in Hnd |- *. apply NoDup_cons in Hnd as [Hk' Hnd].
  apply elem_of_cons in Hin as [[= -> ->]|Hin]; [|by apply IH].
  rewrite foldl_insert_notin by done. apply lookup_insert_eq.
Qed.

Lemma dict_of_app (l : list (K * V)) kv : dict_of (l ++ [kv]) = <[kv.1 := kv.2]> (dict_of l).
Proof. unfold dict_of. by rewrite foldl_app. Qed.

Lemma dict_of_lookup_in (l : list (K * V)) k v :
  NoDup l.*1 -> (k, v) ∈ l -> dict_of l !! k = Some v.
Proof. apply foldl_insert_in. Qed.

Lemma dict_of_lookup_notin (l : list (K * V)) k : k ∉ l.*1 -> dict_of l !! k = None.
Proof. intros Hk. unfold dict_of. by rewrite foldl_insert_notin. Qed.
(** Rebuilding a map from its filtered list of bindings gives the
    filtered map. *)
Lemma dict_of_filter_map_to_list (m : gmap K V) (P : K * V -> Prop)
    `{!forall x, Decision (P x)} :
  dict_of (filter P (map_to_list m)) = filter P m.
Proof.
  apply map_eq. intros k. destruct (filter P m !! k) as [v|] eqn:E.
  - apply map_lookup_filter_Some in E as [Hm HP]. apply dict_of_lookup_in.
    + eapply sublist_NoDup; [apply (NoDup_fst_map_to_list m)|].
      apply fmap_sublist, sublist_filter.
    + apply list_elem_of_filter. split; [done|]. by apply elem_of_map_to_list.
  - apply dict_of_lookup_notin. intros Hin.
    apply list_elem_of_fmap in Hin as ([k' v] & -> & Hin).
    apply list_elem_of_filter in Hin as [HP Hin]. apply elem_of_map_to_list in Hin.
    simpl in *. apply map_lookup_filter_None in E as [E|E]; [congruence|by apply (E v)].
Qed.
End DictOf.
