(* ===== verification/Workflow.v ===== *)
(** * Workflows and their observable state

    The workflow record that every view of [web.py] receives (the class
    [spreads.workflow.Workflow], outside [src/], modelled from the spec), the
    snapshot of its three observable fields that [poll_for_updates] compares
    (component WorkflowStateTracker), and the [stem] of a path from the
    vendored [pathlib] that names a workflow on the remote side. *)

From Stdlib Require Import ZArith Ascii String.
From stdpp Require Import base list strings.
From S2P Require Import Prelude.

(** ** Images and workflows *)

(** A captured image: its file name, its pixel dimensions and its bytes
    (a Python 2 [str]). *)
Record image := Image {
  img_name : string;
  img_width : Z;
  img_height : Z;
  img_bytes : string;
}.

(** A workflow: its database id, the directory [base_path/name] it lives
    in, its images in capture order, its current step and the completion
    flag of that step.  [step] and [step_done] are [None] when the workflow
    was created without them ([data.get('step', None)]).  Its plugin
    configuration is a [confit] configuration, below. *)
Record workflow := Workflow {
  wf_id : nat;
  wf_base : string;
  wf_name : string;
  wf_images : list image;
  wf_step : option string;
  wf_step_done : option bool;
  wf_config : list json;
}.

Definition set_images (w : workflow) (imgs : list image) : workflow :=
  Workflow w.(wf_id) w.(wf_base) w.(wf_name) imgs w.(wf_step) w.(wf_step_done) w.(wf_config).

Definition set_step (w : workflow) (st : option string) (done : option bool) : workflow :=
  Workflow w.(wf_id) w.(wf_base) w.(wf_name) w.(wf_images) st done w.(wf_config).

Definition set_config (w : workflow) (cfg : list json) : workflow :=
  Workflow w.(wf_id) w.(wf_base) w.(wf_name) w.(wf_images) w.(wf_step) w.(wf_step_done) cfg.

(** ** Configurations ([spreads.vendor.confit], outside [src/], spec-modelled)

    A [confit.Configuration] is a stack of sources, the latest first.
    [Configuration('spreads')] holds the defaults, which the model leaves
    out, so a configuration is the list of the dictionaries set on it.
    [config.set(value)] pushes [value] as a new source; [ConfigSource.of]
    accepts only a [dict] and raises [TypeError] on anything else, [None]
    included. *)
Definition config_set (v : json) (cfg : list json) : Outcome (list json) :=
  match v with
  | JObj _ => Returned (v :: cfg)
  | _ => Raised TypeError
  end.

(** ** The capture-side methods of [Workflow] (spec-modelled)

    [prepare_capture] enters the capture step, [capture] appends the images
    the devices shot (replacing the last shots when [retake] is set) and
    [finish_capture] marks the step done. *)

Definition prepare_capture (w : workflow) : workflow :=
  set_step w (Some "capture") (Some false).

Definition capture (shots : list image) (retake : bool) (w : workflow) : workflow :=
  let imgs := w.(wf_images) in
  if retake
  then set_images w (take (length imgs - length shots) imgs ++ shots)
  else set_images w (imgs ++ shots).

Definition finish_capture (w : workflow) : workflow :=
  set_step w w.(wf_step) (Some true).

(** ** WorkflowStateTracker: snapshots *)

(** The triple [(len(workflow.images), workflow.step, workflow.step_done)]. *)
Record snapshot := Snapshot {
  sn_num_caps : nat;
  sn_step : option string;
  sn_step_done : option bool;
}.

#[export] Instance snapshot_eq_dec : EqDecision snapshot.
Proof. solve_decision. Defined.

Definition snapshot_of (w : workflow) : snapshot :=
  Snapshot (length w.(wf_images)) w.(wf_step) w.(wf_step_done).

(** [updated] is the test of the poll loop:
    [len(images) != old_num_caps or step != old_step
     or step_done != old_step_done]. *)
Definition updated (old : snapshot) (w : workflow) : bool :=
  negb (Nat.eqb (length w.(wf_images)) old.(sn_num_caps))
  || negb (bool_decide (w.(wf_step) = old.(sn_step)))
  || negb (bool_decide (w.(wf_step_done) = old.(sn_step_done))).

(** ** [PurePath.stem] of the vendored pathlib

    [i = name.rfind('.')]; [name[:i]] when [0 < i < len(name) - 1], the
    whole name otherwise. *)
Definition path_stem (name : string) : string :=
  match py_rfind "."%char name with
  | Some i =>
      if bool_decide (0 < i /\ i < String.length name - 1)
      then String.substring 0 i name
      else name
  | None => name
  end.

(** ** Lemmas *)

Lemma updated_iff old w :
  updated old w = true <-> snapshot_of w <> old.
Proof.
  destruct old as [n st sd]. unfold updated, snapshot_of; simpl.
  rewrite !orb_true_iff, !negb_true_iff, Nat.eqb_neq, !bool_decide_eq_false.
  split.
  - intros [[H|H]|H] Heq; injection Heq; intros; simplify_eq.
  - intros Hne.
    destruct (decide (length (wf_images w) = n)); [|by left; left].
    destruct (decide (wf_step w = st)); [|by left; right].
    destruct (decide (wf_step_done w = sd)); [|by right].
    subst. by destruct Hne.
Qed.

Lemma updated_false_iff old w :
  updated old w = false <-> snapshot_of w = old.
Proof.
  rewrite <-not_true_iff_false, updated_iff.
  split; [apply dec_stable | intros H1 H2; contradiction].
Qed.

Lemma not_updated_self w : updated (snapshot_of w) w = false.
Proof. by apply updated_false_iff. Qed.

Lemma snapshot_of_set_images w imgs :
  snapshot_of (set_images w imgs) =
  Snapshot (length imgs) w.(wf_step) w.(wf_step_done).
Proof. reflexivity. Qed.

#[export] Hint Resolve not_updated_self : spreads.

Lemma substring_0_prefix n s : String.prefix (String.substring 0 n s) s = true.
Proof.
  revert n. induction s as [|c s IH]; intros [|n]; simpl; try done.
  destruct (ascii_dec c c); [apply IH|done].
Qed.
