(* ===== verification/Poller.v ===== *)
(** * ChangePoller: the long poll of [poll_for_updates]

    [web.py] lines 163-192.  The view keeps a baseline snapshot of the
    workflow, then loops: while [can_continue()] it tests whether the
    workflow differs from the baseline, returns the workflow if it does,
    and otherwise re-reads the baseline and sleeps 0.1 s.  When
    [can_continue()] turns false it aborts with 408.  In DEBUG mode
    [can_continue] compares the elapsed time with 110 s; otherwise it is
    constantly true.

    The workflow object is shared with the threads that capture, so the
    loop is modelled against an environment: [obs r] is the workflow as
    the [r]-th read of it sees it, and [clock n] is the [n]-th value of
    [time.time()] (in milliseconds; [clock 0] is [start_time]).  Read 0
    takes the first baseline; iteration [k] tests read [2k+1] and then
    reads [2k+2], either to build its answer or to take the next baseline.
    Since [obs] is arbitrary, every interleaving of the captures with the
    loop, torn reads of the three fields included, is one environment. *)

From Stdlib Require Import ZArith Ascii String.
From stdpp Require Import base list strings.
From S2P Require Import Prelude Workflow.

(** [can_continue = lambda: (time.time() - start_time) < 110] *)
Definition poll_timeout_ms : Z := 110000.
(** [time.sleep(0.1)] *)
Definition poll_interval_ms : Z := 100.

(** [(time.time() - start_time) < 110], in milliseconds. *)
Definition within_timeout (elapsed : Z) : bool := bool_decide (elapsed < poll_timeout_ms)%Z.

Section PollLoop.
Variable debug : bool.
Variable obs : nat -> workflow.
Variable clock : nat -> Z.

(** The [k]-th call of [can_continue()] (from 0) reads [clock (S k)]. *)
Definition can_continue (k : nat) : bool :=
  if debug then within_timeout (clock (S k) - clock 0)
  else true.

(** The [while] loop from iteration [k] on, with baseline [old], the next
    read being read [r]; [fuel] bounds the number of iterations and
    [None] means the loop is still running when it runs out. *)
Fixpoint poll_loop (fuel : nat) (old : snapshot) (k r : nat)
    : option (Outcome workflow) :=
  match fuel with
  | O => None
  | S fuel' =>
      if can_continue k then
        if updated old (obs r) then Some (Returned (obs (S r)))
        else poll_loop fuel' (snapshot_of (obs (S r))) (S k) (S (S r))
      else Some (Aborted 408)
  end.

(** The view: the three baseline reads of lines 169-171, then the loop. *)
Definition poll_for_updates (fuel : nat) : option (Outcome workflow) :=
  poll_loop fuel (snapshot_of (obs 0)) 0 1.

(** *** A closed form of the loop

    What iteration [k] does on its own, its baseline being read [2k]:
    return (when the test at read [2k+1] sees a change), time out, or
    go on ([None]). *)
Definition poll_iteration (k : nat) : option (Outcome workflow) :=
  if can_continue k then
    if updated (snapshot_of (obs (2 * k))) (obs (S (2 * k)))
    then Some (Returned (obs (2 * S k)))
    else None
  else Some (Aborted 408).

Lemma poll_loop_from fuel k :
  poll_loop fuel (snapshot_of (obs (2 * k))) k (S (2 * k)) =
  first_some (poll_iteration <$> seq k fuel).
Proof.
  revert k. induction fuel as [|fuel IH]; intros k; [done|].
  change (first_some (poll_iteration <$> seq k (S fuel))) with
    (match poll_iteration k with
     | Some o => Some o
     | None => first_some (poll_iteration <$> seq (S k) fuel)
     end).
  rewrite <-IH. cbn [poll_loop]. unfold poll_iteration.
  replace (S (S (2 * k))) with (2 * S k) by lia.
  destruct (can_continue k); [|done].
  by destruct (updated _ _).
Qed.

Lemma poll_for_updates_first fuel :
  poll_for_updates fuel = first_some (poll_iteration <$> seq 0 fuel).
Proof. apply (poll_loop_from fuel 0). Qed.

(** An iteration is quiet when it neither times out nor sees a change. *)
Definition quiet (k : nat) : Prop :=
  can_continue k = true /\ snapshot_of (obs (S (2 * k))) = snapshot_of (obs (2 * k)).

Lemma poll_iteration_None k : poll_iteration k = None <-> quiet k.
Proof.
  unfold poll_iteration, quiet.
  destruct (can_continue k); [|split; [done|by intros []]].
  destruct (updated _ _) eqn:E.
  - apply updated_iff in E. split; [done|]. by intros [_ ?].
  - apply updated_false_iff in E. done.
Qed.

Lemma poll_iteration_Returned k w :
  poll_iteration k = Some (Returned w) <->
  can_continue k = true /\
  snapshot_of (obs (S (2 * k))) <> snapshot_of (obs (2 * k)) /\
  w = obs (2 * S k).
Proof.
  unfold poll_iteration.
  destruct (can_continue k); [|split; [done|by intros []]].
  destruct (updated _ _) eqn:E.
  - apply updated_iff in E. split; [by intros [= <-]|]. by intros (_ & _ & ->).
  - apply updated_false_iff in E. split; [done|]. by intros (_ & ? & _).
Qed.


Lemma poll_iteration_not_Raised k e : poll_iteration k <> Some (Raised e).
Proof.
  unfold poll_iteration. by repeat case_match.
Qed.

(** The result of the view is the result of its first iteration that is
    not quiet, when there is one within the fuel. *)
Lemma poll_for_updates_Some fuel o :
  poll_for_updates fuel = Some o <->
  exists k, (k < fuel) /\ poll_iteration k = Some o /\
    forall j, (j < k) -> quiet j.
Proof.
  rewrite poll_for_updates_first, first_some_Some. split.
  - intros (k & Hk & Hj).
    assert (k < fuel) as Hlt.
    { apply lookup_lt_Some in Hk. by rewrite length_fmap, length_seq in Hk. }
    rewrite lookup_map_seq_lt in Hk by done. simplify_eq/=.
    exists k. split_and!; [done|done|].
    intros j ?. apply poll_iteration_None.
    specialize (Hj j ltac:(lia)). rewrite lookup_map_seq_lt in Hj by lia.
    by simplify_eq/=.
  - intros (k & Hk & Ho & Hj). exists k.
    rewrite lookup_map_seq_lt by done. split; [simpl; by rewrite Ho|].
    intros j ?. rewrite lookup_map_seq_lt by lia. f_equal.
    apply poll_iteration_None, Hj. lia.
Qed.

Lemma poll_for_updates_None fuel :
  poll_for_updates fuel = None <-> forall k, (k < fuel) -> quiet k.
Proof.
  rewrite poll_for_updates_first, first_some_None, Forall_forall. split.
  - intros H k Hk. apply poll_iteration_None, H.
    apply list_elem_of_lookup. exists k.
    by rewrite lookup_map_seq_lt.
  - intros H o Ho. apply list_elem_of_lookup in Ho as [k Hk].
    assert (k < fuel) as Hlt.
    { apply lookup_lt_Some in Hk. by rewrite length_fmap, length_seq in Hk. }
    rewrite lookup_map_seq_lt in Hk by done. simplify_eq/=.
    by apply poll_iteration_None, H.
Qed.

(** *** The reference semantics

    Without the loop's state: find the first iteration that is not quiet,
    by a boolean test on its two reads and the clock; it answers 408 if
    it timed out, and the read after the change otherwise. *)
Definition quiet_b (k : nat) : bool :=
  can_continue k && negb (updated (snapshot_of (obs (2 * k))) (obs (S (2 * k)))).

Definition poll_reference (fuel : nat) : option (Outcome workflow) :=
  match list_find (fun k => quiet_b k = false) (seq 0 fuel) with
  | Some (_, k) => Some (if can_continue k then Returned (obs (2 * S k)) else Aborted 408)
  | None => None
  end.

Lemma poll_iteration_quiet_b k : is_Some (poll_iteration k) <-> quiet_b k = false.
Proof.
  unfold poll_iteration, quiet_b.
  destruct (can_continue k); simpl; [|split; eauto].
  destruct (updated _ _); simpl; split; try by eauto.
Qed.

Lemma poll_iteration_not_quiet k :
  quiet_b k = false ->
  poll_iteration k = Some (if can_continue k then Returned (obs (2 * S k)) else Aborted 408).
Proof.
  unfold poll_iteration, quiet_b.
  destruct (can_continue k); [|done]. by destruct (updated _ _).
Qed.
End PollLoop.

(** ** The contract of the spec: [await_change]

    The spec (section 4.2) compares every fresh snapshot with the baseline
    the caller took before waiting, which never changes.  [await_change]
    runs that contract on the same environment and read schedule as the
    view, so that the two can be compared. *)
Section AwaitChange.
Variable debug : bool.
Variable obs : nat -> workflow.
Variable clock : nat -> Z.

Fixpoint await_change (fuel : nat) (base : snapshot) (k : nat)
    : option (Outcome workflow) :=
  match fuel with
  | O => None
  | S fuel' =>
      if can_continue debug clock k then
        if updated base (obs (S (2 * k))) then Some (Returned (obs (2 * S k)))
        else await_change fuel' base (S k)
      else Some (Aborted 408)
  end.

(** The view and the contract agree from iteration [k] on as long as the
    view's baseline at [k] is the caller's baseline and no change lands
    between a test and the re-read that follows it. *)
Lemma poll_loop_await_change fuel base k :
  (forall j, snapshot_of (obs (2 * S j)) = snapshot_of (obs (S (2 * j)))) ->
  snapshot_of (obs (2 * k)) = base ->
  poll_loop debug obs clock fuel (snapshot_of (obs (2 * k))) k (S (2 * k)) =
  await_change fuel base k.
Proof.
  intros Hrace. revert k. induction fuel as [|fuel IH]; intros k Hbase; [done|].
  cbn [poll_loop await_change]. rewrite Hbase.
  replace (S (S (2 * k))) with (2 * S k) by lia.
  destruct (can_continue debug clock k); [|done].
  destruct (updated base (obs (S (2 * k)))) eqn:E; [done|].
  apply updated_false_iff in E.
  rewrite <-(IH (S k)); [|by rewrite Hrace].
  by replace (S (S (S (2 * k)))) with (S (2 * S k)) by lia.
Qed.
End AwaitChange.

(** Equivalence of the view with its reference semantics: on every
    environment and for every fuel, the [while] loop of [poll_for_updates],
    which threads a baseline re-read after each test, an iteration counter
    and a read counter, answers exactly as [poll_reference], the answer of
    the first iteration that is not quiet. *)
Theorem poll_loop_equiv_reference debug obs clock fuel :
  poll_for_updates debug obs clock fuel = poll_reference debug obs clock fuel.
Proof.
  rewrite poll_for_updates_first, first_some_list_find. unfold poll_reference.
  rewrite (list_find_ext _ (fun k => quiet_b debug obs clock k = false))
    by apply poll_iteration_quiet_b.
  destruct (list_find _ _) as [[i k]|] eqn:E; [|done].
  apply list_find_Some in E as (_ & Hk & _). by apply poll_iteration_not_quiet.
Qed.

(** Elapsed time at each test, from the fact that every iteration sleeps
    at least [poll_interval_ms] before the next test. *)
Lemma clock_after_sleeps (clock : nat -> Z) :
  (forall n, clock (S n) + poll_interval_ms <= clock (S (S n)))%Z ->
  forall k : nat, (clock 1%nat + poll_interval_ms * Z.of_nat k <= clock (S k))%Z.
Proof.
  intros Hsleep. induction k as [|k IH]; [simpl; lia|].
  specialize (Hsleep k). unfold poll_interval_ms in *. rewrite Nat2Z.inj_succ. lia.
Qed.

(** Two environments used by the theorems below: the workflow is [w0] up
    to read [n] and [w1] from read [S n] on. *)
Definition change_after (n : nat) (w0 w1 : workflow) (r : nat) : workflow :=
  if (r <=? n) then w0 else w1.

Lemma change_after_le n w0 w1 r : r <= n -> change_after n w0 w1 r = w0.
Proof. intros H. unfold change_after. by rewrite (proj2 (Nat.leb_le _ _)). Qed.

(** Decide every [r <=? n] of an unfolded [change_after] by [lia]. *)
Ltac simpl_change_after :=
  unfold change_after in *;
  repeat first
    [ rewrite (proj2 (Nat.leb_le _ _)) in * by lia
    | rewrite (proj2 (Nat.leb_gt _ _)) in * by lia ].

Lemma quiet_change_after debug clock n w0 w1 k :
  can_continue debug clock k = true ->
  (S (2 * k) <= n \/ n < 2 * k) ->
  quiet debug (change_after n w0 w1) clock k.
Proof.
  intros Hc Hk. split; [done|].
  destruct Hk as [Hk|Hk]; by simpl_change_after.
Qed.

(** ** Properties of [poll_for_updates] *)

(** (C7) No false wake-up: when the view returns a workflow, some test
    saw it differ from the baseline of its iteration, every earlier test
    saw no change, and the answer is the workflow read right after that
    test. *)
Theorem poll_returns_only_on_change debug obs clock fuel w :
  poll_for_updates debug obs clock fuel = Some (Returned w) ->
  exists k, snapshot_of (obs (S (2 * k))) <> snapshot_of (obs (2 * k)) /\
    w = obs (2 * S k) /\
    (forall j, (j < k) -> snapshot_of (obs (S (2 * j))) = snapshot_of (obs (2 * j))).
Proof.
  intros (k & _ & Hk & Hj)%poll_for_updates_Some.
  apply poll_iteration_Returned in Hk as (_ & Hne & ->).
  exists k. split_and!; [done|done|]. intros j ?. by apply Hj.
Qed.

(** A change visible at the test of iteration [k], no earlier test
    seeing one and the loop not timing out by then, is returned. *)
Lemma poll_wakes_at debug clock fuel k w0 w1 :
  snapshot_of w0 <> snapshot_of w1 ->
  (forall j, (j <= k) -> can_continue debug clock j = true) ->
  (k < fuel) ->
  poll_for_updates debug (change_after (2 * k) w0 w1) clock fuel = Some (Returned w1).
Proof.
  intros Hne Hc Hk. apply poll_for_updates_Some. exists k. split_and!; [done| |].
  - apply poll_iteration_Returned. split_and!; [by apply Hc| |];
      simpl_change_after; [by apply not_eq_sym|done].
  - intros j ?. apply quiet_change_after; [apply Hc; lia|lia].
Qed.

(** (C8) A change that is in place when a test reads the workflow is
    answered by that very iteration: with the workflow [w0] up to the
    baseline read of iteration [k] and [w1] from its test on, the view
    returns [w1] provided it did not time out before. *)
Theorem poll_returns_change_at_test debug clock fuel k w0 w1 :
  snapshot_of w0 <> snapshot_of w1 ->
  (forall j, (j <= k) -> can_continue debug clock j = true) ->
  (k < fuel) ->
  poll_for_updates debug (change_after (2 * k) w0 w1) clock fuel = Some (Returned w1).
Proof. apply poll_wakes_at. Qed.

(** (C10) The view refines the spec's contract when no change lands
    between a test and the re-read of the baseline that follows it: under
    that condition it answers exactly as [await_change] from the caller's
    baseline. *)
Theorem poll_refines_await_change debug obs clock fuel :
  (forall j, snapshot_of (obs (2 * S j)) = snapshot_of (obs (S (2 * j)))) ->
  poll_for_updates debug obs clock fuel =
  await_change debug obs clock fuel (snapshot_of (obs 0)) 0.
Proof.
  intros Hrace. apply (poll_loop_await_change debug obs clock fuel _ 0 Hrace).
  reflexivity.
Qed.

(** (C9) A missed update.  The view re-reads its baseline after the
    test instead of keeping the caller's: when the workflow changes
    between the test of iteration [k] and that re-read, the view never
    reports it, whatever the fuel, while the contract of the spec reports
    it at the next iteration. *)
Theorem poll_misses_change_after_test debug clock k w0 w1 :
  snapshot_of w0 <> snapshot_of w1 ->
  (forall j, (j <= S k) -> can_continue debug clock j = true) ->
  await_change debug (change_after (S (2 * k)) w0 w1) clock (S (S k))
    (snapshot_of w0) 0 = Some (Returned w1) /\
  forall fuel w,
    poll_for_updates debug (change_after (S (2 * k)) w0 w1) clock fuel <> Some (Returned w).
Proof.
  intros Hne Hc. split.
  - assert (forall j, (j <= k) ->
      await_change debug (change_after (S (2 * k)) w0 w1) clock (S (S k - j))
        (snapshot_of w0) j = Some (Returned w1)) as Hgen.
    { intros j Hj. remember (k - j) as d eqn:Hd. revert j Hj Hd.
      induction d as [|d IH]; intros j Hj Hd.
      - assert (j = k) as -> by lia. replace (S (S k - k)) with 2%nat by lia.
        cbn [await_change]. rewrite !Hc by lia. simpl_change_after.
        rewrite not_updated_self.
        destruct (updated _ _) eqn:E; [done|].
        apply updated_false_iff in E. congruence.
      - replace (S (S k - j)) with (S (S (S k - S j))) by lia.
        cbn [await_change]. rewrite Hc by lia.
        rewrite (change_after_le (S (2 * k)) w0 w1 (S (2 * j))) by lia.
        rewrite not_updated_self. apply IH; lia. }
    apply (Hgen 0%nat). lia.
  - intros fuel w (j & _ & Hj & _)%poll_for_updates_Some.
    apply poll_iteration_Returned in Hj as (_ & Hj & _).
    destruct (decide (S (2 * j) <= S (2 * k))); simpl_change_after; done.
Qed.

(** (C12) Termination in DEBUG mode.  Every iteration sleeps 0.1 s before
    the next test, so the test of iteration 1100 is made at least 110 s
    after [start_time]: 1101 iterations are enough fuel for the view to
    return or to abort, and more fuel changes nothing. *)
Theorem poll_debug_terminates obs clock fuel :
  (clock 0%nat <= clock 1%nat)%Z ->
  (forall n, clock (S n) + poll_interval_ms <= clock (S (S n)))%Z ->
  1101 <= fuel ->
  is_Some (poll_for_updates true obs clock fuel).
Proof.
  intros H0 Hsleep Hfuel.
  destruct (poll_for_updates true obs clock fuel) eqn:E; [by eexists|].
  apply poll_for_updates_None with (k := 1100) in E as [Hc _]; [|lia].
  pose proof (clock_after_sleeps clock Hsleep 1100) as Hk.
  unfold can_continue in Hc. apply bool_decide_eq_true in Hc.
  unfold poll_timeout_ms, poll_interval_ms in *. lia.
Qed.


(** (C13) Outside DEBUG mode [can_continue] is constantly true: while the
    workflow does not change, the view never returns, for any fuel.  The
    spec asks for a ceiling on the wait that holds in every mode. *)
Theorem poll_without_debug_never_returns obs clock fuel :
  (forall r, snapshot_of (obs r) = snapshot_of (obs 0)) ->
  poll_for_updates false obs clock fuel = None.
Proof.
  intros Hstable. apply poll_for_updates_None. intros k _.
  split; [done|]. by rewrite !Hstable.
Qed.

(** ** Witnesses *)

Definition demo_page : image := Image "0001.jpg" 3000 2000 "".
Definition demo_wf0 : workflow :=
  Workflow 1 "/home/scans" "book" [] (Some "capture") (Some false) [].
Definition demo_wf1 : workflow := set_images demo_wf0 [demo_page].
(** A clock that advances exactly 0.1 s per iteration. *)
Definition demo_clock (n : nat) : Z := (100 * Z.of_nat n)%Z.

Lemma demo_snapshots_differ : snapshot_of demo_wf0 <> snapshot_of demo_wf1.
Proof. vm_compute. congruence. Qed.

Lemma poll_returns_only_on_change_witness :
  poll_for_updates false (change_after 2 demo_wf0 demo_wf1) demo_clock 5
    = Some (Returned demo_wf1) /\
  exists k,
    snapshot_of (change_after 2 demo_wf0 demo_wf1 (S (2 * k))) <>
      snapshot_of (change_after 2 demo_wf0 demo_wf1 (2 * k)) /\
    demo_wf1 = change_after 2 demo_wf0 demo_wf1 (2 * S k) /\
    (forall j, j < k ->
       snapshot_of (change_after 2 demo_wf0 demo_wf1 (S (2 * j))) =
       snapshot_of (change_after 2 demo_wf0 demo_wf1 (2 * j))).
Proof.
  assert (H : poll_for_updates false (change_after 2 demo_wf0 demo_wf1) demo_clock 5
              = Some (Returned demo_wf1)) by (vm_compute; reflexivity).
  split; [exact H|]. exact (poll_returns_only_on_change _ _ _ _ _ H).
Defined.

Lemma poll_returns_change_at_test_witness :
  poll_for_updates true (change_after (2 * 3) demo_wf0 demo_wf1) demo_clock 10
    = Some (Returned demo_wf1).
Proof.
  apply (poll_returns_change_at_test true demo_clock 10 3 demo_wf0 demo_wf1).
  - exact demo_snapshots_differ.
  - intros j Hj. unfold can_continue. apply bool_decide_eq_true.
    unfold demo_clock, poll_timeout_ms. lia.
  - lia.
Defined.

Lemma poll_refines_await_change_witness :
  poll_for_updates false (change_after 4 demo_wf0 demo_wf1) demo_clock 6 =
  await_change false (change_after 4 demo_wf0 demo_wf1) demo_clock 6
    (snapshot_of (change_after 4 demo_wf0 demo_wf1 0)) 0.
Proof.
  apply poll_refines_await_change. intros j. unfold change_after.
  destruct (decide (2 * S j <= 4)).
  - rewrite !(proj2 (Nat.leb_le _ _)) by lia. reflexivity.
  - rewrite !(proj2 (Nat.leb_gt _ _)) by lia. reflexivity.
Defined.

Lemma poll_misses_change_after_test_witness :
  await_change false (change_after (S (2 * 2)) demo_wf0 demo_wf1) demo_clock 4
    (snapshot_of demo_wf0) 0 = Some (Returned demo_wf1) /\
  forall fuel w,
    poll_for_updates false (change_after (S (2 * 2)) demo_wf0 demo_wf1) demo_clock fuel
      <> Some (Returned w).
Proof.
  apply (poll_misses_change_after_test false demo_clock 2 demo_wf0 demo_wf1).
  - exact demo_snapshots_differ.
  - intros j _. reflexivity.
Defined.

Lemma poll_debug_terminates_witness :
  is_Some (poll_for_updates true (fun _ => demo_wf0) demo_clock 1101).
Proof.
  apply poll_debug_terminates.
  - unfold demo_clock. lia.
  - intros n. unfold demo_clock, poll_interval_ms. lia.
  - lia.
Defined.


Lemma poll_without_debug_never_returns_witness :
  poll_for_updates false (fun _ => demo_wf0) demo_clock 5000 = None.
Proof.
  apply poll_without_debug_never_returns. intros r. reflexivity.
Defined.

