(* ===== verification/PollTree.v ===== *)
(** * The poll loop as an interaction tree

    [poll_for_updates] (lines 163-192) does not terminate outside DEBUG
    mode.  [Poller] models it with fuel; this file gives it a semantics
    without fuel: the view is an interaction tree ([ITree.iter]) whose
    events are the reads of the shared workflow, the reads of the clock and
    the sleeps, and a handler answers them from the same environment as the
    fuel model ([obs r] for the [r]-th read of the workflow, [clock n] for
    the [n]-th [time.time()]).  The theorems of this file are that every
    answer of the fuel model is the answer of the interpreted tree, and
    that the tree diverges ([ITree.spin], by coinduction with [einit] and
    [ecofix]) exactly when the fuel model runs out of every fuel. *)

From Stdlib Require Import ZArith.
From stdpp Require Import base decidable tactics.
From ITree Require Import ITree ITreeFacts Events.State Events.StateFacts.
From S2P Require Import Prelude Workflow Poller.

(** The effects of the view on its environment. *)
Inductive pollE : Type -> Type :=
| ReadWorkflow : pollE workflow
| ReadClock : pollE Z
| Sleep : pollE unit.

Section Tree.
Variable debug : bool.

(** [can_continue()]: in DEBUG mode a read of the clock against
    [start_time], otherwise [True]. *)
Definition can_continue_tree (start : Z) : itree pollE bool :=
  if debug then ITree.bind (ITree.trigger ReadClock)
                  (fun t => Ret (within_timeout (t - start)))
  else Ret true.

(** One iteration of the [while] loop from the baseline [old]: [inl] goes
    on with the re-read baseline, [inr] ends the view. *)
Definition poll_body (start : Z) (old : snapshot) : itree pollE (snapshot + Outcome workflow) :=
  ITree.bind (can_continue_tree start) (fun cont =>
  if cont then
    ITree.bind (ITree.trigger ReadWorkflow) (fun w =>
    if updated old w then
      ITree.bind (ITree.trigger ReadWorkflow) (fun w' => Ret (inr (Returned w')))
    else
      ITree.bind (ITree.trigger ReadWorkflow) (fun w' =>
      ITree.bind (ITree.trigger Sleep) (fun _ => Ret (inl (snapshot_of w')))))
  else Ret (inr (Aborted 408%Z))).

(** The view: the baseline read, [start_time] in DEBUG mode, the loop. *)
Definition poll_tree : itree pollE (Outcome workflow) :=
  ITree.bind (ITree.trigger ReadWorkflow) (fun w0 =>
  ITree.bind (if debug then ITree.trigger ReadClock else Ret 0%Z) (fun start =>
  ITree.iter (poll_body start) (snapshot_of w0))).
End Tree.

Section Env.
Variable obs : nat -> workflow.
Variable clock : nat -> Z.

(** The environment as a handler: the state counts the reads made. *)
Definition handle_poll : pollE ~> Monads.stateT (nat * nat) (itree void1) :=
  fun _ e st =>
    match e in pollE T return itree void1 ((nat * nat) * T) with
    | ReadWorkflow => Ret ((S st.1, st.2), obs st.1)
    | ReadClock => Ret ((st.1, S st.2), clock st.2)
    | Sleep => Ret (st, tt)
    end.

Definition run_poll (debug : bool) : itree void1 ((nat * nat) * Outcome workflow) :=
  interp_state handle_poll (poll_tree debug) (0, 0).
End Env.

(** ** Running the tree *)

(** Unfold the interpretation of binds, triggers and returns. *)
Ltac it_simp :=
  repeat (cbn; rewrite ?interp_state_bind, ?interp_state_trigger, ?interp_state_ret,
                 ?interp_state_tau, ?bind_ret_l, ?bind_bind, ?tau_eutt).

(** An iteration that, from every state of an invariant, returns [inl]
    into the invariant again is silent forever under any handler. *)
Lemma interp_iter_spin {E F S A B} (h : E ~> Monads.stateT S (itree F))
    (g : A -> itree E (A + B)) (P : S -> A -> Prop) :
  (forall s a, P s a -> exists s' a', interp_state h (g a) s ≈ Ret (s', inl a') /\ P s' a') ->
  forall s a, P s a -> interp_state h (ITree.iter g a) s ≈ ITree.spin.
Proof.
  intros Hstep. einit. ecofix CIH. intros s a Ha.
  destruct (Hstep s a Ha) as (s' & a' & Hg & Ha').
  rewrite unfold_iter, interp_state_bind. apply eutt_inv_Ret_r in Hg. rewrite Hg, bind_ret_l.
  cbn. rewrite interp_state_tau, (itree_eta ITree.spin). cbn. etau.
Qed.

Section Run.
Variable obs : nat -> workflow.
Variable clock : nat -> Z.

(** [can_continue()] at the [n]-th read of the clock, and the number of
    clock reads after it. *)
Definition cont_at (debug : bool) (start : Z) (n : nat) : bool :=
  if debug then within_timeout (clock n - start) else true.
Definition clk_next (debug : bool) (n : nat) : nat := if debug then S n else n.

(** One iteration of the loop body under the handler. *)
Lemma poll_body_step debug start old r n :
  interp_state (handle_poll obs clock) (poll_body debug start old) (r, n) ≈
  (if cont_at debug start n then
     if updated old (obs r) then Ret ((S (S r), clk_next debug n), inr (Returned (obs (S r))))
     else Ret ((S (S r), clk_next debug n), inl (snapshot_of (obs (S r))))
   else Ret ((r, clk_next debug n), inr (Aborted 408%Z))).
Proof.
  unfold poll_body, can_continue_tree, cont_at, clk_next.
  destruct debug; it_simp; [destruct (within_timeout _)|]; it_simp;
    try destruct (updated old (obs r)); it_simp; reflexivity.
Qed.

(** One turn of the loop under the handler. *)
Lemma poll_iter_step debug start old r n :
  interp_state (handle_poll obs clock) (ITree.iter (poll_body debug start) old) (r, n) ≈
  (if cont_at debug start n then
     if updated old (obs r) then Ret ((S (S r), clk_next debug n), Returned (obs (S r)))
     else interp_state (handle_poll obs clock)
            (ITree.iter (poll_body debug start) (snapshot_of (obs (S r))))
            (S (S r), clk_next debug n)
   else Ret ((r, clk_next debug n), Aborted 408%Z)).
Proof.
  rewrite unfold_iter, interp_state_bind, poll_body_step.
  destruct (cont_at _ _ _); [destruct (updated _ _)|]; it_simp; reflexivity.
Qed.

(** The start time of the tree and the clock reads before iteration [k]. *)
Definition tree_start (debug : bool) : Z := if debug then clock 0 else 0%Z.
Definition clk_of (debug : bool) (k : nat) : nat := if debug then S k else 0.

Lemma cont_at_can_continue debug k :
  cont_at debug (tree_start debug) (clk_of debug k) = can_continue debug clock k.
Proof. by destruct debug. Qed.

Lemma clk_next_of debug k : clk_next debug (clk_of debug k) = clk_of debug (S k).
Proof. by destruct debug. Qed.

(** The view runs as the loop from iteration 0, its baseline being read 0. *)
Lemma run_poll_iter debug :
  run_poll obs clock debug ≈
  interp_state (handle_poll obs clock)
    (ITree.iter (poll_body debug (tree_start debug)) (snapshot_of (obs 0))) (1, clk_of debug 0).
Proof. unfold run_poll, poll_tree, tree_start, clk_of. destruct debug; it_simp; reflexivity. Qed.

(** The loop of the fuel model from iteration [k] and read [r] answers
    as the tree from the same reads. *)
Lemma poll_loop_tree debug fuel old k r o :
  poll_loop debug obs clock fuel old k r = Some o ->
  exists st, interp_state (handle_poll obs clock)
               (ITree.iter (poll_body debug (tree_start debug)) old) (r, clk_of debug k) ≈ Ret (st, o).
Proof.
  revert old k r. induction fuel as [|fuel IH]; intros old k r Hl; [done|].
  cbn [poll_loop] in Hl. setoid_rewrite poll_iter_step.
  rewrite cont_at_can_continue, clk_next_of.
  destruct (can_continue debug clock k); [|simplify_eq; by eexists].
  destruct (updated old (obs r)); [simplify_eq; by eexists|].
  exact (IH _ _ _ Hl).
Qed.

(** The loop of the fuel model from iteration [k] and read [r] running
    out of every fuel: the tree from the same reads is silent forever. *)
Lemma poll_loop_spin debug old k r :
  (forall fuel, poll_loop debug obs clock fuel old k r = None) ->
  interp_state (handle_poll obs clock)
    (ITree.iter (poll_body debug (tree_start debug)) old) (r, clk_of debug k) ≈ ITree.spin.
Proof.
  intros Hn. apply (interp_iter_spin _ _ (fun (s : nat * nat) (a : snapshot) => exists k r : nat, s = (r, clk_of debug k) /\
    forall fuel, poll_loop debug obs clock fuel a k r = None)); [|by eauto].
  clear. intros s a (k & r & -> & Hn).
  pose proof (Hn 1) as H1. cbn [poll_loop] in H1.
  destruct (can_continue debug clock k) eqn:Hc; [|done].
  destruct (updated a (obs r)) eqn:Hu; [done|].
  exists (S (S r), clk_of debug (S k)), (snapshot_of (obs (S r))). split.
  - rewrite poll_body_step, cont_at_can_continue, Hc, Hu, clk_next_of. reflexivity.
  - exists (S k), (S (S r)). split; [done|]. intros fuel.
    specialize (Hn (S fuel)). cbn [poll_loop] in Hn. by rewrite Hc, Hu in Hn.
Qed.
End Run.

(** ** Refinement *)

(** The fuel model is sound for the interaction-tree semantics of
    [poll_for_updates]: in every environment (reads of the workflow, reads
    of the clock) and in both modes, an answer the fuel model gives with
    some fuel, a workflow or the 408 abort, is the answer of the
    interpreted tree, which runs without fuel. *)
Theorem poll_tree_refines_fuel debug obs clock fuel o :
  poll_for_updates debug obs clock fuel = Some o ->
  exists st, run_poll obs clock debug ≈ Ret (st, o).
Proof.
  intros H. setoid_rewrite run_poll_iter. exact (poll_loop_tree obs clock debug fuel _ 0 1 o H).
Qed.

Lemma poll_tree_refines_fuel_witness :
  exists st, run_poll (change_after 4 demo_wf0 demo_wf1) demo_clock false ≈
             Ret (st, Returned demo_wf1).
Proof. apply (poll_tree_refines_fuel false _ demo_clock 5). vm_compute. reflexivity. Defined.

(** ** Divergence *)

(** The interpreted tree is silent forever exactly when the fuel
    model runs out of every fuel: in every environment and in both modes,
    [run_poll] is [ITree.spin] (the view never answers, not even with 408)
    if and only if [poll_for_updates] answers [None] for every fuel.  With
    [poll_tree_refines_fuel] the two semantics agree on every run: the answer of the tree is
    the answer of the fuel model with enough fuel, and the tree diverges
    when no fuel is enough. *)
Theorem poll_tree_diverges_iff debug obs clock :
  run_poll obs clock debug ≈ ITree.spin <->
  forall fuel, poll_for_updates debug obs clock fuel = None.
Proof.
  split.
  - intros Hspin fuel. destruct (poll_for_updates debug obs clock fuel) as [o|] eqn:Ho; [|done].
    exfalso. destruct (poll_loop_tree obs clock debug fuel _ 0 1 o Ho) as [st Hst].
    rewrite <-run_poll_iter, Hspin in Hst. exact (eutt_spin_Ret_abs _ Hst).
  - intros Hn. rewrite run_poll_iter. exact (poll_loop_spin obs clock debug _ 0 1 Hn).
Qed.

Lemma poll_tree_diverges_iff_witness :
  run_poll (fun _ => demo_wf0) demo_clock false ≈ ITree.spin.
Proof.
  apply poll_tree_diverges_iff. intros fuel. apply poll_for_updates_None.
  intros k _. split; reflexivity.
Defined.
