(* ===== verification/Queue.v ===== *)
(** * JobQueue: the processing queue and its views

    The queue itself lives in the [persistence] module, which is not under
    [src/]: its three operations are an interface, the class [QueueStore],
    whose laws ([QueueStoreSpec]) are the contract of the spec (sections
    4.3 and 6).  [ListQueue] implements it on a list and discharges the laws.
    The views of [web.py] lines 270-292 ([add_to_queue], [list_jobs],
    [remove_from_queue]) are defined over any [QueueStore] and their
    theorems are proved from the laws alone; on any lawful store they
    refine the same views on the list of entries ([refines_list]), which
    a second implementation, [RevQueueStore], illustrates.  Concurrent
    clients of [POST /queue] interleave request by request
    ([queue_step]). *)

From Stdlib Require Import ZArith Ascii String.
From stdpp Require Import base list strings relations.
From S2P Require Import Prelude.

Local Open Scope py_scope.

(** ** The interface of [persistence] *)

(** A queue entry is whatever JSON value the client posted as [id]. *)
Class QueueStore (Q : Type) := {
  append_to_queue : json -> Q -> nat * Q;
  get_queue : Q -> list json;
  (** [None] is the spec's [NotFound]; the queue is then unchanged. *)
  delete_from_queue : nat -> Q -> option Q;
}.

Class QueueStoreSpec (Q : Type) `{!QueueStore Q} := {
  append_to_queue_pos j q : (append_to_queue j q).1 = length (get_queue q);
  append_to_queue_list j q :
    get_queue (append_to_queue j q).2 = get_queue q ++ [j];
  delete_from_queue_in i q :
    i < length (get_queue q) ->
    exists q', delete_from_queue i q = Some q' /\
      get_queue q' = take i (get_queue q) ++ drop (S i) (get_queue q);
  delete_from_queue_out i q :
    length (get_queue q) <= i -> delete_from_queue i q = None;
}.

(** ** A list implementation (spec-modelled) *)

Definition list_append (j : json) (q : list json) : nat * list json :=
  (length q, q ++ [j]).

Definition list_delete (i : nat) (q : list json) : option (list json) :=
  if decide (i < length q) then Some (take i q ++ drop (S i) q) else None.

#[export] Instance ListQueue : QueueStore (list json) := {
  append_to_queue := list_append;
  get_queue q := q;
  delete_from_queue := list_delete;
}.

#[export] Instance ListQueue_spec : QueueStoreSpec (list json).
Proof.
  split; simpl; try done.
  - intros i q Hi. unfold list_delete. rewrite decide_True by done. by eexists.
  - intros i q Hi. unfold list_delete. by rewrite decide_False by lia.
Qed.

(** ** The views *)

Section Views.
Context `{QueueStore Q}.

(** [POST /queue] *)
Definition add_to_queue (body : option json) : PyM Q ViewValue :=
  data <- py_lift (json_loads body) ;;
  id <- py_lift (py_getitem data "id") ;;
  q <- py_get ;;
  let '(pos, q') := append_to_queue id q in
  py_put q' ;;
  py_ret (VJson (JObj [("queue_position", JNum (Z.of_nat pos))])).

(** [GET /queue]: the view returns the string [json.dumps(...)] of the
    queue, not a [jsonify] response. *)
Definition list_jobs : PyM Q ViewValue :=
  q <- py_get ;;
  py_ret (VDumps (JArr (get_queue q))).

(** The body of [remove_from_queue(pos_idx)]: it deletes, then falls off
    its end, returning [None]. *)
Definition remove_from_queue_body (pos_idx : nat) : PyM Q ViewValue :=
  q <- py_get ;;
  match delete_from_queue pos_idx q with
  | Some q' => py_put q' ;; py_ret VNone
  | None => py_abort 404
  end.

(** [DELETE /queue/<int:queue_pos>]: Flask passes the URL variable as the
    keyword argument [queue_pos], while the function's parameter is
    [pos_idx]. *)
Definition remove_from_queue_params : list string := ["pos_idx"].
Definition remove_from_queue_rule : list string := ["queue_pos"].

Definition remove_from_queue (kwargs : list string) (pos : nat) : PyM Q ViewValue :=
  if py_call_kwargs remove_from_queue_params kwargs
  then remove_from_queue_body pos
  else py_raise TypeError.

(** The request [DELETE /queue/pos] as Flask dispatches it. *)
Definition dispatch_remove_from_queue (pos : nat) : PyM Q ViewValue :=
  remove_from_queue remove_from_queue_rule pos.

(** A sequence of [POST /queue] requests with the ids [ids], collecting
    the outcomes. *)
Fixpoint post_queue_all (ids : list json) (q : Q) : list (Outcome ViewValue) * Q :=
  match ids with
  | [] => ([], q)
  | j :: ids' =>
      let '(o, q1) := add_to_queue (Some (JObj [("id", j)])) q in
      let '(os, q2) := post_queue_all ids' q1 in
      (o :: os, q2)
  end.
End Views.

(** ** Properties of the queue views, from the interface's laws *)

(** The answer of [POST /queue] when the entry landed at position [n]. *)
Definition queue_position_reply (n : nat) : Outcome ViewValue :=
  Returned (VJson (JObj [("queue_position", JNum (Z.of_nat n))])).

Section QueueProofs.
Context `{QueueStoreSpec Q}.

Lemma add_to_queue_ok (j : json) (q : Q) :
  add_to_queue (Some (JObj [("id", j)])) q =
  (queue_position_reply (length (get_queue q)), (append_to_queue j q).2).
Proof.
  unfold add_to_queue, queue_position_reply, json_loads. py_unfold. simpl.
  rewrite <-(append_to_queue_pos j q). by destruct (append_to_queue j q).
Qed.

Lemma post_queue_all_spec (ids : list json) (q : Q) :
  (post_queue_all ids q).1 =
    queue_position_reply <$> seq (length (get_queue q)) (length ids) /\
  get_queue (post_queue_all ids q).2 = get_queue q ++ ids.
Proof.
  revert q. induction ids as [|j ids IH]; intros q; simpl.
  - by rewrite app_nil_r.
  - rewrite add_to_queue_ok.
    destruct (post_queue_all ids (append_to_queue j q).2) as [os q2] eqn:E.
    destruct (IH (append_to_queue j q).2) as [IH1 IH2]. rewrite E in IH1, IH2.
    simpl in *. rewrite append_to_queue_list, length_app in IH1.
    rewrite append_to_queue_list, <-app_assoc in IH2. simpl in *.
    split; [|done]. rewrite IH1. simpl. by rewrite Nat.add_1_r.
Qed.

(** (C15) FIFO: a sequence of [POST /queue] requests with the ids [ids]
    answers each with the length of the queue before it, and leaves the
    queue holding the ids in the order they were posted. *)
Theorem post_queue_fifo (ids : list json) (q : Q) :
  let '(replies, q') := post_queue_all ids q in
  replies = queue_position_reply <$> seq (length (get_queue q)) (length ids) /\
  get_queue q' = get_queue q ++ ids.
Proof.
  destruct (post_queue_all ids q) as [os q'] eqn:E.
  pose proof (post_queue_all_spec ids q) as Hs. by rewrite E in Hs.
Qed.

(** [DELETE /queue/<pos>] never runs: Flask calls the view with
    the keyword [queue_pos], which is not its parameter [pos_idx], so
    the call raises [TypeError] (a 500) and the queue is left as it is,
    whatever the position. *)
Theorem remove_from_queue_always_fails (pos : nat) (q : Q) :
  dispatch_remove_from_queue pos q = (Raised TypeError, q) /\
  flask_status (dispatch_remove_from_queue pos q).1 = 500%Z.
Proof. split; reflexivity. Qed.

(** What [remove_from_queue] would do if it were called with its
    own parameter name: an in-range position is removed and the later
    entries move down by one, but the view then returns [None], which
    Flask answers with 500; an out-of-range position is refused and the
    queue is unchanged. *)
Theorem remove_from_queue_body_spec (i : nat) (q : Q) :
  (i < length (get_queue q) ->
   exists q', remove_from_queue_body i q = (Returned VNone, q') /\
     get_queue q' = take i (get_queue q) ++ drop (S i) (get_queue q) /\
     flask_status (Returned VNone) = 500%Z) /\
  (length (get_queue q) <= i ->
   remove_from_queue_body i q = (Aborted 404, q)).
Proof.
  split.
  - intros Hi. destruct (delete_from_queue_in i q Hi) as (q' & Hd & Hq').
    exists q'. unfold remove_from_queue_body. py_unfold. by rewrite Hd.
  - intros Hi. unfold remove_from_queue_body. py_unfold.
    by rewrite delete_from_queue_out.
Qed.
End QueueProofs.

(** ** Concurrent clients

    Flask serves requests in workers of their own; the only state of
    [POST /queue] is the call [persistence.append_to_queue(data['id'])],
    taken as atomic (spec section 4.3).  Several clients post their ids
    concurrently, each in its own order; a step of the system is one
    client's next request, run to its answer. *)

(** A client: the ids it has still to post, and the answers it received,
    in order. *)
Record qclient := QClient {
  qc_todo : list json;
  qc_replies : list (Outcome ViewValue);
}.

Record qsys (Q : Type) := QSys {
  qs_store : Q;
  qs_clients : list qclient;
}.
Arguments QSys {Q} _ _.
Arguments qs_store {Q} _.
Arguments qs_clients {Q} _.

Section Clients.
Context `{QueueStore Q}.

(** Client [c] sends [POST /queue] with its next id. *)
Definition client_step (s : qsys Q) (c : nat) : option (qsys Q) :=
  match s.(qs_clients) !! c with
  | Some (QClient (j :: todo) rs) =>
      let '(o, q') := add_to_queue (Some (JObj [("id", j)])) s.(qs_store) in
      Some (QSys q' (<[c := QClient todo (rs ++ [o])]> s.(qs_clients)))
  | _ => None
  end.

Inductive queue_step (s s' : qsys Q) : Prop :=
| QueueStep c : client_step s c = Some s' -> queue_step s s'.

Definition clients_init (q0 : Q) (idss : list (list json)) : qsys Q :=
  QSys q0 ((fun ids => QClient ids []) <$> idss).

Fixpoint run_clients (sched : list nat) (s : qsys Q) : qsys Q :=
  match sched with
  | [] => s
  | c :: sched' => run_clients sched' (default s (client_step s c))
  end.
End Clients.

(** The positions in a log of appends (client, id) of the entries of
    client [c]. *)
Definition log_positions (c : nat) (log : list (nat * json)) : list nat :=
  omap id (imap (fun k e => if decide (e.1 = c) then Some k else None) log).

Lemma log_positions_snoc c log e :
  log_positions c (log ++ [e]) =
  log_positions c log ++ (if decide (e.1 = c) then [length log] else []).
Proof.
  unfold log_positions. rewrite imap_app, omap_app. simpl. rewrite Nat.add_0_r.
  by case_decide.
Qed.

Section ClientProofs.
Context `{QueueStoreSpec Q}.

(** The invariant: a log of the appends made so far, in the order the
    store received them, that the store's entries extend and that each
    client's posted ids and answers follow. *)
Definition clients_inv (q0 : Q) (idss : list (list json)) (s : qsys Q) : Prop :=
  exists log : list (nat * json),
    get_queue s.(qs_store) = get_queue q0 ++ log.*2 /\
    length s.(qs_clients) = length idss /\
    forall c ids, idss !! c = Some ids ->
      exists cl, s.(qs_clients) !! c = Some cl /\
        (filter (fun e => e.1 = c) log).*2 ++ cl.(qc_todo) = ids /\
        cl.(qc_replies) =
          (fun k => queue_position_reply (length (get_queue q0) + k)) <$> log_positions c log.

Lemma clients_inv_init q0 idss : clients_inv q0 idss (clients_init q0 idss).
Proof.
  exists []. split_and!; simpl; [by rewrite app_nil_r|by rewrite length_fmap|].
  intros c ids Hc. exists (QClient ids []). by rewrite list_lookup_fmap, Hc.
Qed.

Lemma clients_inv_step q0 idss s s' :
  clients_inv q0 idss s -> queue_step s s' -> clients_inv q0 idss s'.
Proof.
  intros (log & Hq & Hlen & Hc) [c Hstep]. unfold client_step in Hstep.
  destruct (qs_clients s !! c) as [[[|j todo] rs]|] eqn:Hcl; try done.
  rewrite add_to_queue_ok in Hstep. injection Hstep as <-.
  exists (log ++ [(c, j)]). split_and!; simpl.
  - by rewrite append_to_queue_list, Hq, fmap_app, app_assoc.
  - by rewrite length_insert.
  - intros c' ids Hc'. destruct (Hc c' ids Hc') as (cl & Hcl' & Hids & Hrs).
    rewrite filter_app, fmap_app, log_positions_snoc. simpl.
    destruct (decide (c = c')) as [<-|Hne].
    + rewrite Hcl in Hcl'. injection Hcl' as <-. simpl in *.
      exists (QClient todo (rs ++ [queue_position_reply (length (get_queue (qs_store s)))])).
      rewrite list_lookup_insert_eq by (by apply lookup_lt_Some in Hcl). simpl.
      rewrite filter_cons_True by done. simpl. split_and!; [done| |].
      * by rewrite <-app_assoc.
      * rewrite Hrs, fmap_app, Hq, length_app, length_fmap. done.
    + exists cl. rewrite list_lookup_insert_ne by done.
      rewrite filter_cons_False by (simpl; congruence). simpl.
      by rewrite !app_nil_r.
Qed.

Lemma run_clients_rtc sched (s : qsys Q) : rtc queue_step s (run_clients sched s).
Proof.
  revert s. induction sched as [|c sched IH]; intros s; simpl; [done|].
  destruct (client_step s c) as [s'|] eqn:E; simpl; [|apply IH].
  eapply rtc_l; [by econstructor|apply IH].
Qed.

Lemma clients_inv_rtc q0 idss s :
  rtc queue_step (clients_init q0 idss) s -> clients_inv q0 idss s.
Proof.
  intros Hr. pose proof (clients_inv_init q0 idss) as Hinit.
  induction Hr as [|x y z Hxy _ IH]; [done|]. apply IH. by eapply clients_inv_step.
Qed.
(** (C16) Concurrent [POST /queue] requests (spec sections 4.3 and 5):
    whatever the interleaving of several clients, each posting its own
    ids in its own order, there is a total order of the appends, a log of
    (client, id), such that the queue holds its initial entries followed
    by the logged ids, so that no entry is lost or duplicated; the ids a
    client has posted appear in the log in its posting order, followed by
    those it has still to post; and each answer a client received is the
    position at which its entry stands in the queue. *)
Theorem queue_concurrent_posts q0 idss s :
  rtc queue_step (clients_init q0 idss) s ->
  exists log : list (nat * json),
    get_queue s.(qs_store) = get_queue q0 ++ log.*2 /\
    forall c ids, idss !! c = Some ids ->
      exists cl, s.(qs_clients) !! c = Some cl /\
        (filter (fun e => e.1 = c) log).*2 ++ cl.(qc_todo) = ids /\
        cl.(qc_replies) =
          (fun k => queue_position_reply (length (get_queue q0) + k)) <$> log_positions c log.
Proof.
  intros Hr. destruct (clients_inv_rtc q0 idss s Hr) as (log & Hq & _ & Hc). by exists log.
Qed.
End ClientProofs.

(** ** Representation independence

    Two states of a queue store are equivalent when they hold the same
    entries.  The laws fix every view's answer, and the entries it leaves,
    from the entries alone: each view on any lawful store refines the same
    view on the list of its entries, the abstraction function being
    [get_queue]. *)
Section Abstraction.
Context `{QueueStoreSpec Q}.

Definition queue_equiv (q1 q2 : Q) : Prop := get_queue q1 = get_queue q2.

(** Results of a view that agree on the outcome and on the entries. *)
Definition result_equiv {A} (r1 r2 : Outcome A * Q) : Prop :=
  r1.1 = r2.1 /\ queue_equiv r1.2 r2.2.

(** [m] on a store does what [m'] does on the list of its entries. *)
Definition refines_list {A} (m : PyM Q A) (m' : PyM (list json) A) : Prop :=
  forall q, (m q).1 = (m' (get_queue q)).1 /\ get_queue (m q).2 = (m' (get_queue q)).2.

Lemma refines_list_proper {A} (m : PyM Q A) m' :
  refines_list m m' -> Proper (queue_equiv ==> result_equiv) m.
Proof.
  intros Href q1 q2 Hq. destruct (Href q1) as [O1 S1], (Href q2) as [O2 S2].
  unfold queue_equiv in Hq. split; unfold queue_equiv; congruence.
Qed.

Lemma add_to_queue_refines body :
  refines_list (add_to_queue body) (add_to_queue (Q := list json) body).
Proof.
  intros q. unfold add_to_queue. py_unfold.
  destruct (json_loads body) as [d| |]; simpl; [|done|done].
  destruct (py_getitem d "id") as [j| |]; simpl; [|done|done].
  pose proof (append_to_queue_pos j q) as Hp. pose proof (append_to_queue_list j q) as Hl.
  destruct (append_to_queue j q) as [pos q']. simpl in *. by subst.
Qed.

Lemma list_jobs_refines : refines_list list_jobs (list_jobs (Q := list json)).
Proof. done. Qed.

Lemma remove_from_queue_body_refines pos :
  refines_list (remove_from_queue_body pos) (remove_from_queue_body (Q := list json) pos).
Proof.
  intros q. unfold remove_from_queue_body. py_unfold. simpl. unfold list_delete.
  destruct (decide (pos < length (get_queue q))) as [Hi|Hi].
  - destruct (delete_from_queue_in pos q Hi) as (q' & -> & Hq'). simpl. by rewrite Hq'.
  - by rewrite delete_from_queue_out by lia.
Qed.

(** Representation independence of the queue views: on any store
    that satisfies the laws of [persistence]'s queue, [POST /queue],
    [GET /queue] and the body of [DELETE /queue/<pos>] answer as on the
    list of the store's entries and leave the entries the list model
    leaves; so two stores holding the same entries answer every request
    alike and keep holding the same entries. *)
Theorem queue_views_refine_list body pos :
  refines_list (add_to_queue body) (add_to_queue (Q := list json) body) /\
  refines_list list_jobs (list_jobs (Q := list json)) /\
  refines_list (remove_from_queue_body pos) (remove_from_queue_body (Q := list json) pos) /\
  Proper (queue_equiv ==> result_equiv) (add_to_queue body) /\
  Proper (queue_equiv ==> result_equiv) list_jobs /\
  Proper (queue_equiv ==> result_equiv) (remove_from_queue_body pos).
Proof.
  split_and!; try apply add_to_queue_refines; try apply list_jobs_refines;
    try apply remove_from_queue_body_refines; eapply refines_list_proper.
  - apply add_to_queue_refines.
  - apply list_jobs_refines.
  - apply remove_from_queue_body_refines.
Qed.
End Abstraction.

(** A second implementation: the entries newest first. *)
Record rev_queue := RevQueue { rev_entries : list json }.

#[export] Instance RevQueueStore : QueueStore rev_queue := {
  append_to_queue j q := (length (rev_entries q), RevQueue (j :: rev_entries q));
  get_queue q := reverse (rev_entries q);
  delete_from_queue i q :=
    (fun l => RevQueue (reverse l)) <$> list_delete i (reverse (rev_entries q));
}.

#[export] Instance RevQueueStore_spec : QueueStoreSpec rev_queue.
Proof.
  split; intros *; cbn [get_queue append_to_queue delete_from_queue RevQueueStore fst snd rev_entries].
  - by rewrite length_reverse.
  - by rewrite reverse_cons.
  - intros Hi. unfold list_delete. rewrite decide_True by done.
    eexists. split; [done|]. cbn [rev_entries]. by rewrite reverse_involutive.
  - intros Hi. unfold list_delete. by rewrite decide_False by lia.
Qed.

(** ** Witnesses *)

Lemma remove_from_queue_body_spec_witness :
  exists q', remove_from_queue_body (Q := list json) 1 [JNum 1; JNum 2; JNum 3]
    = (Returned VNone, q') /\ q' = [JNum 1; JNum 3] /\
    flask_status (Returned VNone) = 500%Z.
Proof.
  destruct (remove_from_queue_body_spec (Q := list json) 1
    [JNum 1; JNum 2; JNum 3]) as [Hin _].
  destruct Hin as (q' & H1 & H2 & H3); [cbn; lia|].
  exists q'. split; [exact H1|]. split; [exact H2|exact H3].
Defined.

Lemma post_queue_fifo_witness :
  let '(replies, q') := post_queue_all [JStr "a"; JStr "b"] [JStr "z"] in
  replies = queue_position_reply <$> seq (length (get_queue [JStr "z"])) 2 /\
  get_queue q' = get_queue [JStr "z"] ++ [JStr "a"; JStr "b"].
Proof. exact (post_queue_fifo [JStr "a"; JStr "b"] [JStr "z"]). Defined.

(** Two clients, one posting "a" then "b", the other "x", interleaved as
    a, x, b on a queue holding "z". *)
Definition demo_clients : qsys (list json) :=
  run_clients [0; 1; 0] (clients_init [JStr "z"] [[JStr "a"; JStr "b"]; [JStr "x"]]).

Lemma queue_concurrent_posts_witness :
  (exists log : list (nat * json),
    get_queue demo_clients.(qs_store) = get_queue [JStr "z"] ++ log.*2 /\
    forall c ids, [[JStr "a"; JStr "b"]; [JStr "x"]] !! c = Some ids ->
      exists cl, demo_clients.(qs_clients) !! c = Some cl /\
        (filter (fun e => e.1 = c) log).*2 ++ cl.(qc_todo) = ids /\
        cl.(qc_replies) =
          (fun k => queue_position_reply (length (get_queue [JStr "z"]) + k)) <$>
            log_positions c log) /\
  demo_clients.(qs_store) = [JStr "z"; JStr "a"; JStr "x"; JStr "b"].
Proof.
  split; [|vm_compute; reflexivity].
  apply queue_concurrent_posts, run_clients_rtc.
Defined.
