(* ===== verification/Submit.v ===== *)
(** * RemoteSubmissionClient: [submit_workflow]

    [web.py] lines 223-264.  The view hands a captured workflow over to a
    postprocessing server in three steps: create a remote workflow, upload
    every image, enqueue the remote workflow.  The remote server is a
    transport [post] that answers a request and moves the remote state
    [R]; the view's state is the pair of that remote state and the list of
    requests sent so far, so that the theorems can speak of which requests
    were made and in which order.

    The library [requests] is modelled as the code uses it:
    - [bool(resp)] is [resp.ok], a status below 400;
    - [resp.code] does not exist: reading it raises [AttributeError];
    - [resp.json] is the decoded body in requests before 1.0 and a bound
      method from 1.0 on, which [resp.json['id']] cannot subscript;
    - a transport failure raises out of [requests.post];
    - the upload at line 253 passes [files={'file': {name: bytes}}]: the
      value of the file part is a dict, where requests wants a file or a
      [(filename, data)] tuple, and requests (before 1.0 and in 1.x)
      encodes a part by calling [.read()] on that value, so the call
      raises [AttributeError] before anything is sent. *)

From Stdlib Require Import ZArith Ascii String.
From stdpp Require Import base list strings.
From S2P Require Import Prelude Workflow.

Local Open Scope py_scope.

(** ** Requests and responses *)

Inductive HttpRequest :=
| PostJson (url : string) (body : json)
| PostFile (url : string) (field : string) (filename : string) (bytes : string).

Record HttpResponse := HttpResp {
  resp_status : Z;
  resp_body : option json;
}.

(** What [requests.post] does: a response, or an exception raised by the
    transport. *)
Inductive PostResult :=
| PostOk (resp : HttpResponse)
| PostRaise (e : PyExc).

(** [bool(resp)] *)
Definition resp_ok (r : HttpResponse) : bool := bool_decide (r.(resp_status) < 400)%Z.

Inductive RequestsVersion := RequestsPre1 | Requests1.

(** [resp.json['id']] *)
Definition resp_json_getitem (v : RequestsVersion) (r : HttpResponse) (k : string)
    : Outcome json :=
  match v with
  | RequestsPre1 =>
      match r.(resp_body) with
      | Some d => py_getitem d k
      | None => Raised TypeError
      end
  | Requests1 => Raised TypeError
  end.

(** [resp.code] *)
Definition resp_code (r : HttpResponse) : Outcome Z := Raised AttributeError.

(** ** The configuration *)

(** [app.config['mode']] and [app.config['postproc_server']] ([None] for
    a value of [None]; a missing key would raise [KeyError], a 500 before
    any request as well). *)
Record SubmitConfig := SubmitCfg {
  cfg_mode : string;
  cfg_postproc_server : option string;
}.

(** [if not server]: [None] and the empty string are false. *)
Definition configured_server (s : option string) : option string :=
  match s with
  | Some srv => if decide (srv = "") then None else Some srv
  | None => None
  end.

(** ** The requests the view sends *)

Definition create_request (server : string) (w : workflow) : HttpRequest :=
  PostJson (server +:+ "/workflow")
    (JObj [("name", JStr (path_stem w.(wf_name)));
           ("step", JStr "capture");
           ("step_done", JBool true)]).

(** ["/".join([server, 'workflow', remote_id, 'image'])]: [str.join]
    raises [TypeError] unless [remote_id] is a string. *)
Definition image_url_of (server rid : string) : string :=
  server +:+ "/workflow/" +:+ rid +:+ "/image".

Definition image_url (server : string) (remote_id : json) : Outcome string :=
  match remote_id with
  | JStr rid => Returned (image_url_of server rid)
  | _ => Raised TypeError
  end.

(** [requests.post(url, files={'file': {imgpath.name: imgpath.read('rb')}})]
    up to the sending: encoding the file part calls [.read()] on the dict
    given as its value, which raises [AttributeError]; no request is
    built, so none is sent. *)
Definition upload_request (url : string) (img : image) : Outcome HttpRequest :=
  Raised AttributeError.

Definition enqueue_request (server : string) (remote_id : json) : HttpRequest :=
  PostJson (server +:+ "/queue") (JObj [("id", remote_id)]).

(** ** The view *)

Section Client.
Context {R : Type}.
Variable post : HttpRequest -> R -> PostResult * R.
Variable version : RequestsVersion.

Definition SubmitM := PyM (R * list HttpRequest).

(** [requests.post(...)], recording the request. *)
Definition http_post (req : HttpRequest) : SubmitM HttpResponse :=
  fun '(r, sent) =>
    match post req r with
    | (PostOk resp, r') => (Returned resp, (r', sent ++ [req]))
    | (PostRaise e, r') => (Raised e, (r', sent ++ [req]))
    end.

(** [if not resp: ...; abort(resp.code)] *)
Definition check_resp (resp : HttpResponse) : SubmitM unit :=
  if resp_ok resp then py_ret tt
  else code <- py_lift (resp_code resp) ;; py_abort code.

(** The [for imgpath in workflow.images] loop. *)
Fixpoint upload_images (server : string) (remote_id : json) (imgs : list image)
    : SubmitM unit :=
  match imgs with
  | [] => py_ret tt
  | img :: imgs' =>
      url <- py_lift (image_url server remote_id) ;;
      req <- py_lift (upload_request url img) ;;
      resp <- http_post req ;;
      check_resp resp ;;
      upload_images server remote_id imgs'
  end.

(** Lines 259-264: the enqueue request, then the bare [return]. *)
Definition enqueue_remote (server : string) (w : workflow) (remote_id : json)
    : SubmitM ViewValue :=
  resp <- http_post (enqueue_request server remote_id) ;;
  if resp_ok resp then py_ret VNone
  else
    (* the error message formats [imgpath], which is unbound when the
       workflow has no image *)
    match w.(wf_images) with
    | [] => py_raise NameError
    | _ :: _ => code <- py_lift (resp_code resp) ;; py_abort code
    end.

(** Lines 238-264: the three steps, once the guards have passed. *)
Definition submit_to_server (server : string) (w : workflow) : SubmitM ViewValue :=
  resp <- http_post (create_request server w) ;;
  check_resp resp ;;
  remote_id <- py_lift (resp_json_getitem version resp "id") ;;
  upload_images server remote_id w.(wf_images) ;;
  enqueue_remote server w remote_id.

(** Lines 224-264: the role check [mode not in ('scanner')] (a substring
    test, since [('scanner')] is a string and not a tuple), the
    configuration check [if not server], then the three steps. *)
Definition submit_workflow (cfg : SubmitConfig) (w : workflow) : SubmitM ViewValue :=
  if negb (py_str_contains "scanner" cfg.(cfg_mode)) then py_abort 404 else
  match configured_server cfg.(cfg_postproc_server) with
  | None => py_abort 500
  | Some server => submit_to_server server w
  end.
End Client.

(** ** Running the view against a remote server *)

Section ClientProofs.
Context {R : Type}.
Variable post : HttpRequest -> R -> PostResult * R.

(** The remote server answers [req] with a success, whatever its state. *)
Definition accepts (req : HttpRequest) : Prop :=
  forall r, exists resp r', post req r = (PostOk resp, r') /\ resp_ok resp = true.

(** The remote server answers [req] with an error status. *)
Definition rejects (req : HttpRequest) : Prop :=
  forall r, exists resp r', post req r = (PostOk resp, r') /\ resp_ok resp = false.

Lemma http_post_accepted req r sent :
  accepts req ->
  exists resp r', http_post post req (r, sent) = (Returned resp, (r', sent ++ [req])) /\
    resp_ok resp = true.
Proof.
  intros Hacc. destruct (Hacc r) as (resp & r' & Hp & Hok).
  exists resp, r'. unfold http_post. by rewrite Hp.
Qed.

Lemma check_resp_ok resp s :
  resp_ok resp = true -> check_resp (R := R) resp s = (Returned tt, s).
Proof. unfold check_resp. by intros ->. Qed.

Lemma check_resp_error resp s :
  resp_ok resp = false -> check_resp (R := R) resp s = (Raised AttributeError, s).
Proof. unfold check_resp. by intros ->. Qed.

(** With a string id the first upload raises [AttributeError] on the
    client, before any request. *)
Lemma upload_images_string server rid img imgs s :
  upload_images post server (JStr rid) (img :: imgs) s = (Raised AttributeError, s).
Proof. reflexivity. Qed.

Lemma upload_images_not_string server remote_id img imgs s :
  (forall rid, remote_id <> JStr rid) ->
  upload_images post server remote_id (img :: imgs) s = (Raised TypeError, s).
Proof.
  intros Hns. unfold upload_images. py_unfold.
  destruct remote_id; try done. exfalso. by eapply Hns.
Qed.

(** Nothing in the view past its two guards aborts: every failure is
    an exception, since [abort(resp.code)] raises on [resp.code]. *)
Lemma http_post_no_abort req : no_abort (fun _ => True) (http_post post req).
Proof.
  intros [r sent]. unfold http_post. by destruct (post req r) as [[]].
Qed.

Lemma check_resp_no_abort resp : no_abort (fun _ => True) (check_resp (R := R) resp).
Proof.
  unfold check_resp. destruct (resp_ok resp); [by apply no_abort_ret|].
  apply no_abort_bind with (P := fun _ => False); [by apply no_abort_lift|done].
Qed.

Lemma upload_images_no_abort server remote_id imgs :
  no_abort (fun _ => True) (upload_images post server remote_id imgs).
Proof.
  induction imgs as [|img imgs IH]; simpl; [by apply no_abort_ret|].
  apply no_abort_bind with (P := fun _ => True).
  { apply no_abort_lift. unfold image_url. by destruct remote_id. }
  intros url _. apply no_abort_bind with (P := fun _ => True); [by apply no_abort_lift|].
  intros req _. apply no_abort_bind with (P := fun _ => True); [apply http_post_no_abort|].
  intros resp _. apply no_abort_bind with (P := fun _ => True); [apply check_resp_no_abort|].
  by intros _ _.
Qed.

Lemma submit_to_server_no_abort version server w :
  no_abort (fun v => v = VNone) (submit_to_server post version server w).
Proof.
  unfold submit_to_server.
  apply no_abort_bind with (P := fun _ => True); [apply http_post_no_abort|].
  intros resp _. apply no_abort_bind with (P := fun _ => True); [apply check_resp_no_abort|].
  intros _ _. apply no_abort_bind with (P := fun _ => True).
  { apply no_abort_lift. destruct version; simpl; [|done].
    destruct (resp_body resp) as [d|]; [|done]. unfold py_getitem.
    destruct d; try done. by destruct (list_find _ _) as [[]|]. }
  intros rid _. apply no_abort_bind with (P := fun _ => True); [apply upload_images_no_abort|].
  intros _ _. unfold enqueue_remote. apply no_abort_bind with (P := fun _ => True); [apply http_post_no_abort|].
  intros resp' _. destruct (resp_ok resp'); [by apply no_abort_ret|].
  destruct (wf_images w); [apply no_abort_raise|].
  apply no_abort_bind with (P := fun _ => False); [by apply no_abort_lift|done].
Qed.
End ClientProofs.

(** ** Properties of [submit_workflow] *)

Section SubmitTheorems.
Context {R : Type}.
Variable post : HttpRequest -> R -> PostResult * R.

(** The remote server accepts the creation request and its answer's
    [id], as the given version of requests reads it, is [rid]. *)
Definition creates_with_id (version : RequestsVersion) (server : string)
    (w : workflow) (rid : json) : Prop :=
  forall r, exists resp r',
    post (create_request server w) r = (PostOk resp, r') /\
    resp_ok resp = true /\ resp_json_getitem version resp "id" = Returned rid.

Lemma submit_to_server_created version server w rid r :
  creates_with_id version server w rid ->
  exists r', submit_to_server post version server w (r, []) =
    (upload_images post server rid w.(wf_images) ;;
     enqueue_remote post server w rid)%py (r', [create_request server w]).
Proof.
  intros Hc. destruct (Hc r) as (resp & r' & Hp & Hok & Hid). exists r'.
  unfold submit_to_server. py_unfold. unfold http_post at 1. rewrite Hp. simpl.
  rewrite (check_resp_ok _ _ Hok), Hid. reflexivity.
Qed.

Lemma submit_workflow_guards_pass version cfg server w s :
  py_str_contains "scanner" cfg.(cfg_mode) = true ->
  configured_server cfg.(cfg_postproc_server) = Some server ->
  submit_workflow post version cfg w s = submit_to_server post version server w s.
Proof. intros Hm Hs. unfold submit_workflow. by rewrite Hm, Hs. Qed.

(** (C1) The hand-off of a workflow without images, the creation
    accepted: the view sends exactly the creation request and the enqueue
    request, in this order.  An accepted enqueue makes the view fall off
    its end, and Flask answers the client with 500 all the same; a refused
    one raises [NameError], its error message formatting the loop
    variable [imgpath], which no iteration bound. *)
Theorem submit_without_images cfg server w rid r :
  py_str_contains "scanner" cfg.(cfg_mode) = true ->
  configured_server cfg.(cfg_postproc_server) = Some server ->
  creates_with_id RequestsPre1 server w rid ->
  w.(wf_images) = [] ->
  (accepts post (enqueue_request server rid) ->
   exists r', submit_workflow post RequestsPre1 cfg w (r, []) =
     (Returned VNone, (r', [create_request server w; enqueue_request server rid])) /\
     flask_status (Returned VNone) = 500%Z) /\
  (rejects post (enqueue_request server rid) ->
   exists r', submit_workflow post RequestsPre1 cfg w (r, []) =
     (Raised NameError, (r', [create_request server w; enqueue_request server rid]))).
Proof.
  intros Hm Hs Hc Himgs.
  rewrite (submit_workflow_guards_pass _ _ server) by done.
  destruct (submit_to_server_created _ _ _ _ r Hc) as [r1 ->].
  rewrite Himgs. split.
  - intros Henq. destruct (Henq r1) as (resp & r2 & Hp & Hok). exists r2.
    unfold enqueue_remote. py_unfold. unfold http_post. simpl. by rewrite Hp, Hok.
  - intros Henq. destruct (Henq r1) as (resp & r2 & Hp & Hko). exists r2.
    unfold enqueue_remote. rewrite Himgs. py_unfold. unfold http_post. simpl. by rewrite Hp, Hko.
Qed.

(** (C2) A workflow with images is never handed off: once the remote
    workflow is created, the first iteration of the upload loop raises on
    the client, [TypeError] from ["/".join(...)] when the remote id is not
    a string and [AttributeError] from the malformed [files] argument
    otherwise.  Only the creation request was sent: no image is uploaded
    and nothing is enqueued, while the remote workflow is left behind. *)
Theorem submit_with_images_fails cfg server w rid img imgs r :
  py_str_contains "scanner" cfg.(cfg_mode) = true ->
  configured_server cfg.(cfg_postproc_server) = Some server ->
  creates_with_id RequestsPre1 server w rid ->
  w.(wf_images) = img :: imgs ->
  exists r', submit_workflow post RequestsPre1 cfg w (r, []) =
    (Raised (match rid with JStr _ => AttributeError | _ => TypeError end),
     (r', [create_request server w])).
Proof.
  intros Hm Hs Hc Himgs.
  rewrite (submit_workflow_guards_pass _ _ server) by done.
  destruct (submit_to_server_created _ _ _ _ r Hc) as [r1 ->].
  exists r1. py_unfold. rewrite Himgs.
  destruct rid as [| | |rid| |]; try (rewrite upload_images_not_string; [done|done]).
  by rewrite upload_images_string.
Qed.

(** (C3) Whatever the configuration, the workflow and the remote
    server do, the client of [POST /workflow/<id>/submit] gets 404 or
    500: never a success status. *)
Theorem submit_status_never_success version cfg w s :
  flask_status (submit_workflow post version cfg w s).1 = 404%Z \/
  flask_status (submit_workflow post version cfg w s).1 = 500%Z.
Proof.
  unfold submit_workflow.
  destruct (negb _); [by left|].
  destruct (configured_server _) as [server|]; [|by right].
  right. pose proof (submit_to_server_no_abort post version server w s) as H.
  destruct (submit_to_server post version server w s) as [[a|c|e] s']; simpl in *;
    [by subst|done|done].
Qed.

(** (C4) The role check: the view refuses with 404, before any request,
    exactly the modes that are not substrings of ["scanner"].  The modes
    ["processor"] and ["full"] are refused, but so is no substring such
    as ["scan"] or [""], which the spec's capture-only role excludes. *)
Theorem submit_role_check version cfg w s :
  ((submit_workflow post version cfg w s).1 = Aborted 404 <->
   py_str_contains "scanner" cfg.(cfg_mode) = false) /\
  (py_str_contains "scanner" cfg.(cfg_mode) = false ->
   submit_workflow post version cfg w s = (Aborted 404, s)).
Proof.
  split; [|unfold submit_workflow; by intros ->].
  unfold submit_workflow. destruct (py_str_contains _ _); simpl; [|done].
  split; [|done]. destruct (configured_server _) as [server|].
  - intros H. exfalso.
    exact (no_abort_not_aborted _ _ s 404 (submit_to_server_no_abort post version server w) H).
  - cbv [py_abort]. simpl. congruence.
Qed.

(** (C5) Missing configuration: with no [postproc_server] (unset or
    empty) the view aborts with 500 before any request. *)
Theorem submit_misconfigured version cfg w s :
  py_str_contains "scanner" cfg.(cfg_mode) = true ->
  configured_server cfg.(cfg_postproc_server) = None ->
  submit_workflow post version cfg w s = (Aborted 500, s).
Proof. intros Hm Hs. unfold submit_workflow. by rewrite Hm, Hs. Qed.

(** With requests 1.0 or later, where [resp.json] is a method,
    [resp.json['id']] raises [TypeError] right after the remote workflow
    was created: no image is ever uploaded and nothing is enqueued. *)
Theorem submit_requests1_stops_after_create cfg server w r :
  py_str_contains "scanner" cfg.(cfg_mode) = true ->
  configured_server cfg.(cfg_postproc_server) = Some server ->
  accepts post (create_request server w) ->
  exists r', submit_workflow post Requests1 cfg w (r, []) =
    (Raised TypeError, (r', [create_request server w])).
Proof.
  intros Hm Hs Hc. rewrite (submit_workflow_guards_pass _ _ server) by done.
  destruct (Hc r) as (resp & r' & Hp & Hok). exists r'.
  unfold submit_to_server. py_unfold. unfold http_post at 1. rewrite Hp. simpl.
  by rewrite (check_resp_ok _ _ Hok).
Qed.

(** (C6) A refused creation request stops the hand-off: nothing else is
    sent and the view raises [AttributeError] on [resp.code]. *)
Theorem submit_create_failure version cfg server w r :
  py_str_contains "scanner" cfg.(cfg_mode) = true ->
  configured_server cfg.(cfg_postproc_server) = Some server ->
  rejects post (create_request server w) ->
  exists r', submit_workflow post version cfg w (r, []) =
    (Raised AttributeError, (r', [create_request server w])).
Proof.
  intros Hm Hs Hc. rewrite (submit_workflow_guards_pass _ _ server) by done.
  destruct (Hc r) as (resp & r' & Hp & Hko). exists r'.
  unfold submit_to_server. py_unfold. unfold http_post at 1. rewrite Hp. simpl.
  by rewrite (check_resp_error _ _ Hko).
Qed.
End SubmitTheorems.

(** ** Witnesses

    A remote server counting the requests it receives: it answers every
    JSON request with 200 and the body [{"id": "42"}] (or the number 42 in
    [demo_remote_num]), accepts every upload but the one of [b.jpg], and
    refuses every creation request in [demo_remote_down]. *)
Definition demo_remote_with (id : json) (req : HttpRequest) (n : nat) : PostResult * nat :=
  match req with
  | PostFile _ _ fname _ =>
      if decide (fname = "b.jpg") then (PostOk (HttpResp 500 None), S n)
      else (PostOk (HttpResp 200 (Some (JStr "OK"))), S n)
  | PostJson _ _ => (PostOk (HttpResp 200 (Some (JObj [("id", id)]))), S n)
  end.

Definition demo_remote := demo_remote_with (JStr "42").
Definition demo_remote_num := demo_remote_with (JNum 42).

Definition demo_remote_down (req : HttpRequest) (n : nat) : PostResult * nat :=
  (PostOk (HttpResp 503 None), S n).

Definition demo_server : string := "http://postproc:5000".
Definition demo_cfg : SubmitConfig := SubmitCfg "scanner" (Some demo_server).
Definition demo_img (name : string) : image := Image name 3000 2000 "raw".
Definition demo_book (imgs : list image) : workflow :=
  Workflow 3 "/home/scans" "book.v2" imgs (Some "capture") (Some true) [].

Ltac demo_accepts :=
  intros ?; eexists _, _; split; [reflexivity|reflexivity].

Lemma submit_without_images_witness :
  (accepts demo_remote (enqueue_request demo_server (JStr "42")) ->
   exists r', submit_workflow demo_remote RequestsPre1 demo_cfg (demo_book []) (0, []) =
     (Returned VNone, (r', [create_request demo_server (demo_book []);
                            enqueue_request demo_server (JStr "42")])) /\
     flask_status (Returned VNone) = 500%Z) /\
  (rejects demo_remote (enqueue_request demo_server (JStr "42")) ->
   exists r', submit_workflow demo_remote RequestsPre1 demo_cfg (demo_book []) (0, []) =
     (Raised NameError, (r', [create_request demo_server (demo_book []);
                              enqueue_request demo_server (JStr "42")]))).
Proof.
  apply (submit_without_images demo_remote demo_cfg demo_server); try reflexivity.
  intros r. eexists _, _. split_and!; reflexivity.
Defined.

Lemma submit_with_images_fails_witness :
  exists r', submit_workflow demo_remote RequestsPre1 demo_cfg
      (demo_book [demo_img "a.jpg"; demo_img "c.jpg"]) (0, []) =
    (Raised AttributeError,
     (r', [create_request demo_server (demo_book [demo_img "a.jpg"; demo_img "c.jpg"])])).
Proof.
  apply (submit_with_images_fails demo_remote demo_cfg demo_server _ (JStr "42")
    (demo_img "a.jpg") [demo_img "c.jpg"]); try reflexivity.
  intros r. eexists _, _. split_and!; reflexivity.
Defined.

Lemma submit_role_check_witness :
  (((submit_workflow demo_remote RequestsPre1 (SubmitCfg "full" (Some demo_server))
      (demo_book []) (0, [])).1 = Aborted 404 <->
   py_str_contains "scanner" "full" = false) /\
  (py_str_contains "scanner" "full" = false ->
   submit_workflow demo_remote RequestsPre1 (SubmitCfg "full" (Some demo_server))
     (demo_book []) (0, []) = (Aborted 404, (0, [])))) /\
  py_str_contains "scanner" "scan" = true.
Proof.
  split; [exact (submit_role_check demo_remote RequestsPre1
    (SubmitCfg "full" (Some demo_server)) (demo_book []) (0, []))|].
  reflexivity.
Defined.

Lemma submit_misconfigured_witness :
  submit_workflow demo_remote RequestsPre1 (SubmitCfg "scanner" (Some ""))
    (demo_book []) (0, []) = (Aborted 500, (0, [])).
Proof. apply submit_misconfigured; reflexivity. Defined.

Lemma submit_requests1_stops_after_create_witness :
  exists r', submit_workflow demo_remote Requests1 demo_cfg
      (demo_book [demo_img "a.jpg"]) (0, []) =
    (Raised TypeError, (r', [create_request demo_server (demo_book [demo_img "a.jpg"])])).
Proof.
  apply submit_requests1_stops_after_create; try reflexivity. demo_accepts.
Defined.

Lemma submit_create_failure_witness :
  exists r', submit_workflow demo_remote_down RequestsPre1 demo_cfg
      (demo_book [demo_img "a.jpg"]) (0, []) =
    (Raised AttributeError, (r', [create_request demo_server (demo_book [demo_img "a.jpg"])])).
Proof.
  apply submit_create_failure; try reflexivity.
  intros ?; eexists _, _; split; reflexivity.
Defined.
