(* ===== verification/Thumbnail.v ===== *)
(** * ThumbnailCache: [get_workflow_image_thumb] and [get_workflow_image]

    [web.py] lines 317-345.  The thumbnail of image [img_num] of a
    workflow is the file ["{workflow.id}_{img_num}.jpg"] of the temporary
    directory.  The view resolves the index (404 when it is out of range),
    generates the file when it does not exist (a 300 pixel wide sample of
    the image, its height computed in floating point) and sends it.

    The temporary directory is a finite map from paths to thumbnail files.
    The height is computed as Python computes it, in IEEE binary64
    arithmetic ([PrimFloat]): [int(300/(img.width/float(img.height)))]. *)

From Stdlib Require Import ZArith Ascii String Floats Uint63.
From stdpp Require Import base list strings gmap pretty.
From S2P Require Import Prelude Workflow.

Local Open Scope py_scope.

(** ** Python floats *)

(** [float(z)] for a non-negative integer below 2^63 (image dimensions). *)
Definition py_float_of_int (z : Z) : float := PrimFloat.of_uint63 (Uint63.of_Z z).

(** [a / b] on floats: division by zero raises. *)
Definition py_fdiv (a b : float) : Outcome float :=
  if PrimFloat.eqb b 0%float then Raised ZeroDivisionError
  else Returned (PrimFloat.div a b).

(** [int(f)]: truncation toward zero; infinities overflow, NaN is refused. *)
Definition py_int (f : float) : Outcome Z :=
  match Prim2SF f with
  | SpecFloat.S754_zero _ => Returned 0%Z
  | SpecFloat.S754_infinity _ => Raised OverflowError
  | SpecFloat.S754_nan => Raised ValueError
  | SpecFloat.S754_finite s m e =>
      let a := (if (0 <=? e)%Z then Z.shiftl (Zpos m) e else Z.shiftr (Zpos m) (- e))%Z in
      Returned (if s then (- a)%Z else a)
  end.

(** ** Thumbnails *)

Definition thumb_target_width : Z := 300.

(** [thumb_width = int(300/(img.width/float(img.height)))], which is the
    height of the thumbnail despite its name. *)
Definition thumb_height (width height : Z) : Outcome Z :=
  match py_fdiv (py_float_of_int width) (py_float_of_int height) with
  | Returned ratio =>
      match py_fdiv (py_float_of_int thumb_target_width) ratio with
      | Returned q => py_int q
      | Aborted c => Aborted c
      | Raised e => Raised e
      end
  | Aborted c => Aborted c
  | Raised e => Raised e
  end.

(** A thumbnail file: its dimensions and the image it was sampled from. *)
Record thumb := Thumb {
  thumb_w : Z;
  thumb_h : Z;
  thumb_src : image;
}.

(** [img.sample(300, thumb_width)]: Wand refuses a dimension below 1. *)
Definition sample_thumbnail (img : image) : Outcome thumb :=
  match thumb_height img.(img_width) img.(img_height) with
  | Returned h =>
      if bool_decide (h < 1)%Z then Raised ValueError
      else Returned (Thumb thumb_target_width h img)
  | Aborted c => Aborted c
  | Raised e => Raised e
  end.

(** [Path(app.config['temp_dir']) / "{0}_{1}.jpg".format(workflow.id, img_num)] *)
Definition thumbfile (temp_dir : string) (wid img_num : nat) : string :=
  temp_dir +:+ "/" +:+ pretty wid +:+ "_" +:+ pretty img_num +:+ ".jpg".

(** [try: img_path = workflow.images[img_num] except IndexError: abort(404)] *)
Definition image_or_404 {S} (w : workflow) (img_num : nat) : PyM S image :=
  match py_index w.(wf_images) img_num with
  | Raised IndexError => py_abort 404
  | o => py_lift o
  end.

(** The temporary directory: thumbnail files by path. *)
Abbreviation tempdir := (gmap string thumb).

(** [GET /workflow/<id>/image/<img_num>/thumb] *)
Definition get_workflow_image_thumb (temp_dir : string) (w : workflow) (img_num : nat)
    : PyM tempdir ViewValue :=
  let tf := thumbfile temp_dir w.(wf_id) img_num in
  img <- image_or_404 w img_num ;;
  fs <- py_get ;;
  match fs !! tf with
  | Some _ => py_ret (VFile tf)
  | None =>
      t <- py_lift (sample_thumbnail img) ;;
      py_put (<[tf := t]> fs) ;;
      py_ret (VFile tf)
  end.

(** [GET /workflow/<id>/image/<img_num>]: the image file itself. *)
Definition get_workflow_image {S} (w : workflow) (img_num : nat) : PyM S ViewValue :=
  img <- image_or_404 w img_num ;;
  py_ret (VFile img.(img_name)).

(** What [send_file] sends for a thumbnail path. *)
Definition served (fs : tempdir) (v : ViewValue) : option thumb :=
  match v with VFile p => fs !! p | _ => None end.

(** ** Lemmas *)

Lemma image_or_404_found {S} w i img (s : S) :
  w.(wf_images) !! i = Some img -> image_or_404 w i s = (Returned img, s).
Proof. unfold image_or_404, py_index. by intros ->. Qed.

Lemma image_or_404_oob {S} w i (s : S) :
  length w.(wf_images) <= i -> image_or_404 w i s = (Aborted 404%Z, s).
Proof. intros H. unfold image_or_404. by rewrite py_index_oob. Qed.

Lemma pretty_N_char_not (c : ascii) d :
  c = "_"%char \/ c = "."%char -> pretty_N_char d <> c.
Proof. intros [-> | ->]; unfold pretty_N_char; by repeat case_match. Qed.

Lemma str_mem_pretty_N_go (c : ascii) x s :
  c = "_"%char \/ c = "."%char -> str_mem c (pretty_N_go x s) = str_mem c s.
Proof.
  intros Hc. revert s. induction (N.lt_wf_0 x) as [x _ IH]; intros s.
  destruct (decide (0 < x)%N) as [Hx|Hx].
  - rewrite pretty_N_go_step by done. rewrite IH by (by apply N.div_lt).
    simpl. rewrite bool_decide_false; [done|]. by apply pretty_N_char_not.
  - by replace x with 0%N by lia.
Qed.

(** A number written in decimal contains neither ["_"] nor ["."]. *)
Lemma str_mem_pretty_nat (c : ascii) (n : nat) :
  c = "_"%char \/ c = "."%char -> str_mem c (pretty n) = false.
Proof.
  intros Hc. change (pretty n) with (pretty (N.of_nat n)). unfold pretty, pretty_N.
  destruct (decide (N.of_nat n = 0%N)); [by destruct Hc as [-> | ->]|].
  by rewrite str_mem_pretty_N_go.
Qed.

Lemma string_app_cancel_l (d s1 s2 : string) : d +:+ s1 = d +:+ s2 -> s1 = s2.
Proof. induction d as [|x d IH]; simpl; [done|]. intros [= ?]. by apply IH. Qed.

#[export] Hint Resolve image_or_404_found image_or_404_oob : spreads.

(** ** Properties of the thumbnail view *)

(** (C17) Every branch of the view: an index out of range aborts with
    404; a cached file is sent as it is; on a miss the sampled thumbnail
    is written at its path and sent, and when sampling fails (division by
    zero, a height below one pixel) the exception escapes and nothing is
    written. *)
Theorem thumb_view_spec temp_dir w i fs :
  let tf := thumbfile temp_dir w.(wf_id) i in
  (length w.(wf_images) <= i ->
   get_workflow_image_thumb temp_dir w i fs = (Aborted 404%Z, fs)) /\
  (forall img, w.(wf_images) !! i = Some img ->
   match fs !! tf with
   | Some _ => get_workflow_image_thumb temp_dir w i fs = (Returned (VFile tf), fs)
   | None =>
       match sample_thumbnail img with
       | Returned t =>
           get_workflow_image_thumb temp_dir w i fs = (Returned (VFile tf), <[tf := t]> fs)
       | Aborted c => get_workflow_image_thumb temp_dir w i fs = (Aborted c, fs)
       | Raised e => get_workflow_image_thumb temp_dir w i fs = (Raised e, fs)
       end
   end).
Proof.
  simpl. split.
  - intros Hi. unfold get_workflow_image_thumb. py_unfold.
    by rewrite (image_or_404_oob w i fs Hi).
  - intros img Himg. unfold get_workflow_image_thumb. py_unfold.
    rewrite (image_or_404_found w i img fs Himg).
    destruct (fs !! _); [done|]. by destruct (sample_thumbnail img).
Qed.

Lemma thumb_view_returned temp_dir w i fs v fs1 :
  get_workflow_image_thumb temp_dir w i fs = (Returned v, fs1) ->
  v = VFile (thumbfile temp_dir w.(wf_id) i) /\
  is_Some (fs1 !! thumbfile temp_dir w.(wf_id) i) /\
  (forall p, p <> thumbfile temp_dir w.(wf_id) i -> fs1 !! p = fs !! p) /\
  exists img, w.(wf_images) !! i = Some img.
Proof.
  unfold get_workflow_image_thumb. py_unfold.
  destruct (w.(wf_images) !! i) as [img|] eqn:Himg.
  - rewrite (image_or_404_found w i img fs Himg).
    destruct (fs !! _) eqn:Hf.
    + intros [= <- <-]. split_and!; [done|by eexists|done|by eexists].
    + destruct (sample_thumbnail img) as [t| |]; [|done|done].
      intros [= <- <-]. split_and!; [done| | |by eexists].
      * rewrite lookup_insert_eq. by eexists.
      * intros p Hp. by rewrite lookup_insert_ne.
  - rewrite image_or_404_oob; [done|]. by apply lookup_ge_None.
Qed.

(** Idempotence (spec section 8): once the view has answered, asking
    again for the same image sends the same file and writes nothing, so
    the thumbnail is generated at most once. *)
Theorem thumb_cache_idempotent temp_dir w i fs v fs1 :
  get_workflow_image_thumb temp_dir w i fs = (Returned v, fs1) ->
  is_Some (served fs1 v) /\
  get_workflow_image_thumb temp_dir w i fs1 = (Returned v, fs1).
Proof.
  intros Hrun. destruct (thumb_view_returned _ _ _ _ _ _ Hrun)
    as (-> & [t Ht] & _ & img & Himg).
  split; [by exists t|].
  unfold get_workflow_image_thumb. py_unfold.
  rewrite (image_or_404_found w i img fs1 Himg). by rewrite Ht.
Qed.

(** The cache key is injective: distinct (workflow id, index) pairs
    name distinct files of the temporary directory. *)
Theorem thumbfile_injective temp_dir a b c d :
  thumbfile temp_dir a b = thumbfile temp_dir c d -> a = c /\ b = d.
Proof.
  unfold thumbfile. intros H. apply string_app_cancel_l in H. simpl in H.
  injection H as H.
  apply split_at_separator in H as [Hac Hbd];
    [|apply str_mem_pretty_nat; by left|apply str_mem_pretty_nat; by left].
  apply split_at_separator in Hbd as [Hbd _];
    [|apply str_mem_pretty_nat; by right|apply str_mem_pretty_nat; by right].
  split; by eapply (inj pretty).
Qed.

(** (C19) Staleness (spec section 9): the cache is keyed by position, so
    after the image at index [i] is replaced (a retake), the view keeps
    sending the thumbnail sampled from the image it replaced. *)
Theorem thumb_stale_after_retake temp_dir w i fs fs1 imgs' img_old :
  w.(wf_images) !! i = Some img_old ->
  fs !! thumbfile temp_dir w.(wf_id) i = None ->
  get_workflow_image_thumb temp_dir w i fs =
    (Returned (VFile (thumbfile temp_dir w.(wf_id) i)), fs1) ->
  i < length imgs' ->
  get_workflow_image_thumb temp_dir (set_images w imgs') i fs1 =
    (Returned (VFile (thumbfile temp_dir w.(wf_id) i)), fs1) /\
  exists t, fs1 !! thumbfile temp_dir w.(wf_id) i = Some t /\ t.(thumb_src) = img_old.
Proof.
  intros Hold Hmiss Hrun Hi.
  unfold get_workflow_image_thumb in Hrun. py_unfold.
  rewrite (image_or_404_found w i img_old fs Hold), Hmiss in Hrun.
  destruct (sample_thumbnail img_old) as [t| |] eqn:Hs; [|done|done].
  injection Hrun as <-. split.
  - destruct (lookup_lt_is_Some_2 imgs' i Hi) as [img' Himg'].
    unfold get_workflow_image_thumb. py_unfold.
    rewrite (image_or_404_found (set_images w imgs') i img' _ Himg').
    simpl. by rewrite lookup_insert_eq.
  - exists t. rewrite lookup_insert_eq. split; [done|].
    unfold sample_thumbnail in Hs.
    destruct (thumb_height _ _); [|done|done].
    case_bool_decide; [done|]. by injection Hs as <-.
Qed.

(** The height is not the proportional height: computed in binary
    floating point and truncated, it can fall one pixel short of
    [300 * height / width] (100 x 156 gives 467 where 468 is exact), and
    an image more than 300 times wider than high gets height 0, which
    Wand's [sample] refuses. *)
Theorem thumb_height_rounding :
  thumb_height 100 156 = Returned 467%Z /\ (300 * 156 / 100 = 468)%Z /\
  thumb_height 301 1 = Returned 0%Z /\
  sample_thumbnail (Image "strip.jpg" 301 1 "") = Raised ValueError.
Proof. split_and!; vm_compute; reflexivity. Qed.

(** ** Witnesses *)

Definition demo_thumb_wf : workflow :=
  Workflow 7 "/home/scans" "book"
    [Image "0001.jpg" 3000 2000 "p1"; Image "0002.jpg" 100 156 "p2"]
    (Some "capture") (Some true) [].

Lemma thumb_view_spec_witness :
  get_workflow_image_thumb "/tmp" demo_thumb_wf 5 ∅ = (Aborted 404%Z, ∅) /\
  get_workflow_image_thumb "/tmp" demo_thumb_wf 1 ∅ =
    (Returned (VFile "/tmp/7_1.jpg"),
     <["/tmp/7_1.jpg" := Thumb 300 467 (Image "0002.jpg" 100 156 "p2")]> ∅).
Proof.
  destruct (thumb_view_spec "/tmp" demo_thumb_wf 5 ∅) as [Hoob _].
  destruct (thumb_view_spec "/tmp" demo_thumb_wf 1 ∅) as [_ Hin].
  split; [apply Hoob; simpl; lia|].
  exact (Hin (Image "0002.jpg" 100 156 "p2") eq_refl).
Defined.

Lemma thumb_stale_after_retake_witness :
  get_workflow_image_thumb "/tmp" (set_images demo_thumb_wf [Image "0001b.jpg" 2000 3000 "p1b"]) 0
    (<["/tmp/7_0.jpg" := Thumb 300 200 (Image "0001.jpg" 3000 2000 "p1")]> ∅) =
    (Returned (VFile "/tmp/7_0.jpg"),
     <["/tmp/7_0.jpg" := Thumb 300 200 (Image "0001.jpg" 3000 2000 "p1")]> ∅) /\
  exists t, (<["/tmp/7_0.jpg" := Thumb 300 200 (Image "0001.jpg" 3000 2000 "p1")]> ∅
               : tempdir) !! "/tmp/7_0.jpg" = Some t /\
    t.(thumb_src) = Image "0001.jpg" 3000 2000 "p1".
Proof.
  apply (thumb_stale_after_retake "/tmp" demo_thumb_wf 0 ∅); try reflexivity.
  simpl. lia.
Defined.
