(* ===== verification/ThumbRace.v ===== *)
(** * Concurrent requests for thumbnails

    Flask serves each request in a worker of its own, and
    [get_workflow_image_thumb] (lines 329-345) is a check-then-generate:
    [thumbfile.exists()] at line 338, then the sampling and
    [img.save(filename=...)] at lines 340-344, with no lock in between.
    The spec (sections 4.5 and 5) accepts that two requests missing the
    same thumbnail both generate it, the last write winning with the same
    content.

    A request is cut at that point into two atomic steps, [thumb_check]
    and [thumb_generate]; the workers form a pool (a list of requests
    with their program point) over the shared temporary directory, and a
    step of the system is a step of one worker, chosen by the scheduler.
    Run alone, the two steps are the view ([thumb_check_generate]). *)

From Stdlib Require Import ZArith String.
From stdpp Require Import base list strings gmap relations.
From S2P Require Import Prelude Workflow Thumbnail.

Local Open Scope py_scope.

(** Where a worker is in the view. *)
Inductive thumb_pc :=
| TStart                        (** not yet run *)
| TGen (img : image)            (** missed: about to sample and save *)
| TDone (o : Outcome ViewValue). (** answered *)

(** The shared temporary directory, the number of thumbnails generated so
    far, and the pool of workers, each with the image index it serves. *)
Record race := Race {
  rc_fs : tempdir;
  rc_gens : nat;
  rc_threads : list (nat * thumb_pc);
}.

Section Race.
Variable temp_dir : string.
Variable w : workflow.

Definition thumbkey (j : nat) : string := thumbfile temp_dir w.(wf_id) j.

(** Lines 331-338: the index and the existence test; [Some img] is a
    miss. *)
Definition thumb_check (img_num : nat) : PyM tempdir (option image) :=
  img <- image_or_404 w img_num ;;
  fs <- py_get ;;
  match fs !! thumbkey img_num with
  | Some _ => py_ret None
  | None => py_ret (Some img)
  end.

(** Lines 340-345: sample the image and save it over whatever the file
    holds by then, and send it. *)
Definition thumb_generate (img_num : nat) (img : image) : PyM tempdir ViewValue :=
  t <- py_lift (sample_thumbnail img) ;;
  fs <- py_get ;;
  py_put (<[thumbkey img_num := t]> fs) ;;
  py_ret (VFile (thumbkey img_num)).

(** Where the worker is after its check. *)
Definition after_check (img_num : nat) (r : Outcome (option image)) : thumb_pc :=
  match r with
  | Returned None => TDone (Returned (VFile (thumbkey img_num)))
  | Returned (Some img) => TGen img
  | Aborted c => TDone (Aborted c)
  | Raised e => TDone (Raised e)
  end.

(** The scheduler runs worker [i] for one step; [None] when it has
    answered or does not exist. *)
Definition thread_step (st : race) (i : nat) : option race :=
  match st.(rc_threads) !! i with
  | Some (j, TStart) =>
      let '(r, fs') := thumb_check j st.(rc_fs) in
      Some (Race fs' st.(rc_gens) (<[i := (j, after_check j r)]> st.(rc_threads)))
  | Some (j, TGen img) =>
      let '(o, fs') := thumb_generate j img st.(rc_fs) in
      Some (Race fs' (S st.(rc_gens)) (<[i := (j, TDone o)]> st.(rc_threads)))
  | _ => None
  end.

Inductive race_step (st st' : race) : Prop :=
| RaceStep i : thread_step st i = Some st' -> race_step st st'.

(** [n] concurrent requests for the indexes [idxs]. *)
Definition race_init (fs0 : tempdir) (idxs : list nat) : race :=
  Race fs0 0 ((fun j => (j, TStart)) <$> idxs).

(** A schedule: the workers run, in this order, one step each. *)
Fixpoint run_schedule (sched : list nat) (st : race) : race :=
  match sched with
  | [] => st
  | i :: sched' => run_schedule sched' (default st (thread_step st i))
  end.

(** The thumbnail the view generates for index [j], when it generates
    one. *)
Definition expected (j : nat) : option thumb :=
  match w.(wf_images) !! j with
  | Some img =>
      match sample_thumbnail img with Returned t => Some t | _ => None end
  | None => None
  end.

(** A file of the cache is valid for index [j] when it is absent or the
    thumbnail of image [j]. *)
Definition valid_key (fs : tempdir) (j : nat) : Prop :=
  fs !! thumbkey j = None \/ fs !! thumbkey j = expected j.

(** What a worker knows at its program point, on the cache [fs]: a worker
    that missed holds image [j]; a worker that answered answered what the
    whole view answers on [fs] now, and the view run now would write
    nothing (the file it sends is there). *)
Definition thread_ok (fs : tempdir) (jp : nat * thumb_pc) : Prop :=
  match jp.2 with
  | TStart => True
  | TGen img => w.(wf_images) !! jp.1 = Some img
  | TDone o => get_workflow_image_thumb temp_dir w jp.1 fs = (o, fs)
  end.

(** Whether a worker has yet to answer, and how many steps it has left. *)
Definition pending (jp : nat * thumb_pc) : nat :=
  match jp.2 with TDone _ => 0 | _ => 1 end.
Definition steps_left (jp : nat * thumb_pc) : nat :=
  match jp.2 with TStart => 2 | TGen _ => 1 | TDone _ => 0 end.

Definition race_inv (fs0 : tempdir) (idxs : list nat) (st : race) : Prop :=
  st.(rc_threads).*1 = idxs /\
  (forall p, p ∉ thumbkey <$> idxs -> st.(rc_fs) !! p = fs0 !! p) /\
  (forall j, j ∈ idxs -> valid_key st.(rc_fs) j) /\
  Forall (thread_ok st.(rc_fs)) st.(rc_threads) /\
  st.(rc_gens) + sum_list_with pending st.(rc_threads) <= length idxs.
End Race.

(** ** One worker *)

Section Worker.
Variable temp_dir : string.
Variable w : workflow.
Abbreviation key := (thumbkey temp_dir w).

Lemma thumbkey_inj j j' : key j = key j' -> j = j'.
Proof. intros H. by destruct (thumbfile_injective _ _ _ _ _ H). Qed.

(** The view on every branch, its answer and the cache it leaves. *)
Lemma thumb_view_run j fs :
  get_workflow_image_thumb temp_dir w j fs =
  match w.(wf_images) !! j with
  | None => (Aborted 404%Z, fs)
  | Some img =>
      match fs !! key j with
      | Some _ => (Returned (VFile (key j)), fs)
      | None =>
          match sample_thumbnail img with
          | Returned t => (Returned (VFile (key j)), <[key j := t]> fs)
          | Aborted c => (Aborted c, fs)
          | Raised e => (Raised e, fs)
          end
      end
  end.
Proof.
  unfold get_workflow_image_thumb, thumbkey. py_unfold.
  destruct (w.(wf_images) !! j) as [img|] eqn:Himg.
  - rewrite (image_or_404_found w j img fs Himg). simpl.
    destruct (fs !! _); [done|]. by destruct (sample_thumbnail img).
  - rewrite image_or_404_oob; [done|]. by apply lookup_ge_None.
Qed.

Lemma thumb_check_run j fs :
  thumb_check temp_dir w j fs =
  (match w.(wf_images) !! j with
   | None => Aborted 404%Z
   | Some img => match fs !! key j with Some _ => Returned None | None => Returned (Some img) end
   end, fs).
Proof.
  unfold thumb_check. py_unfold.
  destruct (w.(wf_images) !! j) as [img|] eqn:Himg.
  - rewrite (image_or_404_found w j img fs Himg). simpl. by destruct (fs !! _).
  - rewrite image_or_404_oob; [done|]. by apply lookup_ge_None.
Qed.

Lemma thumb_generate_run j img fs :
  thumb_generate temp_dir w j img fs =
  match sample_thumbnail img with
  | Returned t => (Returned (VFile (key j)), <[key j := t]> fs)
  | Aborted c => (Aborted c, fs)
  | Raised e => (Raised e, fs)
  end.
Proof. unfold thumb_generate. py_unfold. by destruct (sample_thumbnail img). Qed.

(** Run back to back, the check and the generation are the view. *)
Lemma thumb_check_generate j fs :
  get_workflow_image_thumb temp_dir w j fs =
  (r <- thumb_check temp_dir w j ;;
   match r with
   | None => py_ret (VFile (key j))
   | Some img => thumb_generate temp_dir w j img
   end) fs.
Proof.
  rewrite thumb_view_run. unfold py_bind at 1. rewrite thumb_check_run.
  destruct (w.(wf_images) !! j) as [img|]; [|done].
  destruct (fs !! key j); [done|]. simpl. rewrite thumb_generate_run.
  by destruct (sample_thumbnail img).
Qed.

Lemma expected_Some j t :
  expected w j = Some t ->
  exists img, w.(wf_images) !! j = Some img /\ sample_thumbnail img = Returned t.
Proof.
  unfold expected. destruct (w.(wf_images) !! j) as [img|]; [|done].
  destruct (sample_thumbnail img) eqn:Hs; intros; simplify_eq; eauto.
Qed.

Lemma insert_not_id (fs : tempdir) p t : fs !! p = None -> <[p := t]> fs <> fs.
Proof. intros Hp Heq. by rewrite <-Heq, lookup_insert_eq in Hp. Qed.

(** A write of the expected thumbnail of [j] keeps every answered worker's
    answer what the view answers, the view writing nothing. *)
Lemma thread_ok_write fs j t jp :
  expected w j = Some t ->
  thread_ok temp_dir w fs jp -> thread_ok temp_dir w (<[key j := t]> fs) jp.
Proof.
  intros Ht. destruct jp as [j' []]; unfold thread_ok; simpl; [done|done|].
  rewrite !thumb_view_run. destruct (expected_Some _ _ Ht) as (img & Himg & Hs).
  destruct (decide (key j' = key j)) as [Heq|Hne].
  - pose proof (thumbkey_inj _ _ Heq) as ->. rewrite Himg, lookup_insert_eq, Hs.
    destruct (fs !! key j) eqn:Hf; [by intros [= <-]|].
    intros [= _ Hfs]. by destruct (insert_not_id fs (key j) t Hf).
  - rewrite lookup_insert_ne by congruence.
    destruct (w.(wf_images) !! j') as [img'|]; [|by intros [= <-]].
    destruct (fs !! key j') eqn:Hf; [by intros [= <-]|].
    destruct (sample_thumbnail img') as [t'| |]; intros Hv; [|by injection Hv as <-|by injection Hv as <-].
    injection Hv as _ Hfs. by destruct (insert_not_id fs (key j') t' Hf).
Qed.
End Worker.

(** ** The pool *)

Section Pool.
Variable temp_dir : string.
Variable w : workflow.
Abbreviation key := (thumbkey temp_dir w).

Lemma fst_insert_same (l : list (nat * thumb_pc)) i j pc pc' :
  l !! i = Some (j, pc) -> (<[i := (j, pc')]> l).*1 = l.*1.
Proof. intros Hi. rewrite list_fmap_insert. apply list_insert_id. by rewrite list_lookup_fmap, Hi. Qed.

(** A worker that fails to sample never finds a file: nothing writes the
    key of an image that does not sample. *)
Lemma valid_key_unsampled fs j img :
  valid_key temp_dir w fs j -> w.(wf_images) !! j = Some img ->
  (forall t, sample_thumbnail img <> Returned t) -> fs !! key j = None.
Proof.
  unfold valid_key, expected. intros [H|H] Himg Hs; [done|]. rewrite H, Himg.
  destruct (sample_thumbnail img); [by destruct (Hs a)|done|done].
Qed.

(** Every step of the pool keeps the invariant. *)
Lemma race_inv_step fs0 idxs st st' :
  race_inv temp_dir w fs0 idxs st -> race_step temp_dir w st st' ->
  race_inv temp_dir w fs0 idxs st'.
Proof.
  intros (Hfst & Hout & Hval & Hok & Hgen) [i Hstep]. unfold thread_step in Hstep.
  destruct (rc_threads st !! i) as [[j pc]|] eqn:Hi; [|done].
  assert (j ∈ idxs) as Hj.
  { rewrite <-Hfst. apply list_elem_of_lookup. exists i. by rewrite list_lookup_fmap, Hi. }
  pose proof (Forall_lookup_1 _ _ _ _ Hok Hi) as Hokj. unfold thread_ok in Hokj; simpl in Hokj.
  destruct pc as [|img|o]; [| |done].
  - rewrite thumb_check_run in Hstep. injection Hstep as <-.
    set (pc' := after_check temp_dir w j _).
    pose proof (sum_list_with_insert pending _ i (j, pc') _ Hi) as Hsum.
    split_and!; simpl; [rewrite <-Hfst; by eapply fst_insert_same|done|done| |].
    + apply Forall_insert; [done|]. unfold thread_ok, pc'; simpl. rewrite thumb_view_run.
      destruct (w.(wf_images) !! j); [|done]. by destruct (rc_fs st !! key j).
    + assert (pending (j, pc') <= 1) by (unfold pending; simpl; case_match; lia).
      change (pending (j, TStart)) with 1 in Hsum. lia.
  - rewrite thumb_generate_run in Hstep.
    assert (forall o, S (rc_gens st + sum_list_with pending (<[i := (j, TDone o)]> (rc_threads st)))
                      <= length idxs) as Hgen'.
    { intros o. pose proof (sum_list_with_insert pending _ i (j, TDone o) _ Hi) as Hsum.
      change (pending (j, TGen img)) with 1 in Hsum.
      change (pending (j, TDone o)) with 0 in Hsum. lia. }
    destruct (sample_thumbnail img) as [t|c|e] eqn:Hs; injection Hstep as <-;
      split_and!; simpl; try (rewrite <-Hfst; by eapply fst_insert_same); try done.
    + assert (expected w j = Some t) as Hexp by (unfold expected; by rewrite Hokj, Hs).
      intros p Hp. rewrite lookup_insert_ne; [by apply Hout|].
      intros <-. apply Hp, list_elem_of_fmap_2, Hj.
    + intros j' Hj'. unfold valid_key. destruct (decide (key j' = key j)) as [Heq|Hne].
      * rewrite (thumbkey_inj _ _ _ _ Heq), lookup_insert_eq. right.
        unfold expected. by rewrite Hokj, Hs.
      * rewrite lookup_insert_ne by congruence. apply Hval, Hj'.
    + assert (expected w j = Some t) as Hexp by (unfold expected; by rewrite Hokj, Hs).
      apply Forall_insert.
      * eapply Forall_impl; [exact Hok|]. intros x. by apply thread_ok_write.
      * unfold thread_ok; simpl. by rewrite thumb_view_run, Hokj, lookup_insert_eq.
    + apply Forall_insert; [done|]. unfold thread_ok; simpl.
      rewrite thumb_view_run, Hokj, (valid_key_unsampled _ _ img (Hval _ Hj) Hokj), Hs;
        [done|congruence].
    + apply Forall_insert; [done|]. unfold thread_ok; simpl.
      rewrite thumb_view_run, Hokj, (valid_key_unsampled _ _ img (Hval _ Hj) Hokj), Hs;
        [done|congruence].
Qed.

Lemma sum_pending_init idxs :
  sum_list_with pending ((fun j => (j, TStart)) <$> idxs) = length idxs.
Proof. induction idxs as [|j idxs IH]; [done|]. simpl. f_equal. exact IH. Qed.

Lemma race_inv_init fs0 idxs :
  (forall j, j ∈ idxs -> valid_key temp_dir w fs0 j) ->
  race_inv temp_dir w fs0 idxs (race_init fs0 idxs).
Proof.
  intros Hv. unfold race_init. split_and!; simpl; [|done|done| |].
  - by rewrite <-list_fmap_compose, list_fmap_id.
  - apply Forall_fmap, Forall_true. done.
  - rewrite sum_pending_init. lia.
Qed.

Lemma race_inv_rtc fs0 idxs st :
  (forall j, j ∈ idxs -> valid_key temp_dir w fs0 j) ->
  rtc (race_step temp_dir w) (race_init fs0 idxs) st -> race_inv temp_dir w fs0 idxs st.
Proof.
  intros Hv Hr. pose proof (race_inv_init fs0 idxs Hv) as Hinit.
  induction Hr as [|x y z Hxy _ IH]; [done|]. apply IH. by eapply race_inv_step.
Qed.
End Pool.

(** ** Schedules and termination *)

Section Schedules.
Variable temp_dir : string.
Variable w : workflow.

Lemma run_schedule_rtc sched st :
  rtc (race_step temp_dir w) st (run_schedule temp_dir w sched st).
Proof.
  revert st. induction sched as [|i sched IH]; intros st; simpl; [done|].
  destruct (thread_step temp_dir w st i) as [st'|] eqn:E; simpl; [|apply IH].
  eapply rtc_l; [by econstructor|apply IH].
Qed.

(** Each step takes one of the two steps a worker has. *)
Lemma race_step_decreases st st' :
  race_step temp_dir w st st' ->
  sum_list_with steps_left st'.(rc_threads) < sum_list_with steps_left st.(rc_threads).
Proof.
  intros [i Hstep]. unfold thread_step in Hstep.
  destruct (rc_threads st !! i) as [[j pc]|] eqn:Hi; [|done].
  destruct pc as [|img|o]; [| |done].
  - destruct (thumb_check temp_dir w j (rc_fs st)) as [r fs'].
    injection Hstep as <-. simpl.
    pose proof (sum_list_with_insert steps_left _ i (j, after_check temp_dir w j r) _ Hi) as Hsum.
    change (steps_left (j, TStart)) with 2 in Hsum.
    assert (steps_left (j, after_check temp_dir w j r) <= 1)
      by (destruct r as [[?|]| |]; cbv [steps_left after_check snd]; lia).
    lia.
  - destruct (thumb_generate temp_dir w j img (rc_fs st)) as [o fs'].
    injection Hstep as <-. simpl.
    pose proof (sum_list_with_insert steps_left _ i (j, TDone o) _ Hi) as Hsum.
    change (steps_left (j, TGen img)) with 1 in Hsum.
    change (steps_left (j, TDone o)) with 0 in Hsum. lia.
Qed.

(** A worker that has not answered can always run. *)
Lemma race_progress st jp :
  jp ∈ st.(rc_threads) -> pending jp = 1 -> exists st', race_step temp_dir w st st'.
Proof.
  intros Hin Hp. apply list_elem_of_lookup in Hin as [i Hi].
  destruct jp as [j [|img|o]]; [| |done].
  - destruct (thumb_check temp_dir w j (rc_fs st)) eqn:E.
    eexists. apply (RaceStep _ _ _ _ i). unfold thread_step. by rewrite Hi, E.
  - destruct (thumb_generate temp_dir w j img (rc_fs st)) eqn:E.
    eexists. apply (RaceStep _ _ _ _ i). unfold thread_step. by rewrite Hi, E.
Qed.

Lemma nsteps_steps_left k st st' :
  nsteps (race_step temp_dir w) k st st' ->
  k + sum_list_with steps_left st'.(rc_threads) <= sum_list_with steps_left st.(rc_threads).
Proof.
  induction 1 as [|k x y z Hxy _ IH]; [lia|].
  pose proof (race_step_decreases _ _ Hxy). lia.
Qed.

Lemma steps_left_init idxs :
  sum_list_with steps_left ((fun j => (j, TStart)) <$> idxs) = 2 * length idxs.
Proof.
  induction idxs as [|j idxs IH]; [done|].
  transitivity (2 + sum_list_with steps_left ((fun j => (j, TStart)) <$> idxs)); [done|].
  rewrite IH. simpl. lia.
Qed.
End Schedules.

(** ** Properties *)

(** (C18) Concurrent requests for thumbnails of one workflow (spec
    sections 4.5 and 5): from a cache whose files for the requested images
    are absent or their thumbnails, every interleaving of the workers'
    checks and generations keeps every other file of the temporary
    directory, leaves each requested file absent or the thumbnail of its
    image (duplicate generations write the same content, so the last write
    wins harmlessly), makes every worker that has answered answer what the
    view alone answers on the cache as it is now, where the view would
    write nothing (a worker that sends a file sends one that is there),
    and generates at most one thumbnail per request. *)
Theorem thumb_race_safe temp_dir w fs0 idxs st :
  (forall j, j ∈ idxs -> valid_key temp_dir w fs0 j) ->
  rtc (race_step temp_dir w) (race_init fs0 idxs) st ->
  (forall p, p ∉ thumbkey temp_dir w <$> idxs -> st.(rc_fs) !! p = fs0 !! p) /\
  (forall j, j ∈ idxs -> valid_key temp_dir w st.(rc_fs) j) /\
  (forall j o, (j, TDone o) ∈ st.(rc_threads) ->
     get_workflow_image_thumb temp_dir w j st.(rc_fs) = (o, st.(rc_fs))) /\
  st.(rc_gens) <= length idxs.
Proof.
  intros Hv Hr. destruct (race_inv_rtc temp_dir w fs0 idxs st Hv Hr)
    as (_ & Hout & Hval & Hok & Hgen).
  split_and!; [done|done| |lia].
  intros j o Hin. exact (proj1 (Forall_forall _ _) Hok _ Hin).
Qed.

(** Every interleaving of [n] concurrent thumbnail requests ends:
    it has at most [2 n] steps, and it stops only when every worker has
    answered. *)
Theorem thumb_race_terminates temp_dir w fs0 idxs k st :
  nsteps (race_step temp_dir w) k (race_init fs0 idxs) st ->
  k <= 2 * length idxs /\
  ((forall st', ~ race_step temp_dir w st st') ->
   Forall (fun jp => pending jp = 0) st.(rc_threads)).
Proof.
  intros Hk. split.
  - pose proof (nsteps_steps_left temp_dir w _ _ _ Hk) as H.
    simpl in H. rewrite steps_left_init in H. lia.
  - intros Hstuck. apply Forall_forall. intros jp Hin.
    destruct (pending jp) as [|[|n]] eqn:Hp; [done| |by destruct jp as [? []]].
    destruct (race_progress temp_dir w st jp Hin Hp) as [st' Hst']. by destruct (Hstuck st').
Qed.

(** ** Witnesses *)

(** Two requests for image 1 of [demo_thumb_wf] on an empty cache, both
    checking before either generates: both miss and both generate. *)
Definition demo_race : race :=
  run_schedule "/tmp" demo_thumb_wf [0; 1; 0; 1] (race_init ∅ [1; 1]).

Lemma thumb_race_safe_witness :
  ((forall p, p ∉ thumbkey "/tmp" demo_thumb_wf <$> [1; 1] -> demo_race.(rc_fs) !! p = (∅ : tempdir) !! p) /\
   (forall j, j ∈ [1; 1] -> valid_key "/tmp" demo_thumb_wf demo_race.(rc_fs) j) /\
   (forall j o, (j, TDone o) ∈ demo_race.(rc_threads) ->
      get_workflow_image_thumb "/tmp" demo_thumb_wf j demo_race.(rc_fs) = (o, demo_race.(rc_fs))) /\
   demo_race.(rc_gens) <= length [1; 1]) /\
  demo_race.(rc_gens) = 2 /\
  demo_race.(rc_fs) !! "/tmp/7_1.jpg" = Some (Thumb 300 467 (Image "0002.jpg" 100 156 "p2")).
Proof.
  split; [|split; vm_compute; reflexivity].
  apply thumb_race_safe; [|apply run_schedule_rtc].
  intros j _. left. apply lookup_empty.
Defined.

