(* ===== verification/Server.v ===== *)
(** * The server side of a workflow: creation, images, update, deletion

    [web.py] lines 87-160 and 298-314: [create_workflow], [update_workflow],
    [delete_workflow] and [upload_workflow_image], the views a peer's
    [submit_workflow] drives on this service.  The server's state holds
    the persisted workflows (the [persistence] collaborator, spec-modelled:
    [save_workflow] hands out the next id), the directories and the files
    on disk.  Plugin configurations ([confit]) are not modelled. *)

From Stdlib Require Import ZArith Ascii String.
From stdpp Require Import base list strings gmap pretty.
From S2P Require Import Prelude Workflow.

Local Open Scope py_scope.

Record server := Server {
  srv_workflows : gmap nat workflow;
  srv_next_id : nat;
  srv_dirs : gset string;
  srv_files : gmap string string;
}.

(** [workflow.path], that is [Path(base_path)/name]. *)
Definition workflow_dir (w : workflow) : string := w.(wf_base) +:+ "/" +:+ w.(wf_name).

(** ** Spec-modelled collaborators *)

(** [persistence.save_workflow]: store under a fresh id and return it. *)
Definition save_workflow (w : workflow) (s : server) : nat * server :=
  let id := s.(srv_next_id) in
  (id, Server (<[id := Workflow id w.(wf_base) w.(wf_name) w.(wf_images) w.(wf_step)
                          w.(wf_step_done) w.(wf_config)]> s.(srv_workflows))
              (S id) s.(srv_dirs) s.(srv_files)).

(** [persistence.update_workflow_config(id, config)] *)
Definition update_workflow_config (id : nat) (cfg : list json) (s : server) : server :=
  Server (alter (fun w => set_config w cfg) id s.(srv_workflows)) s.(srv_next_id)
    s.(srv_dirs) s.(srv_files).

(** [persistence.delete_workflow] *)
Definition delete_workflow_record (id : nat) (s : server) : server :=
  Server (delete id s.(srv_workflows)) s.(srv_next_id) s.(srv_dirs) s.(srv_files).

(** The [step] and [step_done] arguments of [Workflow(...)]: a string and
    a boolean, [None] otherwise. *)
Definition workflow_step_of (j : json) : option string :=
  match j with JStr s => Some s | _ => None end.
Definition workflow_step_done_of (j : json) : option bool :=
  match j with JBool b => Some b | _ => None end.

(** [util.workflow_to_dict]: the id is the database's integer id. *)
Definition workflow_to_dict (w : workflow) : json :=
  JObj [("id", JNum (Z.of_nat w.(wf_id)));
        ("name", JStr w.(wf_name));
        ("step", match w.(wf_step) with Some st => JStr st | None => JNull end);
        ("step_done", match w.(wf_step_done) with Some b => JBool b | None => JNull end);
        ("images", JArr (JStr <$> (img_name <$> w.(wf_images))))].

Section Views.
(** [unicode(x)] of a JSON value that is neither a string nor a number is
    its Python repr, which the model leaves abstract. *)
Variable json_repr : json -> string.
(** [werkzeug.secure_filename] *)
Variable secure_filename : string -> string.

Definition py_unicode (j : json) : string :=
  match j with
  | JStr s => s
  | JNum z => pretty z
  | JBool true => "True"
  | JBool false => "False"
  | JNull => "None"
  | _ => json_repr j
  end.

(** Lines 101-105: [config = confit.Configuration('spreads')], then
    [config.set(user_config)] unless [user_config] is [None]. *)
Definition create_config (user_config : json) : Outcome (list json) :=
  match user_config with
  | JNull => Returned []
  | _ => config_set user_config []
  end.

(** [POST /workflow] (lines 87-110) *)
Definition create_workflow (base_path : string) (body : option json) : PyM server ViewValue :=
  data <- py_lift (json_loads body) ;;
  name <- py_lift (py_getitem data "name") ;;
  config <- py_lift (create_config (py_dict_get data "config")) ;;
  let w := Workflow 0 base_path (py_unicode name) []
             (workflow_step_of (py_dict_get data "step"))
             (workflow_step_done_of (py_dict_get data "step_done")) config in
  s <- py_get ;;
  let '(id, s') := save_workflow w s in
  py_put s' ;;
  py_ret (VJson (workflow_to_dict
    (Workflow id base_path (py_unicode name) [] w.(wf_step) w.(wf_step_done) config))).

(** An uploaded file of [request.files]. *)
Record upload := Upload {
  up_filename : string;
  up_bytes : string;
}.

(** [allowed = lambda x: x.rsplit('.', 1)[1].lower() in ('jpg', 'jpeg', 'dng')] *)
Definition allowed (x : string) : Outcome bool :=
  match py_rsplit_dot_1 x with
  | Returned ext => Returned (bool_decide (py_lower ext ∈ ["jpg"; "jpeg"; "dng"]))
  | Aborted c => Aborted c
  | Raised e => Raised e
  end.

(** [POST /workflow/<id>/image] (lines 298-314).  [request.files['file']]
    answers 400 when there is no such part; the [raw] directory is created
    before the file is checked; a file that is not accepted makes the view
    fall off its end. *)
Definition upload_workflow_image (files : list (string * upload)) (w : workflow)
    : PyM server ViewValue :=
  file <- (match list_find (fun kv => kv.1 = "file") files with
           | Some (_, (_, f)) => py_ret f
           | None => py_abort 400
           end) ;;
  let save_path := workflow_dir w +:+ "/raw" in
  s <- py_get ;;
  py_put (if bool_decide (save_path ∈ s.(srv_dirs)) then s
          else Server s.(srv_workflows) s.(srv_next_id) ({[save_path]} ∪ s.(srv_dirs))
                 s.(srv_files)) ;;
  if bool_decide (file.(up_filename) = "") then py_ret VNone else
  ok <- py_lift (allowed file.(up_filename)) ;;
  if ok then
    s <- py_get ;;
    py_put (Server s.(srv_workflows) s.(srv_next_id) s.(srv_dirs)
              (<[save_path +:+ "/" +:+ secure_filename file.(up_filename) := file.(up_bytes)]>
                 s.(srv_files))) ;;
    py_ret (VText "OK")
  else py_ret VNone.

(** [PUT /workflow/<workflow_workflow>] (lines 129-146): the rule has no
    converter and names its variable [workflow_workflow], the view's
    parameter is [workflow]. *)
Definition update_workflow_params : list string := ["workflow"].
Definition update_workflow_rule : list string := ["workflow_workflow"].

(** The body, if it ran: [json.loads(request.data).get('config', None)]
    needs a [dict] ([AttributeError] otherwise); [workflow.config.set]
    refuses a missing or non-dict configuration; the new configuration is
    persisted with [persistence.update_workflow_config]. *)
Definition update_workflow_body (body : option json) (w : workflow) : PyM server ViewValue :=
  data <- py_lift (json_loads body) ;;
  config <- (match data with
             | JObj _ => py_ret (py_dict_get data "config")
             | _ => py_raise AttributeError
             end) ;;
  cfg <- py_lift (config_set config w.(wf_config)) ;;
  s <- py_get ;;
  py_put (update_workflow_config w.(wf_id) cfg s) ;;
  py_ret (VJson (workflow_to_dict (set_config w cfg))).

Definition dispatch_update_workflow (body : option json) (w : workflow) : PyM server ViewValue :=
  if py_call_kwargs update_workflow_params update_workflow_rule
  then update_workflow_body body w
  else py_raise TypeError.

(** [shutil.rmtree(path)]: removes the directory and everything below it;
    [OSError] when the directory does not exist. *)
Definition under (dir p : string) : bool :=
  bool_decide (p = dir) || String.prefix (dir +:+ "/") p.

Definition rmtree (dir : string) (s : server) : Outcome unit * server :=
  if bool_decide (dir ∈ s.(srv_dirs)) then
    (Returned tt,
     Server s.(srv_workflows) s.(srv_next_id)
       (filter (fun d => under dir d = false) s.(srv_dirs))
       (filter (fun kv => under dir kv.1 = false) s.(srv_files)))
  else (Raised OSError, s).

(** [DELETE /workflow/<id>] (lines 149-160): an [OSError] of [rmtree] is
    only logged. *)
Definition delete_workflow (w : workflow) : PyM server ViewValue :=
  fun s =>
    let s1 := (rmtree (workflow_dir w) s).2 in
    (Returned (VJson (JObj [])), delete_workflow_record w.(wf_id) s1).
End Views.

(** ** The store invariant *)

(** Every stored workflow carries its own key as id, and the keys are below
    the next id handed out, so a new workflow never overwrites one. *)
Definition server_inv (s : server) : Prop :=
  forall id w, s.(srv_workflows) !! id = Some w -> w.(wf_id) = id /\ id < s.(srv_next_id).

Lemma save_workflow_inv w s : server_inv s -> server_inv (save_workflow w s).2.
Proof.
  intros Hinv id w' Hw. simpl in Hw. rewrite lookup_insert in Hw.
  case_decide as Heq; simplify_eq/=; [split; [done|lia]|].
  destruct (Hinv id w' Hw). split; [done|lia].
Qed.

Lemma save_workflow_fresh w s :
  server_inv s -> s.(srv_workflows) !! (save_workflow w s).1 = None.
Proof.
  intros Hinv. simpl. destruct (s.(srv_workflows) !! srv_next_id s) as [w'|] eqn:E; [|done].
  destruct (Hinv _ _ E). lia.
Qed.

Lemma server_inv_same_store s s' :
  s'.(srv_workflows) = s.(srv_workflows) -> s'.(srv_next_id) = s.(srv_next_id) ->
  server_inv s -> server_inv s'.
Proof. intros Hw Hn Hinv id w. rewrite Hw, Hn. apply Hinv. Qed.

Lemma rmtree_store dir s :
  (rmtree dir s).2.(srv_workflows) = s.(srv_workflows) /\
  (rmtree dir s).2.(srv_next_id) = s.(srv_next_id).
Proof. unfold rmtree. by case_bool_decide. Qed.

Section Proofs.
Variable json_repr : json -> string.
Variable secure_filename : string -> string.

Lemma upload_workflow_image_store files w s :
  (upload_workflow_image secure_filename files w s).2.(srv_workflows) = s.(srv_workflows) /\
  (upload_workflow_image secure_filename files w s).2.(srv_next_id) = s.(srv_next_id).
Proof.
  unfold upload_workflow_image. py_unfold.
  destruct (list_find _ files) as [[? [? f]]|]; [|done]. simpl.
  case_bool_decide; simpl; case_bool_decide; simpl; try done;
    destruct (allowed _) as [[]| |]; done.
Qed.

Lemma create_workflow_inv base body s :
  server_inv s -> server_inv (create_workflow json_repr base body s).2.
Proof.
  intros Hinv. unfold create_workflow. py_unfold.
  destruct (json_loads body) as [d| |]; simpl; try done.
  destruct (py_getitem d "name") as [n| |]; simpl; try done.
  destruct (create_config (py_dict_get d "config")) as [cfg| |]; simpl; try done.
  exact (save_workflow_inv (Workflow 0 base (py_unicode json_repr n) []
    (workflow_step_of (py_dict_get d "step"))
    (workflow_step_done_of (py_dict_get d "step_done")) cfg) s Hinv).
Qed.

Lemma upload_workflow_image_inv files w s :
  server_inv s -> server_inv (upload_workflow_image secure_filename files w s).2.
Proof.
  destruct (upload_workflow_image_store files w s) as [Hw Hn].
  by apply (server_inv_same_store s).
Qed.

(** The store invariant holds after every server-side view:
    creating a workflow, uploading an image, deleting a workflow. *)
Theorem server_inv_preserved base body files w s :
  server_inv s ->
  server_inv (create_workflow json_repr base body s).2 /\
  server_inv (upload_workflow_image secure_filename files w s).2 /\
  server_inv (delete_workflow w s).2.
Proof.
  intros Hinv. split_and!; [by apply create_workflow_inv|by apply upload_workflow_image_inv|].
  intros id w' Hw. unfold delete_workflow in Hw. simpl in Hw.
  destruct (rmtree_store (workflow_dir w) s) as [Hrw Hrn].
  rewrite Hrw in Hw. apply lookup_delete_Some in Hw as [_ Hw].
  simpl. rewrite Hrn. by apply Hinv.
Qed.

(** (C20) [POST /workflow] with a [name]: when the body's [config] is
    absent, [null] or a dictionary, the workflow is stored under the next
    id, a fresh key, with no image, the step and step flag of the body and
    that configuration, and its dictionary is returned; any other [config]
    makes [config.set] raise [TypeError] and nothing is stored. *)
Theorem create_workflow_spec base d n s :
  server_inv s ->
  py_getitem d "name" = Returned n ->
  let c := py_dict_get d "config" in
  ((c = JNull \/ exists kvs, c = JObj kvs) ->
   let id := s.(srv_next_id) in
   let w := Workflow id base (py_unicode json_repr n) []
              (workflow_step_of (py_dict_get d "step"))
              (workflow_step_done_of (py_dict_get d "step_done"))
              (match c with JNull => [] | _ => [c] end) in
   s.(srv_workflows) !! id = None /\
   create_workflow json_repr base (Some d) s =
     (Returned (VJson (workflow_to_dict w)),
      Server (<[id := w]> s.(srv_workflows)) (S id) s.(srv_dirs) s.(srv_files))) /\
  ((c <> JNull /\ forall kvs, c <> JObj kvs) ->
   create_workflow json_repr base (Some d) s = (Raised TypeError, s)).
Proof.
  intros Hinv Hn c. split.
  - intros Hc. simpl. split.
    + exact (save_workflow_fresh (Workflow 0 base "" [] None None []) s Hinv).
    + unfold create_workflow. py_unfold. simpl. rewrite Hn. simpl. fold c.
      by destruct Hc as [-> | [kvs ->]].
  - intros [Hnull Hobj]. unfold create_workflow. py_unfold. simpl. rewrite Hn. simpl. fold c.
    destruct c; try done. by destruct (Hobj kvs).
Qed.

Lemma create_workflow_errors base body s e :
  (body = None /\ e = ValueError) \/
  (exists d, body = Some d /\ py_getitem d "name" = Raised e) \/
  (exists d n, body = Some d /\ py_getitem d "name" = Returned n /\
               create_config (py_dict_get d "config") = Raised e) ->
  create_workflow json_repr base body s = (Raised e, s).
Proof.
  intros [[-> ->]|[(d & -> & Hd)|(d & n & -> & Hn & Hc)]]; [done| |];
    unfold create_workflow; py_unfold; simpl; [by rewrite Hd|by rewrite Hn, Hc].
Qed.
End Proofs.

Section ImageProofs.
Variable secure_filename : string -> string.

(** (C21) [POST /workflow/<id>/image] on every branch: without a [file]
    part it answers 400 and changes nothing; otherwise the [raw] directory
    exists afterwards, and a JPEG or DNG file (any case of the extension)
    is written at [raw/secure_filename(name)] and answered with "OK", a
    file with another extension or an empty name is not written and the
    view returns [None] (a 500), and a name without a dot raises
    [IndexError]. *)
Theorem upload_workflow_image_spec f w s :
  let raw := workflow_dir w +:+ "/raw" in
  let r := upload_workflow_image secure_filename [("file", f)] w s in
  upload_workflow_image secure_filename [] w s = (Aborted 400%Z, s) /\
  raw ∈ r.2.(srv_dirs) /\
  r.2.(srv_workflows) = s.(srv_workflows) /\
  (f.(up_filename) <> "" -> allowed f.(up_filename) = Returned true ->
   r.1 = Returned (VText "OK") /\
   r.2.(srv_files) = <[raw +:+ "/" +:+ secure_filename f.(up_filename) := f.(up_bytes)]>
                       s.(srv_files)) /\
  ((f.(up_filename) = "" \/ allowed f.(up_filename) = Returned false) ->
   r.1 = Returned VNone /\ r.2.(srv_files) = s.(srv_files) /\
   flask_status r.1 = 500%Z) /\
  (py_rfind "."%char f.(up_filename) = None -> f.(up_filename) <> "" ->
   r.1 = Raised IndexError /\ r.2.(srv_files) = s.(srv_files)).
Proof.
  simpl. unfold upload_workflow_image. py_unfold. simpl.
  split_and!; [done| | | | |].
  - case_bool_decide; simpl; case_bool_decide; simpl; try set_solver;
      destruct (allowed _) as [[]| |]; simpl; set_solver.
  - case_bool_decide; simpl; case_bool_decide; simpl; try done;
      destruct (allowed _) as [[]| |]; done.
  - intros Hne Hok. rewrite (bool_decide_false (_ = "")) by done. rewrite Hok.
    by case_bool_decide.
  - intros [Hemp|Hko].
    + rewrite (bool_decide_true (_ = "")) by done. by case_bool_decide.
    + case_bool_decide; [by case_bool_decide|]. rewrite Hko. by case_bool_decide.
  - intros Hnd Hne. rewrite (bool_decide_false (_ = "")) by done.
    unfold allowed, py_rsplit_dot_1. rewrite Hnd. by case_bool_decide.
Qed.
End ImageProofs.

(** [PUT /workflow/<id>] never runs its body: Flask passes the URL
    variable as [workflow_workflow] while the view's parameter is
    [workflow], so the call raises [TypeError] and nothing changes. *)
Theorem update_workflow_always_fails body w s :
  dispatch_update_workflow body w s = (Raised TypeError, s).
Proof. reflexivity. Qed.

(** (C22) [DELETE /workflow/<id>] answers [{}], removes the workflow from
    the store and leaves the others; when its directory exists, every file
    below it is removed and every file elsewhere is kept. *)
Theorem delete_workflow_spec w s :
  let r := delete_workflow w s in
  r.1 = Returned (VJson (JObj [])) /\
  r.2.(srv_workflows) !! w.(wf_id) = None /\
  (forall id, id <> w.(wf_id) -> r.2.(srv_workflows) !! id = s.(srv_workflows) !! id) /\
  (forall p, under (workflow_dir w) p = false -> r.2.(srv_files) !! p = s.(srv_files) !! p) /\
  (workflow_dir w ∈ s.(srv_dirs) ->
   forall p, under (workflow_dir w) p = true -> r.2.(srv_files) !! p = None).
Proof.
  simpl. unfold delete_workflow, delete_workflow_record, rmtree. simpl.
  split_and!; [done| | | |].
  - case_bool_decide; simpl; apply lookup_delete_eq.
  - intros id Hid. case_bool_decide; simpl; by apply lookup_delete_ne.
  - intros p Hp. case_bool_decide; simpl; [|done].
    destruct (s.(srv_files) !! p) as [b|] eqn:E.
    + by apply map_lookup_filter_Some_2.
    + apply map_lookup_filter_None_2. by left.
  - intros Hdir p Hp. rewrite bool_decide_true by done. simpl.
    apply map_lookup_filter_None_2. right. intros x _ Hx. simpl in Hx. congruence.
Qed.

(** ** Witnesses *)

Definition demo_server_state : server :=
  Server {[0 := Workflow 0 "/srv" "old" [] None None []]} 1 {["/srv/old"]} ∅.

Definition demo_repr (j : json) : string := "<json>".

Lemma server_inv_demo : server_inv demo_server_state.
Proof.
  intros id w Hw. unfold demo_server_state in Hw. simpl in Hw.
  apply lookup_singleton_Some in Hw as [<- <-]. simpl. lia.
Qed.

Lemma create_workflow_spec_witness :
  demo_server_state.(srv_workflows) !! 1 = None /\
  create_workflow demo_repr "/srv"
    (Some (JObj [("name", JStr "book"); ("step", JStr "capture");
                 ("config", JObj [("device", JObj [])])]))
    demo_server_state =
  (Returned (VJson (workflow_to_dict
     (Workflow 1 "/srv" "book" [] (Some "capture") None [JObj [("device", JObj [])]]))),
   Server (<[1 := Workflow 1 "/srv" "book" [] (Some "capture") None [JObj [("device", JObj [])]]]>
             demo_server_state.(srv_workflows)) 2
          demo_server_state.(srv_dirs) demo_server_state.(srv_files)).
Proof.
  destruct (create_workflow_spec demo_repr "/srv"
    (JObj [("name", JStr "book"); ("step", JStr "capture");
           ("config", JObj [("device", JObj [])])]) (JStr "book")
    demo_server_state server_inv_demo eq_refl) as [H _].
  apply H. right. by eexists.
Defined.

Definition demo_old_wf : workflow := Workflow 0 "/srv" "old" [] None None [].

Lemma upload_workflow_image_spec_witness :
  (upload_workflow_image (fun x => x) [("file", Upload "a.JPG" "b")] demo_old_wf
     demo_server_state).1 = Returned (VText "OK") /\
  (upload_workflow_image (fun x => x) [("file", Upload "a.JPG" "b")] demo_old_wf
     demo_server_state).2.(srv_files) =
    <["/srv/old/raw/a.JPG" := "b"]> demo_server_state.(srv_files).
Proof.
  destruct (upload_workflow_image_spec (fun x => x) (Upload "a.JPG" "b") demo_old_wf
    demo_server_state) as (_ & _ & _ & Hok & _).
  apply Hok; [discriminate|reflexivity].
Defined.

Definition demo_server_files : server :=
  Server {[0 := demo_old_wf]} 1 {["/srv/old"; "/srv/old/raw"]}
    (<["/srv/old/raw/a.jpg" := "x"]> {["/srv/other/raw/b.jpg" := "y"]}).

Lemma delete_workflow_spec_witness :
  (delete_workflow demo_old_wf demo_server_files).2.(srv_files) !! "/srv/old/raw/a.jpg" = None /\
  (delete_workflow demo_old_wf demo_server_files).2.(srv_files) !! "/srv/other/raw/b.jpg" =
    Some "y".
Proof.
  destruct (delete_workflow_spec demo_old_wf demo_server_files) as (_ & _ & _ & Hkeep & Hdel).
  split.
  - apply Hdel; [set_solver|reflexivity].
  - rewrite Hkeep; reflexivity.
Defined.
