(* ===== verification/Catalog.v ===== *)
(** * The read-only views: workflows, configuration, plugins, landing page

    [web.py] lines 35-81 and 113-126.  A workflow named in a URL reaches
    its view through the converter [util.WorkflowConverter] (outside
    [src/], spec-modelled): [int] of the segment, then the persisted
    workflow of that id, a 404 otherwise.  [list_workflows] and
    [get_workflow] render workflows with [workflow_to_dict];
    [get_global_config] and [index] hand a configuration and a template to
    Flask; [get_plugins_with_options] builds, per mode, the dictionary of
    the configuration templates of the activated plugins.  The plugin
    manager and the configuration ([confit]) are parameters. *)

From Stdlib Require Import ZArith Ascii String.
From stdpp Require Import base list strings gmap pretty.
From S2P Require Import Prelude Workflow Server.

Local Open Scope py_scope.

(** ** The workflow converter *)

(** [WorkflowConverter.to_python(value)]: a segment that is not an integer
    makes the rule not match (404); [persistence.get_workflow(id)] answers
    [None] for an unknown id, and the converter aborts with 404. *)
Definition workflow_converter (value : string) (s : server) : Outcome workflow :=
  match py_int_of_string value with
  | None => Aborted 404
  | Some n =>
      match s.(srv_workflows) !! N.to_nat n with
      | Some w => Returned w
      | None => Aborted 404
      end
  end.

(** [WorkflowConverter.to_url(workflow)]: [unicode(workflow.id)]. *)
Definition workflow_to_url (w : workflow) : string := pretty w.(wf_id).

(** A request on a rule [<workflow:workflow>]: the converter runs before
    the view. *)
Definition with_workflow {A} (value : string) (view : workflow -> PyM server A)
    : PyM server A :=
  s <- py_get ;;
  w <- py_lift (workflow_converter value s) ;;
  view w.

(** ** Workflows *)

(** [GET /workflow] (lines 113-120): [json.dumps] of the dictionaries of
    [persistence.get_all_workflows().values()], answered with 200.  A
    Python [dict] has no specified order; the model lists the workflows in
    the order of the map. *)
Definition list_workflows : PyM server ViewValue :=
  s <- py_get ;;
  py_ret (VDumps (JArr (workflow_to_dict <$> (map_to_list s.(srv_workflows)).*2))).

(** [GET /workflow/<workflow:workflow>] (lines 123-126) *)
Definition get_workflow (w : workflow) : PyM server ViewValue :=
  py_ret (VJson (workflow_to_dict w)).

(** ** Configuration and landing page *)

Section Glue.
(** [app.config['default_config'].flatten()] *)
Variable default_config_flat : json.
(** [render_template("index.html", debug=...)] *)
Variable render_index : bool -> string.

(** [GET /config] (lines 78-81) *)
Definition get_global_config : PyM server ViewValue :=
  py_ret (VJson default_config_flat).

(** [GET /] (lines 35-38) *)
Definition index (debug : bool) : PyM server ViewValue :=
  py_ret (VText (render_index debug)).
End Glue.

(** ** Plugins *)

(** An option of a configuration template ([spreads.plugin.PluginOption]). *)
Record plugin_option := PluginOption {
  opt_value : json;
  opt_docstring : string;
  opt_selectable : bool;
}.

(** [plugin.configuration_template()]: option names and options. *)
Definition template := list (string * plugin_option).

Definition scanner_extensions : list string := ["prepare_capture"; "capture"; "finish_capture"].
Definition processor_extensions : list string := ["process"; "output"].

(** [dict(value=..., docstring=..., selectable=...)] *)
Definition option_to_dict (o : plugin_option) : json :=
  JObj [("value", o.(opt_value)); ("docstring", JStr o.(opt_docstring));
        ("selectable", JBool o.(opt_selectable))].

(** The [for plugname, options in templates.iteritems()] loop: a plugin
    without template ([None]) is skipped. *)
Definition plugin_options (templates : gmap string (option template))
    : gmap string (gmap string json) :=
  omap (fun ot => (fun t => dict_of (prod_map id option_to_dict <$> t)) <$> ot) templates.

(** A dictionary rendered by [jsonify]; keys in the order of the map. *)
Definition json_of_map (m : gmap string json) : json := JObj (map_to_list m).

Section Plugins.
(** [get_relevant_extensions(pluginmanager, hooks)]: the activated
    extensions implementing one of [hooks], each with its name and its
    plugin's [configuration_template()]. *)
Variable relevant_extensions : list string -> list (string * option template).
(** [get_driver(config["driver"].get()).driver.configuration_template()] *)
Variable device_template : option template.

(** The three branches of lines 50-66; in any other mode no branch runs
    and [templates] is unbound: [UnboundLocalError], a [NameError]. *)
Definition plugin_templates (mode : string) : Outcome (gmap string (option template)) :=
  if decide (mode = "scanner") then
    Returned (<["device" := device_template]> (dict_of (relevant_extensions scanner_extensions)))
  else if decide (mode = "processor") then
    Returned (dict_of (relevant_extensions processor_extensions))
  else if decide (mode = "full") then
    Returned (<["device" := device_template]>
      (dict_of (relevant_extensions (scanner_extensions ++ processor_extensions))))
  else Raised NameError.

(** [GET /plugins] (lines 41-75) *)
Definition get_plugins_with_options (mode : string) : PyM server ViewValue :=
  templates <- py_lift (plugin_templates mode) ;;
  py_ret (VJson (JObj (prod_map id json_of_map <$> map_to_list (plugin_options templates)))).
End Plugins.

(** ** The shape of a workflow's JSON *)

Definition json_is_str (j : json) : bool := match j with JStr _ => true | _ => false end.

(** The dictionary of [util.workflow_to_dict], key by key: a non-negative
    integer id, a string name, a string or [null] step, a boolean or
    [null] flag, a list of image names. *)
Definition is_workflow_json (j : json) : bool :=
  match j with
  | JObj kvs =>
      bool_decide (kvs.*1 = ["id"; "name"; "step"; "step_done"; "images"]) &&
      match kvs.*2 with
      | [JNum z; JStr _; st; sd; JArr imgs] =>
          bool_decide (0 <= z)%Z &&
          match st with JStr _ | JNull => true | _ => false end &&
          match sd with JBool _ | JNull => true | _ => false end &&
          forallb json_is_str imgs
      | _ => false
      end
  | _ => false
  end.

(** ** Lemmas *)

Lemma workflow_to_dict_schema w : is_workflow_json (workflow_to_dict w) = true.
Proof.
  unfold workflow_to_dict, is_workflow_json. simpl.
  rewrite bool_decide_true by lia. simpl.
  apply andb_true_intro; split; [by destruct (wf_step w), (wf_step_done w)|].
  induction (wf_images w) as [|? ? IH]; [done|]. exact IH.
Qed.

Lemma pretty_Z_of_nat (n : nat) : pretty (Z.of_nat n) = pretty n.
Proof. by destruct n. Qed.

(** The converter finds every stored workflow from its URL. *)
Lemma workflow_converter_to_url s id w :
  s.(srv_workflows) !! id = Some w -> workflow_converter (pretty id) s = Returned w.
Proof.
  intros Hw. unfold workflow_converter. rewrite py_int_of_string_pretty, Nat2N.id. by rewrite Hw.
Qed.

Lemma with_workflow_found {A} s value w (view : workflow -> PyM server A) :
  workflow_converter value s = Returned w -> with_workflow value view s = view w s.
Proof. intros Hw. unfold with_workflow. py_unfold. by rewrite Hw. Qed.

Lemma with_workflow_404 {A} s value (view : workflow -> PyM server A) :
  (forall w, workflow_converter value s <> Returned w) ->
  with_workflow value view s = (Aborted 404%Z, s).
Proof.
  intros Hno. unfold with_workflow, workflow_converter in *. py_unfold. simpl.
  destruct (py_int_of_string value) as [n|]; [|done].
  destruct (s.(srv_workflows) !! N.to_nat n) as [w|]; [|done]. by destruct (Hno w).
Qed.

Lemma list_workflows_run s :
  list_workflows s =
    (Returned (VDumps (JArr (workflow_to_dict <$> (map_to_list s.(srv_workflows)).*2))), s).
Proof. reflexivity. Qed.

Lemma plugin_options_keys T k :
  k ∈ (map_to_list (plugin_options T)).*1 <-> exists t, T !! k = Some (Some t).
Proof.
  rewrite list_elem_of_fmap. split.
  - intros ([k' po] & -> & Hin). apply elem_of_map_to_list in Hin.
    apply lookup_omap_Some in Hin as (ot & Hot & HT). simpl.
    destruct ot as [t|]; [by exists t|done].
  - intros (t & HT). eexists (k, _). split; [done|].
    apply elem_of_map_to_list. unfold plugin_options. rewrite lookup_omap. setoid_rewrite HT. done.
Qed.

(** The [id] entries of a list of workflow dictionaries. *)
Definition json_ids (l : list json) : list json := (fun j => py_dict_get j "id") <$> l.

Lemma json_ids_workflows (ws : list workflow) :
  json_ids (workflow_to_dict <$> ws) = (fun w => JNum (Z.of_nat w.(wf_id))) <$> ws.
Proof. unfold json_ids. induction ws as [|w ws IH]; [done|]. simpl. by f_equal. Qed.

(** Under the store invariant the values of the map carry its keys. *)
Lemma map_to_list_ids s :
  server_inv s ->
  wf_id <$> (map_to_list s.(srv_workflows)).*2 = (map_to_list s.(srv_workflows)).*1.
Proof.
  intros Hinv. rewrite <-list_fmap_compose.
  apply list_eq_Forall2, Forall2_fmap, Forall_Forall2_diag, Forall_forall.
  intros [id w] Hin. apply elem_of_map_to_list in Hin. by destruct (Hinv id w Hin).
Qed.

(** ** Properties *)

Section CatalogProofs.
Variable json_repr : json -> string.

(** Every workflow the API renders has the schema of
    [workflow_to_dict]: each item of [GET /workflow], the answer of
    [GET /workflow/<id>], and the answer of [POST /workflow] whenever it
    returns. *)
Theorem workflow_replies_schema s w base body :
  (exists l, list_workflows s = (Returned (VDumps (JArr l)), s) /\
             Forall (fun j => is_workflow_json j = true) l) /\
  (exists j, get_workflow w s = (Returned (VJson j), s) /\ is_workflow_json j = true) /\
  (forall v, (create_workflow json_repr base body s).1 = Returned v ->
             exists j, v = VJson j /\ is_workflow_json j = true).
Proof.
  split_and!.
  - eexists. split; [apply list_workflows_run|].
    apply Forall_fmap, Forall_forall. intros w' _. apply workflow_to_dict_schema.
  - eexists. split; [done|apply workflow_to_dict_schema].
  - intros v. unfold create_workflow. py_unfold.
    destruct (json_loads body) as [d| |]; simpl; try done.
    destruct (py_getitem d "name"); simpl; try done.
    destruct (create_config _); simpl; try done.
    intros [= <-]. eexists. split; [done|apply workflow_to_dict_schema].
Qed.

(** [GET /workflow] lists every stored workflow and nothing else,
    and, under the store invariant, no two items carry the same id, so a
    client can key them by id. *)
Theorem list_workflows_spec s :
  server_inv s ->
  exists l, list_workflows s = (Returned (VDumps (JArr l)), s) /\
    (forall id w, s.(srv_workflows) !! id = Some w -> workflow_to_dict w ∈ l) /\
    (forall j, j ∈ l -> exists id w, s.(srv_workflows) !! id = Some w /\ j = workflow_to_dict w) /\
    NoDup (json_ids l).
Proof.
  intros Hinv. eexists. split_and!; [apply list_workflows_run| | |].
  - intros id w Hw. apply list_elem_of_fmap. exists w. split; [done|].
    apply list_elem_of_fmap. exists (id, w). split; [done|]. by apply elem_of_map_to_list.
  - intros j Hj. apply list_elem_of_fmap in Hj as (w & -> & Hw).
    apply list_elem_of_fmap in Hw as ([id w'] & -> & Hin).
    apply elem_of_map_to_list in Hin. by exists id, w'.
  - rewrite json_ids_workflows.
    change ((fun w => JNum (Z.of_nat w.(wf_id))) <$> (map_to_list (srv_workflows s)).*2)
      with ((fun w => JNum (Z.of_nat w.(wf_id))) <$> (map_to_list (srv_workflows s)).*2).
    rewrite (list_fmap_compose wf_id (fun n => JNum (Z.of_nat n))), map_to_list_ids by done.
    apply NoDup_fmap_2; [|apply NoDup_fst_map_to_list].
    intros a b [= Hab]. lia.
Qed.

(** (C23) Round trip through the API: [POST /workflow] answers a
    dictionary whose id, printed as Python's [str] prints it and sent back
    as [GET /workflow/<id>], yields the same dictionary; after
    [DELETE /workflow/<id>] the same URL answers 404. *)
Theorem create_get_delete_roundtrip base d n cfg s :
  server_inv s -> py_getitem d "name" = Returned n ->
  create_config (py_dict_get d "config") = Returned cfg ->
  exists j (z : Z) s',
    create_workflow json_repr base (Some d) s = (Returned (VJson j), s') /\
    py_getitem j "id" = Returned (JNum z) /\
    with_workflow (pretty z) get_workflow s' = (Returned (VJson j), s') /\
    (forall w, s'.(srv_workflows) !! Z.to_nat z = Some w ->
     with_workflow (pretty z) get_workflow (delete_workflow w s').2 =
       (Aborted 404%Z, (delete_workflow w s').2)).
Proof.
  intros Hinv Hn Hc. unfold create_workflow. py_unfold. simpl. rewrite Hn, Hc. simpl.
  do 3 eexists. split_and!; [done|done| |].
  - erewrite with_workflow_found; [reflexivity|].
    rewrite pretty_Z_of_nat. apply workflow_converter_to_url. simpl. by rewrite lookup_insert_eq.
  - intros w Hw. apply with_workflow_404. intros w'.
    rewrite Nat2Z.id in Hw. rewrite pretty_Z_of_nat. unfold workflow_converter.
    rewrite py_int_of_string_pretty, Nat2N.id. simpl in Hw |- *.
    rewrite lookup_insert_eq in Hw. simplify_eq/=.
    rewrite (proj1 (rmtree_store _ _)). simpl. by rewrite lookup_delete_eq.
Qed.
End CatalogProofs.

Section PluginProofs.
Variable relevant_extensions : list string -> list (string * option template).
Variable device_template : option template.

(** (C24) [GET /plugins]: in a mode other than "scanner", "processor" and
    "full" no branch assigns [templates] and the view fails with a 500;
    otherwise the answer has one entry per plugin whose template is not
    [None], and the "device" entry is the driver's template in the
    "scanner" and "full" modes (replacing an extension of that name) and
    is not consulted in the "processor" mode. *)
Theorem get_plugins_with_options_spec mode s k :
  (mode ∉ ["scanner"; "processor"; "full"] ->
   get_plugins_with_options relevant_extensions device_template mode s = (Raised NameError, s) /\
   flask_status (Raised NameError) = 500%Z) /\
  (forall T, plugin_templates relevant_extensions device_template mode = Returned T ->
   exists kvs,
     get_plugins_with_options relevant_extensions device_template mode s =
       (Returned (VJson (JObj kvs)), s) /\
     (k ∈ kvs.*1 <-> exists t, T !! k = Some (Some t))) /\
  ((mode = "scanner" \/ mode = "full") ->
   exists T, plugin_templates relevant_extensions device_template mode = Returned T /\
             T !! "device" = Some device_template) /\
  (mode = "processor" ->
   plugin_templates relevant_extensions device_template mode =
     Returned (dict_of (relevant_extensions processor_extensions))).
Proof.
  split_and!.
  - intros Hm. split; [|done]. unfold get_plugins_with_options, plugin_templates. py_unfold.
    repeat case_decide; [set_solver..|done].
  - intros T HT. unfold get_plugins_with_options. py_unfold. rewrite HT. simpl.
    eexists. split; [done|].
    rewrite <-list_fmap_compose. apply plugin_options_keys.
  - unfold plugin_templates. intros [-> | ->]; simpl; eexists; split; try done;
      by rewrite lookup_insert_eq.
  - by intros ->.
Qed.
End PluginProofs.

Lemma create_get_delete_roundtrip_witness :
  exists j (z : Z) s',
    create_workflow demo_repr "/srv" (Some (JObj [("name", JStr "book")])) demo_server_state =
      (Returned (VJson j), s') /\
    with_workflow (pretty z) get_workflow s' = (Returned (VJson j), s').
Proof.
  destruct (create_get_delete_roundtrip demo_repr "/srv" (JObj [("name", JStr "book")])
    (JStr "book") [] demo_server_state server_inv_demo eq_refl eq_refl)
    as (j & z & s' & H1 & _ & H2 & _).
  by exists j, z, s'.
Defined.

Definition demo_extensions (hooks : list string) : list (string * option template) :=
  [("tethered", Some [("iso", PluginOption (JNum 100) "ISO" false)]); ("shell", None)].

Lemma get_plugins_with_options_spec_witness :
  get_plugins_with_options demo_extensions None "viewer" demo_server_state =
    (Raised NameError, demo_server_state).
Proof.
  destruct (get_plugins_with_options_spec demo_extensions None "viewer" demo_server_state "device")
    as [H _].
  apply H. set_solver.
Defined.
