(* ===== verification/Download.v ===== *)
(** * [download_workflow]: the workflow as a zip archive

    [web.py] lines 195-220.  The view removes the previous archive at the
    fixed path [<tempdir>/spreads_download.zip], writes a new one holding
    every entry below the workflow's directory ([glob('**/*')], any depth)
    under [<stem>/<relative path>] and the configuration dump as
    [<stem>/config.yaml], and sends the file.  The state is the server's
    store of directories and files and the archive at the temporary path.

    The archive is a list of members in the order written; [extract] is
    what unpacking it does ([ZipFile.extractall]: members in order, a later
    one of the same name replacing an earlier one), the reference for the
    round trip. *)

From Stdlib Require Import ZArith Ascii String.
From stdpp Require Import base list strings gmap pretty.
From S2P Require Import Prelude Workflow Server.

Local Open Scope py_scope.

(** A member of a zip archive: a directory entry or a file's bytes. *)
Inductive member :=
| ZDir
| ZFile (bytes : string).

Definition archive := list (string * member).

Record dl_state := DlState {
  dl_srv : server;
  (** the file at [<tempdir>/spreads_download.zip], when there is one *)
  dl_tmp : option archive;
}.

(** [fpath.relative_to(workflow.path)] for a path strictly below it. *)
Definition below (dir p : string) : option string :=
  match strip_prefix (dir +:+ "/") p with
  | Some "" => None
  | o => o
  end.

(** [workflow.path.glob('**/*')]: every directory and every file below the
    workflow's directory, with its path relative to it; directories in the
    order of the set, then files in the order of the map. *)
Definition glob_below (dir : string) (s : server) : list (string * member) :=
  omap (fun d => (fun rel => (rel, ZDir)) <$> below dir d) (elements s.(srv_dirs)) ++
  omap (fun kv => (fun rel => (rel, ZFile kv.2)) <$> below dir kv.1) (map_to_list s.(srv_files)).

(** ['/'.join((workflow.path.stem, unicode(relpath)))]; [ZipFile.write] of
    a directory appends a ['/'] to the member's name. *)
Definition arcname (stem rel : string) (m : member) : string :=
  match m with
  | ZDir => stem +:+ "/" +:+ rel +:+ "/"
  | ZFile _ => stem +:+ "/" +:+ rel
  end.

(** The archive written by the [with zipfile.ZipFile(...)] block: the loop
    over the glob, then [writestr] of the configuration. *)
Definition workflow_archive (config_dump : string) (w : workflow) (s : server) : archive :=
  let stem := path_stem w.(wf_name) in
  ((fun rm => (arcname stem rm.1 rm.2, rm.2)) <$> glob_below (workflow_dir w) s) ++
  [(stem +:+ "/config.yaml", ZFile config_dump)].

(** [Path(tempfile.gettempdir())/'spreads_download.zip'] *)
Definition download_tmp_path (temp_dir : string) : string :=
  temp_dir +:+ "/spreads_download.zip".

(** [if tmp_path.exists: tmp_path.unlink()]: [exists] is a method and the
    bound method is always true, so [unlink] always runs, and raises
    [OSError] when there is no file. *)
Definition unlink_tmp : PyM dl_state unit :=
  st <- py_get ;;
  match st.(dl_tmp) with
  | Some _ => py_put (DlState st.(dl_srv) None)
  | None => py_raise OSError
  end.

Section View.
Variable temp_dir : string.
(** [workflow.config.dump()] *)
Variable config_dump : workflow -> string.

(** [GET /workflow/<id>/download] (lines 195-220) *)
Definition download_workflow (w : workflow) : PyM dl_state ViewValue :=
  unlink_tmp ;;
  st <- py_get ;;
  py_put (DlState st.(dl_srv) (Some (workflow_archive (config_dump w) w st.(dl_srv)))) ;;
  py_ret (VSendFile (download_tmp_path temp_dir) (path_stem w.(wf_name) +:+ ".zip")).
End View.

(** ** Unpacking *)

(** The files an archive holds, in order. *)
Definition archive_files (arc : archive) : list (string * string) :=
  omap (fun nm => match nm.2 with ZFile b => Some (nm.1, b) | ZDir => None end) arc.

(** [ZipFile(...).extractall(target)], the files it writes. *)
Definition extract (target : string) (arc : archive) : gmap string string :=
  dict_of (prod_map (fun n => target +:+ "/" +:+ n) id <$> archive_files arc).

(** ** Lemmas *)

Lemma below_Some dir p rel : below dir p = Some rel -> p = dir +:+ "/" +:+ rel.
Proof.
  unfold below. destruct (strip_prefix (dir +:+ "/") p) as [r|] eqn:E; [|done].
  intros Hr. assert (r = rel) as -> by (destruct r; congruence).
  apply strip_prefix_Some in E. by rewrite E, string_app_assoc.
Qed.

Lemma archive_files_file n b : archive_files [(n, ZFile b)] = [(n, b)].
Proof. reflexivity. Qed.

Lemma archive_files_app a1 a2 : archive_files (a1 ++ a2) = archive_files a1 ++ archive_files a2.
Proof. apply omap_app. Qed.

(** The directory entries of the glob create no file. *)
Lemma archive_files_dirs stem dir (ds : list string) :
  archive_files ((fun rm => (arcname stem rm.1 rm.2, rm.2)) <$>
    omap (fun d => (fun rel => (rel, ZDir)) <$> below dir d) ds) = [].
Proof. induction ds as [|d ds IH]; [done|]. simpl. by destruct (below dir d). Qed.

(** The file entries of the glob, unpacked under the workflow's base
    directory, land at their own paths when the stem is the name. *)
Lemma archive_files_files base name (L : list (string * string)) :
  let dir := base +:+ "/" +:+ name in
  prod_map (fun n => base +:+ "/" +:+ n) id <$>
    archive_files ((fun rm => (arcname name rm.1 rm.2, rm.2)) <$>
      omap (fun kv => (fun rel => (rel, ZFile kv.2)) <$> below dir kv.1) L) =
  filter (fun kv => is_Some (below dir kv.1)) L.
Proof.
  intros dir. induction L as [|[p b] L IH]; [done|]. simpl in *.
  destruct (below dir p) as [rel|] eqn:E; simpl.
  - rewrite filter_cons_True by (simpl; rewrite E; eauto). f_equal; [|exact IH].
    apply below_Some in E. rewrite E. unfold dir. by rewrite !string_app_assoc.
  - rewrite filter_cons_False by (simpl; rewrite E; by intros []). exact IH.
Qed.

Lemma unlink_tmp_present st a :
  st.(dl_tmp) = Some a -> unlink_tmp st = (Returned tt, DlState st.(dl_srv) None).
Proof. unfold unlink_tmp. py_unfold. simpl. by intros ->. Qed.

Lemma download_workflow_run temp_dir config_dump w st :
  st.(dl_tmp) <> None ->
  download_workflow temp_dir config_dump w st =
    (Returned (VSendFile (download_tmp_path temp_dir) (path_stem w.(wf_name) +:+ ".zip")),
     DlState st.(dl_srv) (Some (workflow_archive (config_dump w) w st.(dl_srv)))).
Proof.
  destruct (dl_tmp st) as [a|] eqn:E; [intros _|done].
  unfold download_workflow. py_unfold. by rewrite (unlink_tmp_present st a E).
Qed.

(** ** Properties *)

(** (C25) [GET /workflow/<id>/download] always unlinks the temporary
    archive first: when there is none (the first download since the
    temporary directory was emptied) it raises [OSError], a 500, and
    nothing changes.  Otherwise it answers with the file at the one fixed
    temporary path, named after the workflow's stem, and replaces the
    archive there: of two downloads in a row both answers name the same
    file, which then holds the second workflow's archive. *)
Theorem download_workflow_spec temp_dir config_dump w1 w2 st :
  (st.(dl_tmp) = None ->
   download_workflow temp_dir config_dump w1 st = (Raised OSError, st) /\
   flask_status (Raised OSError) = 500%Z) /\
  (st.(dl_tmp) <> None ->
   let r1 := download_workflow temp_dir config_dump w1 st in
   let r2 := download_workflow temp_dir config_dump w2 r1.2 in
   r1.1 = Returned (VSendFile (download_tmp_path temp_dir) (path_stem w1.(wf_name) +:+ ".zip")) /\
   r2.1 = Returned (VSendFile (download_tmp_path temp_dir) (path_stem w2.(wf_name) +:+ ".zip")) /\
   r2.2 = DlState st.(dl_srv) (Some (workflow_archive (config_dump w2) w2 st.(dl_srv)))).
Proof.
  split.
  - intros Hnone. split; [|done]. unfold download_workflow, unlink_tmp. py_unfold.
    by rewrite Hnone.
  - intros Hsome. cbv zeta. rewrite (download_workflow_run _ _ w1 st Hsome). cbn [fst snd].
    rewrite download_workflow_run by done. done.
Qed.

(** (C26) Round trip of the archive: for a workflow whose name has no
    suffix (so that [path.stem] is the name), unpacking the archive that
    the download writes into the workflow's base directory recreates
    exactly the files below the workflow's directory, with their contents,
    and [config.yaml] holding the configuration dump, which replaces a file
    of that name. *)
Theorem download_roundtrip temp_dir config_dump w st :
  path_stem w.(wf_name) = w.(wf_name) -> st.(dl_tmp) <> None ->
  exists arc,
    (download_workflow temp_dir config_dump w st).2 = DlState st.(dl_srv) (Some arc) /\
    extract w.(wf_base) arc =
      <[workflow_dir w +:+ "/config.yaml" := config_dump w]>
        (filter (fun kv => is_Some (below (workflow_dir w) kv.1)) st.(dl_srv).(srv_files)).
Proof.
  intros Hstem Hsome. rewrite download_workflow_run by done. eexists. split; [done|].
  unfold extract, workflow_archive, glob_below. rewrite Hstem.
  rewrite archive_files_app, archive_files_file, fmap_app, fmap_cons, fmap_nil, dict_of_app.
  cbn [prod_map fst snd].
  unfold workflow_dir. rewrite !string_app_assoc. f_equal.
  rewrite fmap_app, archive_files_app, archive_files_dirs, app_nil_l.
  rewrite archive_files_files. apply dict_of_filter_map_to_list.
Qed.

(** ** Witnesses *)

Definition demo_dump (w : workflow) : string := "plugins: []".

Lemma download_workflow_spec_witness :
  download_workflow "/tmp" demo_dump demo_old_wf (DlState demo_server_files None) =
    (Raised OSError, DlState demo_server_files None).
Proof.
  destruct (download_workflow_spec "/tmp" demo_dump demo_old_wf demo_old_wf
    (DlState demo_server_files None)) as [H _].
  by apply H.
Defined.

Lemma download_roundtrip_witness :
  exists arc,
    (download_workflow "/tmp" demo_dump demo_old_wf (DlState demo_server_files (Some []))).2 =
      DlState demo_server_files (Some arc) /\
    extract "/srv" arc =
      <["/srv/old/config.yaml" := "plugins: []"]>
        (filter (fun kv => is_Some (below "/srv/old" kv.1)) demo_server_files.(srv_files)).
Proof.
  apply (download_roundtrip "/tmp" demo_dump demo_old_wf (DlState demo_server_files (Some [])));
    [reflexivity|discriminate].
Defined.
