(* ===== verification/Peer.v ===== *)
(** * Two instances of the service: a scanner submitting to a peer

    The spec (section 6) says the remote endpoint of [submit_workflow] is
    "a peer instance of this same service".  This file runs the client of
    [Submit] against a transport that dispatches each request to the
    peer's own views: [create_workflow] (Server), [upload_workflow_image]
    through the workflow converter (Server, Catalog) and [add_to_queue]
    (Queue), on a peer state holding both the store and the queue.  The
    peer answers with Flask's status and the decoded JSON body.

    The end-to-end theorem shows where the hand-off between two instances
    of this code stops: the peer's ids are integers, so the client's
    ["/".join(...)] raises [TypeError] before the first upload; a workflow
    without images is enqueued and the client still answers 500. *)

From Stdlib Require Import ZArith Ascii String.
From stdpp Require Import base list strings gmap pretty.
From S2P Require Import Prelude Workflow Queue Submit Server Catalog.

Local Open Scope py_scope.

(** The peer's persistent state: its store and its job queue. *)
Record peer := Peer {
  peer_srv : server;
  peer_queue : list json;
}.

(** Run a view of the store, or of the queue, on the peer's state. *)
Definition on_srv {A} (m : PyM server A) : PyM peer A :=
  fun p => let '(o, s') := m p.(peer_srv) in (o, Peer s' p.(peer_queue)).

Definition on_queue {A} (m : PyM (list json) A) : PyM peer A :=
  fun p => let '(o, q') := m p.(peer_queue) in (o, Peer p.(peer_srv) q').

(** [path.split('/')] *)
Fixpoint split_slash_go (acc : string) (s : string) : list string :=
  match s with
  | EmptyString => [acc]
  | String c s' =>
      if decide (c = "/"%char) then acc :: split_slash_go "" s'
      else split_slash_go (acc +:+ String c EmptyString) s'
  end.

Definition split_slash (s : string) : list string := split_slash_go "" s.

(** What the peer's [request.data] and [request.files] are: a JSON body
    for [data=json.dumps(...)], an empty body and one file part for
    [files={...}]. *)
Definition request_url (req : HttpRequest) : string :=
  match req with PostJson url _ => url | PostFile url _ _ _ => url end.
Definition request_body (req : HttpRequest) : option json :=
  match req with PostJson _ j => Some j | PostFile _ _ _ _ => None end.
Definition request_files (req : HttpRequest) : list (string * upload) :=
  match req with
  | PostJson _ _ => []
  | PostFile _ field fname bytes => [(field, Upload fname bytes)]
  end.

Section PeerViews.
Variable json_repr : json -> string.
Variable secure_filename : string -> string.
(** The peer's [app.config['base_path']] *)
Variable base_path : string.
(** The URL under which the peer is reached, [postproc_server]. *)
Variable peer_url : string.

(** Werkzeug's routing of a POST among the rules of [web.py] the client
    uses: [/workflow], [/queue], [/workflow/<workflow:workflow>/image];
    any other URL answers 404. *)
Definition peer_route (req : HttpRequest) : PyM peer ViewValue :=
  match strip_prefix peer_url (request_url req) with
  | None => py_abort 404
  | Some path =>
      match split_slash path with
      | [e; w] =>
          if decide (e = "" /\ w = "workflow") then
            on_srv (create_workflow json_repr base_path (request_body req))
          else if decide (e = "" /\ w = "queue") then
            on_queue (add_to_queue (request_body req))
          else py_abort 404
      | [e; w; seg; i] =>
          if decide (e = "" /\ w = "workflow" /\ i = "image") then
            on_srv (with_workflow seg (upload_workflow_image secure_filename (request_files req)))
          else py_abort 404
      | _ => py_abort 404
      end
  end.

(** The response the client receives: Flask's status, and the body that
    [resp.json] decodes ([None] for a body that is not JSON). *)
Definition to_response (o : Outcome ViewValue) : HttpResponse :=
  HttpResp (flask_status o)
    (match o with
     | Returned (VJson j) | Returned (VDumps j) => Some j
     | _ => None
     end).

(** The transport: every request reaches the peer, which never fails to
    answer. *)
Definition peer_post (req : HttpRequest) (p : peer) : PostResult * peer :=
  let '(o, p') := peer_route req p in (PostOk (to_response o), p').
End PeerViews.

(** ** The peer's answers to the client's requests *)

Section PeerProofs.
Variable json_repr : json -> string.
Variable secure_filename : string -> string.
Variable base_path : string.
Variable peer_url : string.

(** The workflow the peer stores for a creation request of [w]. *)
Definition created_on_peer (w : workflow) (p : peer) : workflow :=
  Workflow p.(peer_srv).(srv_next_id) base_path (path_stem w.(wf_name)) [] (Some "capture") (Some true) [].

Definition peer_after_create (w : workflow) (p : peer) : peer :=
  let s := p.(peer_srv) in
  Peer (Server (<[s.(srv_next_id) := created_on_peer w p]> s.(srv_workflows)) (S s.(srv_next_id))
          s.(srv_dirs) s.(srv_files))
       p.(peer_queue).

Lemma peer_post_create w p :
  peer_post json_repr secure_filename base_path peer_url (create_request peer_url w) p =
    (PostOk (HttpResp 200 (Some (workflow_to_dict (created_on_peer w p)))), peer_after_create w p).
Proof.
  unfold peer_post, peer_route, create_request. simpl. rewrite strip_prefix_app. simpl.
  unfold on_srv, create_workflow. py_unfold. done.
Qed.

Lemma peer_post_enqueue j p :
  exists resp,
    peer_post json_repr secure_filename base_path peer_url (enqueue_request peer_url j) p =
      (PostOk resp, Peer p.(peer_srv) (p.(peer_queue) ++ [j])) /\ resp_ok resp = true.
Proof.
  unfold peer_post, peer_route, enqueue_request. simpl. rewrite strip_prefix_app. simpl.
  unfold on_queue, add_to_queue. py_unfold. by eexists.
Qed.

(** A scanner whose peer is configured runs the three steps. *)
Lemma submit_workflow_scanner {R} (post : HttpRequest -> R -> PostResult * R) cfg w st :
  cfg.(cfg_mode) = "scanner" -> configured_server cfg.(cfg_postproc_server) = Some peer_url ->
  submit_workflow post RequestsPre1 cfg w st = submit_to_server post RequestsPre1 peer_url w st.
Proof. intros Hm Hs. unfold submit_workflow. rewrite Hm, Hs. reflexivity. Qed.

(** The peer after a sequence of requests, answered in order. *)
Definition peer_run (reqs : list HttpRequest) (p : peer) : peer :=
  foldl (fun p req => (peer_post json_repr secure_filename base_path peer_url req p).2) p reqs.

Lemma on_srv_state {A} (m : PyM server A) p :
  (on_srv m p).2 = Peer (m p.(peer_srv)).2 p.(peer_queue).
Proof. unfold on_srv. by destruct (m _). Qed.

Lemma on_queue_state {A} (m : PyM (list json) A) p :
  (on_queue m p).2 = Peer p.(peer_srv) (m p.(peer_queue)).2.
Proof. unfold on_queue. by destruct (m _). Qed.

Lemma add_to_queue_prefix body q : q `prefix_of` (add_to_queue body q).2.
Proof.
  unfold add_to_queue. py_unfold.
  destruct (json_loads body) as [d| |]; simpl; try done.
  destruct (py_getitem d "id"); simpl; try done. by eexists.
Qed.

Lemma with_workflow_inv seg (view : workflow -> PyM server ViewValue) s :
  (forall w s, server_inv s -> server_inv (view w s).2) ->
  server_inv s -> server_inv (with_workflow seg view s).2.
Proof.
  intros Hview Hinv. unfold with_workflow. py_unfold.
  destruct (workflow_converter seg s); simpl; auto.
Qed.

(** One request keeps the store invariant and extends the queue. *)
Lemma peer_post_inv req p :
  server_inv p.(peer_srv) ->
  let p' := (peer_post json_repr secure_filename base_path peer_url req p).2 in
  server_inv p'.(peer_srv) /\ p.(peer_queue) `prefix_of` p'.(peer_queue).
Proof.
  intros Hinv. unfold peer_post.
  assert (forall o p', peer_route json_repr secure_filename base_path peer_url req p = (o, p') ->
          server_inv p'.(peer_srv) /\ p.(peer_queue) `prefix_of` p'.(peer_queue)) as H.
  { unfold peer_route. intros o p' Hr.
    destruct (strip_prefix _ _); [|unfold py_abort in Hr; by simplify_eq].
    destruct (split_slash _) as [|e [|w [|seg [|i [|? ?]]]]];
      try (unfold py_abort in Hr; by simplify_eq).
    - repeat case_decide; try (unfold py_abort in Hr; by simplify_eq).
      + apply (f_equal snd) in Hr. rewrite on_srv_state in Hr. cbn [snd] in Hr. subst p'.
        split; [by apply create_workflow_inv|done].
      + apply (f_equal snd) in Hr. rewrite on_queue_state in Hr. cbn [snd] in Hr. subst p'.
        split; [done|apply add_to_queue_prefix].
    - case_decide; [|unfold py_abort in Hr; by simplify_eq].
      apply (f_equal snd) in Hr. rewrite on_srv_state in Hr. cbn [snd] in Hr. subst p'.
      split; [|done]. apply with_workflow_inv; [|done].
      intros ? ?. apply upload_workflow_image_inv. }
  destruct (peer_route _ _ _ _ req p) as [o p'] eqn:E. exact (H o p' eq_refl).
Qed.

(** Whatever sequence of requests reaches the peer, its store keeps
    the invariant (every workflow is stored under its own id, below the
    next id, so no creation overwrites one) and its queue only grows at
    its end: a job once enqueued stays at its position. *)
Theorem peer_run_inv reqs p :
  server_inv p.(peer_srv) ->
  server_inv (peer_run reqs p).(peer_srv) /\
  p.(peer_queue) `prefix_of` (peer_run reqs p).(peer_queue).
Proof.
  unfold peer_run. revert p. induction reqs as [|req reqs IH]; intros p Hinv; [done|].
  simpl. destruct (peer_post_inv req p Hinv) as [Hinv1 Hpre1].
  destruct (IH _ Hinv1) as [Hinv2 Hpre2]. split; [done|by trans (peer_queue (peer_post json_repr secure_filename base_path peer_url req p).2)].
Qed.

(** (C27) A scanner submitting to a peer that runs this same code: the
    peer stores a new workflow (named after the stem, in the capture step,
    done, without images) under its next id and answers with its
    dictionary, whose id is an integer.  With at least one image the
    client's URL join raises [TypeError] before any upload: the peer keeps
    an empty workflow and no job.  Without images the peer enqueues the
    integer id and the client's view still falls off its end.  Either way
    the scanner's client gets 500. *)
Theorem submit_to_peer cfg w p :
  cfg.(cfg_mode) = "scanner" ->
  configured_server cfg.(cfg_postproc_server) = Some peer_url ->
  let post := peer_post json_repr secure_filename base_path peer_url in
  let id := JNum (Z.of_nat p.(peer_srv).(srv_next_id)) in
  let r := submit_workflow post RequestsPre1 cfg w (p, []) in
  flask_status r.1 = 500%Z /\
  (w.(wf_images) <> [] ->
   r = (Raised TypeError, (peer_after_create w p, [create_request peer_url w]))) /\
  (w.(wf_images) = [] ->
   r = (Returned VNone,
        (Peer (peer_after_create w p).(peer_srv) (p.(peer_queue) ++ [id]),
         [create_request peer_url w; enqueue_request peer_url id]))).
Proof.
  intros Hmode Hsrv post id r.
  assert (w.(wf_images) <> [] ->
          r = (Raised TypeError, (peer_after_create w p, [create_request peer_url w]))) as Himgs.
  { intros Hne. subst r post. rewrite submit_workflow_scanner by done.
    unfold submit_to_server. py_unfold. unfold http_post at 1. rewrite peer_post_create. simpl.
    destruct (wf_images w) as [|img imgs]; [done|].
    by rewrite upload_images_not_string. }
  assert (w.(wf_images) = [] ->
          r = (Returned VNone,
               (Peer (peer_after_create w p).(peer_srv) (p.(peer_queue) ++ [id]),
                [create_request peer_url w; enqueue_request peer_url id]))) as Hnone.
  { intros He. subst r post. rewrite submit_workflow_scanner by done.
    unfold submit_to_server. py_unfold. unfold http_post at 1. rewrite peer_post_create. simpl.
    rewrite He. simpl. unfold enqueue_remote. py_unfold. unfold http_post.
    destruct (peer_post_enqueue (JNum (Z.of_nat p.(peer_srv).(srv_next_id))) (peer_after_create w p))
      as (resp & -> & Hok).
    by rewrite Hok. }
  split_and!; [|done|done].
  destruct (wf_images w) eqn:E; [by rewrite Hnone|by rewrite Himgs].
Qed.
End PeerProofs.

(** ** Witnesses *)

Definition demo_peer : peer := Peer demo_server_state [].

Lemma submit_to_peer_witness :
  submit_workflow (peer_post demo_repr (fun x => x) "/srv" demo_server) RequestsPre1 demo_cfg
    (demo_book [demo_img "0001.jpg"]) (demo_peer, []) =
  (Raised TypeError,
   (peer_after_create "/srv" (demo_book [demo_img "0001.jpg"]) demo_peer,
    [create_request demo_server (demo_book [demo_img "0001.jpg"])])).
Proof.
  destruct (submit_to_peer demo_repr (fun x => x) "/srv" demo_server demo_cfg
    (demo_book [demo_img "0001.jpg"]) demo_peer eq_refl eq_refl) as (_ & H & _).
  apply H. discriminate.
Defined.

