(* ===== verification/Capture.v ===== *)
(** * The capture views and the long poll that watches them

    [web.py] lines 351-378: [trigger_capture] enters the capture step when
    needed, captures (or retakes) and answers with the number of pages and
    the URLs of the last two images; [finish_capture] marks the capture
    step done.  Both run only in the ["scanner"] and ["full"] modes, here a
    real tuple.  Their state is the shared workflow object, the one that
    [poll_for_updates] observes: the last theorem of this file runs the
    spec's scenario of a poll woken by a capture. *)

From Stdlib Require Import ZArith Ascii String.
From stdpp Require Import base list strings.
From S2P Require Import Prelude Workflow Poller.

Local Open Scope py_scope.

Section Views.
(** [util.get_image_url(workflow, image)], outside [src/]. *)
Variable get_image_url : workflow -> image -> string.

(** [app.config['mode'] not in ('scanner', 'full')] *)
Definition capture_mode_ok (mode : string) : bool :=
  bool_decide (mode ∈ ["scanner"; "full"]).

(** The answer of [trigger_capture] for the workflow after the capture. *)
Definition capture_reply (w : workflow) : ViewValue :=
  VJson (JObj [("pages_shot", JNum (Z.of_nat (length w.(wf_images))));
               ("images", JArr (JStr <$> (get_image_url w <$> py_last_n 2 w.(wf_images))))]).

(** [POST /workflow/<id>/capture]; [retake] is ['retake' in request.args]
    and [shots] the images the devices deliver. *)
Definition trigger_capture (mode : string) (retake : bool) (shots : list image)
    : PyM workflow ViewValue :=
  if negb (capture_mode_ok mode) then py_abort 404 else
  w <- py_get ;;
  let w1 := if bool_decide (w.(wf_step) = Some "capture") then w else prepare_capture w in
  let w2 := capture shots retake w1 in
  py_put w2 ;;
  py_ret (capture_reply w2).

(** [POST /workflow/<id>/capture/finish] *)
Definition finish_capture_view (mode : string) : PyM workflow ViewValue :=
  if negb (capture_mode_ok mode) then py_abort 404 else
  w <- py_get ;;
  py_put (finish_capture w) ;;
  py_ret (VText "OK").
End Views.

(** ** Properties *)

Lemma trigger_capture_run url mode retake shots w :
  capture_mode_ok mode = true ->
  let w1 := if bool_decide (w.(wf_step) = Some "capture") then w else prepare_capture w in
  trigger_capture url mode retake shots w =
    (Returned (capture_reply url (capture shots retake w1)), capture shots retake w1).
Proof. intros Hm. unfold trigger_capture. by rewrite Hm. Qed.

(** (C14) [trigger_capture] in a capture mode leaves the workflow in the
    capture step with the new shots appended (or, on a retake, in place of
    as many last images), and answers with the new number of pages and the
    URLs of the last two images at most; in any other mode it answers 404
    and the workflow is untouched. *)
Theorem trigger_capture_spec url mode shots w :
  (capture_mode_ok mode = false -> trigger_capture url mode false shots w = (Aborted 404%Z, w)) /\
  (capture_mode_ok mode = true ->
   let w' := (trigger_capture url mode false shots w).2 in
   w'.(wf_images) = w.(wf_images) ++ shots /\
   w'.(wf_step) = Some "capture" /\
   (trigger_capture url mode false shots w).1 =
     Returned (VJson (JObj
       [("pages_shot", JNum (Z.of_nat (length w.(wf_images) + length shots)));
        ("images", JArr (JStr <$> (url w' <$> py_last_n 2 (w.(wf_images) ++ shots))))])) /\
   length (py_last_n 2 w'.(wf_images)) = Nat.min 2 (length w.(wf_images) + length shots)).
Proof.
  split; [intros Hm; unfold trigger_capture; by rewrite Hm|].
  intros Hm. rewrite trigger_capture_run by done. cbn zeta.
  case_bool_decide as Hst; split_and!; try done.
  all: try (unfold capture_reply; simpl; rewrite length_app; done).
  all: rewrite py_last_n_length; simpl; by rewrite length_app.
Qed.

(** The spec's scenario (section 8): a workflow with no image, in
    the capture step and not done, is being polled; a capture request of
    one page, or a request finishing the capture step, lands before the
    test of iteration [k].  The poll returns the workflow as that request
    left it: after the capture its snapshot counts one image, after the
    finish its step is done. *)
Theorem poll_wakes_on_capture url debug clock fuel k w0 shot :
  w0.(wf_images) = [] -> w0.(wf_step) = Some "capture" -> w0.(wf_step_done) = Some false ->
  (forall j, j <= k -> can_continue debug clock j = true) -> k < fuel ->
  let w1 := (trigger_capture url "scanner" false [shot] w0).2 in
  let w2 := (finish_capture_view "scanner" w0).2 in
  poll_for_updates debug (change_after (2 * k) w0 w1) clock fuel = Some (Returned w1) /\
  (snapshot_of w1).(sn_num_caps) = 1 /\
  poll_for_updates debug (change_after (2 * k) w0 w2) clock fuel = Some (Returned w2) /\
  (snapshot_of w2).(sn_step_done) = Some true.
Proof.
  intros Himgs Hst Hdone Hc Hk w1 w2.
  assert (w1.(wf_images) = [shot]) as Hw1.
  { subst w1. rewrite trigger_capture_run by done. simpl.
    case_bool_decide; simpl; by rewrite Himgs. }
  assert (w2.(wf_step_done) = Some true) as Hw2 by done.
  split_and!.
  - apply poll_wakes_at; [|done|done].
    unfold snapshot_of. rewrite Hw1, Himgs. by intros [=].
  - unfold snapshot_of. cbn [sn_num_caps]. by rewrite Hw1.
  - apply poll_wakes_at; [|done|done].
    unfold snapshot_of. rewrite Hw2, Hdone. by intros [=].
  - done.
Qed.

(** ** Witnesses *)

Definition demo_url (w : workflow) (img : image) : string := "/img/" +:+ img.(img_name).
Definition demo_empty : workflow :=
  Workflow 2 "/home/scans" "book" [] (Some "capture") (Some false) [].

Lemma trigger_capture_spec_witness :
  trigger_capture demo_url "processor" false [demo_page] demo_empty = (Aborted 404%Z, demo_empty) /\
  (trigger_capture demo_url "full" false [demo_page] demo_empty).2.(wf_images) = [demo_page].
Proof.
  destruct (trigger_capture_spec demo_url "processor" [demo_page] demo_empty) as [Hoff _].
  destruct (trigger_capture_spec demo_url "full" [demo_page] demo_empty) as [_ Hon].
  split; [by apply Hoff|]. destruct (Hon eq_refl) as [H _]. exact H.
Defined.

Lemma poll_wakes_on_capture_witness :
  poll_for_updates false
    (change_after (2 * 3) demo_empty (trigger_capture demo_url "scanner" false [demo_page] demo_empty).2)
    demo_clock 10 = Some (Returned (trigger_capture demo_url "scanner" false [demo_page] demo_empty).2) /\
  poll_for_updates false
    (change_after (2 * 3) demo_empty (finish_capture_view "scanner" demo_empty).2)
    demo_clock 10 = Some (Returned (finish_capture_view "scanner" demo_empty).2).
Proof.
  destruct (poll_wakes_on_capture demo_url false demo_clock 10 3 demo_empty demo_page)
    as (H1 & _ & H2 & _); try reflexivity; [lia|].
  split; [exact H1|exact H2].
Defined.
